(** * A DynamoDB-backed document store: credential lookup, remote call
      layer and storage driver

    Shallow embedding of [src/lib/aws.ts] (credential resolver and
    remote call layer) and of the storage driver ([Connection]) that sits
    on top of it, followed by the properties of the specification that are
    checked against it.

    Conventions of the embedding:
    - a JavaScript [string | undefined] is an [option string]; the empty
      string is the one falsy string;
    - a string holds the UTF-8 bytes of a JavaScript string, the form in
      which it goes to the remote store (a string with an unpaired
      surrogate has no such form and is left out); the store orders keys by
      these bytes ([String.leb], [String.ltb]), JavaScript's [<] and [<=]
      by UTF-16 code units ([Js.lt], [Js.le]); the two orders agree on
      ASCII text and differ between a supplementary character and one of
      U+E000..U+FFFF;
    - an object used as a dictionary is a [gmap string _];
    - asynchronous, effectful code is a state-and-exception monad over an
      abstract runtime (transport, clock, random source, timers); a
      recursive retry or a pagination loop takes a [fuel] argument and
      reports when it ran out of it. *)

From Stdlib Require Import String Ascii ZArith NArith List Bool Lia.
From stdpp Require Import gmap strings list fin_maps.
Import ListNotations.

Open Scope string_scope.

(** ** JavaScript string helpers *)

Module Js.

(** Truthiness of a [string | undefined]: undefined and the empty string are falsy. *)
Definition truthy (v : option string) : bool :=
  match v with
  | Some s => negb (String.eqb s "")
  | None => false
  end.

(** [a ?? b] *)
Definition nullish {A : Type} (a : option A) (b : option A) : option A :=
  match a with
  | Some x => Some x
  | None => b
  end.

(** [a ?? d] with a default that is never undefined. *)
Definition nullish_or {A : Type} (a : option A) (d : A) : A :=
  match a with
  | Some x => x
  | None => d
  end.

(** [s.startsWith(p)] *)
Definition startsWith (s p : string) : bool := String.prefix p s.

(** [s.includes(t)] on strings: t occurs somewhere in s. *)
Definition includes (s t : string) : bool :=
  match String.index 0 t s with
  | Some _ => true
  | None => false
  end.

(** [s.replaceAll(c, '')] for a one-character pattern. *)
Fixpoint removeAll (c : ascii) (s : string) : string :=
  match s with
  | EmptyString => EmptyString
  | String a rest =>
      if Ascii.eqb a c then removeAll c rest else String a (removeAll c rest)
  end.

(** [s.split(c)] for a one-character separator; never returns the empty list. *)
Fixpoint split (c : ascii) (s : string) : list string :=
  match s with
  | EmptyString => [EmptyString]
  | String a rest =>
      if Ascii.eqb a c then EmptyString :: split c rest
      else match split c rest with
           | [] => [String a EmptyString]
           | w :: ws => String a w :: ws
           end
  end.

(** White space removed by [trim], within the ASCII range: TAB, LF, VT, FF, CR, space. *)
Definition isSpace (a : ascii) : bool :=
  let n := nat_of_ascii a in
  ((9 <=? n)%nat && (n <=? 13)%nat) || (n =? 32)%nat.

Fixpoint trimStart (s : string) : string :=
  match s with
  | EmptyString => EmptyString
  | String a rest => if isSpace a then trimStart rest else s
  end.

(** Drops trailing white space: a character is kept when it is not a space
    or when something is kept after it. *)
Fixpoint trimEnd (s : string) : string :=
  match s with
  | EmptyString => EmptyString
  | String a rest =>
      match trimEnd rest with
      | EmptyString => if isSpace a then EmptyString else String a EmptyString
      | kept => String a kept
      end
  end.

Definition trim (s : string) : string := trimEnd (trimStart s).

(** The payload of a UTF-8 continuation byte [10xxxxxx]. *)
Definition continuation (a : ascii) : option N :=
  let n := N_of_ascii a in
  if ((128 <=? n) && (n <? 192))%N then Some (n - 128)%N else None.

(** The UTF-16 code units of a code point: itself, or a surrogate pair. *)
Definition utf16 (cp : N) : list N :=
  if (cp <? 65536)%N then [cp]
  else [(55296 + (cp - 65536) / 1024)%N; (56320 + (cp - 65536) mod 1024)%N].

(** The UTF-16 code units of the JavaScript string whose UTF-8 bytes are
    [s]: one for a sequence of one, two or three bytes, a surrogate pair for
    a sequence of four. A byte that starts no such sequence belongs to no
    JavaScript string; it is read as U+FFFD, as a decoder does. *)
Fixpoint codeUnits (s : string) : list N :=
  match s with
  | EmptyString => []
  | String a rest =>
      let n := N_of_ascii a in
      let stray := 65533%N :: codeUnits rest in
      if (n <? 128)%N then n :: codeUnits rest
      else
        match rest with
        | String b rest2 =>
            match continuation b with
            | Some x =>
                if (n <? 224)%N then
                  if (192 <=? n)%N then ((n - 192) * 64 + x)%N :: codeUnits rest2 else stray
                else
                  match rest2 with
                  | String c rest3 =>
                      match continuation c with
                      | Some y =>
                          if (n <? 240)%N then
                            ((n - 224) * 4096 + x * 64 + y)%N :: codeUnits rest3
                          else
                            match rest3 with
                            | String d rest4 =>
                                match continuation d with
                                | Some z =>
                                    if (n <? 248)%N then
                                      (utf16 ((n - 240) * 262144 + x * 4096 + y * 64 + z)%N
                                       ++ codeUnits rest4)%list
                                    else stray
                                | None => stray
                                end
                            | EmptyString => stray
                            end
                      | None => stray
                      end
                  | EmptyString => stray
                  end
            | None => stray
            end
        | EmptyString => stray
        end
  end.

(** Code unit by code unit; a proper prefix comes first. *)
Fixpoint compareUnits (a b : list N) : comparison :=
  match a, b with
  | [], [] => Eq
  | [], _ :: _ => Lt
  | _ :: _, [] => Gt
  | x :: a', y :: b' =>
      match (x ?= y)%N with
      | Eq => compareUnits a' b'
      | other => other
      end
  end.

(** [a < b] on strings *)
Definition lt (a b : string) : bool :=
  match compareUnits (codeUnits a) (codeUnits b) with
  | Lt => true
  | _ => false
  end.

(** [a <= b] on strings *)
Definition le (a b : string) : bool :=
  match compareUnits (codeUnits a) (codeUnits b) with
  | Gt => false
  | _ => true
  end.

(** Every character of [s] is an ASCII character. *)
Definition isAscii (s : string) : bool :=
  forallb (fun a => (N_of_ascii a <? 128)%N) (list_ascii_of_string s).

(** [xs.indexOf(x)]; [None] stands for -1. *)
Fixpoint indexOf (xs : list string) (x : string) : option nat :=
  match xs with
  | [] => None
  | y :: ys => if String.eqb y x then Some 0%nat
               else option_map S (indexOf ys x)
  end.

(** [xs.findIndex((x, ix) => p x ix)], counting indices from [from]. *)
Fixpoint findIndexFrom {A : Type} (p : A -> nat -> bool) (from : nat) (xs : list A)
  : option nat :=
  match xs with
  | [] => None
  | y :: ys => if p y from then Some from else findIndexFrom p (S from) ys
  end.

(** [xs.slice(b, e)]; an undefined end runs to the end of the array. *)
Definition slice {A : Type} (xs : list A) (b : nat) (e : option nat) : list A :=
  match e with
  | Some e => firstn (e - b) (skipn b xs)
  | None => skipn b xs
  end.

End Js.

(** ** Credential resolver ([localAwsEnv]) *)

Record LocalEnv := {
  AWS_REGION : string;
  AWS_ACCESS_KEY_ID : string;
  AWS_SECRET_ACCESS_KEY : string;
  AWS_SESSION_TOKEN : option string
}.

(** What [localAwsEnv] reads from its process: [process.env], the home
    directory and the file system ([None]: the read is rejected). *)
Record Process := {
  penv : gmap string string;
  homedir : string;
  readFile : string -> option string
}.

Inductive CredError :=
| ReadFailed (path : string)
| SectionNotFound            (* Error('Section not found.') *)
| IncompleteCredentials.     (* Error('Incomplete AWS credentials file.') *)

(** Result of one call: the returned promise, the module-level cache
    [cachedConfigLines] afterwards, and the paths read from disk. *)
Record CredRun := {
  cr_result : CredError + LocalEnv;
  cr_cache : option (list string);
  cr_reads : list string
}.

Module Credentials.

(** [join(homedir(), '.aws', 'credentials')] on a POSIX host. *)
Definition defaultPath (P : Process) : string :=
  homedir P +:+ "/.aws/credentials".

(** The lines kept from the credentials file. *)
Definition parseLines (content : string) : list string :=
  List.filter (fun line => negb (String.eqb line "") && negb (Js.startsWith line "#"))
         (map Js.trim (Js.split "010"%char content)).

(** [line.split('=')] followed by [[k?.trim(), v?.trim()]]. *)
Definition keyValue (line : string) : option string * option string :=
  match Js.split "="%char line with
  | [] => (None, None)
  | [k] => (Some (Js.trim k), None)
  | k :: v :: _ => (Some (Js.trim k), Some (Js.trim v))
  end.

(** [sectionLines.find(([k]) => k === name)?.[1]] *)
Fixpoint findValue (name : string) (kvs : list (option string * option string))
  : option string :=
  match kvs with
  | [] => None
  | (k, v) :: rest =>
      match k with
      | Some k' => if String.eqb k' name then v else findValue name rest
      | None => findValue name rest
      end
  end.

Definition localAwsEnv (P : Process) (cachedConfigLines : option (list string))
    (region profile : option string) : CredRun :=
  let AWS_REGION0 :=
    Js.nullish region (Js.nullish (penv P !! "AWS_REGION") (penv P !! "AWS_DEFAULT_REGION")) in
  let AWS_ACCESS_KEY_ID0 := penv P !! "AWS_ACCESS_KEY_ID" in
  let AWS_SECRET_ACCESS_KEY0 := penv P !! "AWS_SECRET_ACCESS_KEY" in
  (* read here, assigned again from the file below, and used nowhere in between *)
  let AWS_SESSION_TOKEN0 := penv P !! "AWS_SESSION_TOKEN" in
  let fast :=
    match AWS_REGION0, AWS_ACCESS_KEY_ID0, AWS_SECRET_ACCESS_KEY0 with
    | Some r, Some k, Some s =>
      if Js.truthy (Some r) && Js.truthy (Some k) && Js.truthy (Some s) then
        (* return { AWS_REGION, AWS_ACCESS_KEY_ID, AWS_SECRET_ACCESS_KEY } *)
        Some {| cr_result := inr {| AWS_REGION := r; AWS_ACCESS_KEY_ID := k;
                                    AWS_SECRET_ACCESS_KEY := s;
                                    AWS_SESSION_TOKEN := None |};
                cr_cache := cachedConfigLines; cr_reads := [] |}
      else None
    | _, _, _ => None
    end in
  match fast with
  | Some run => run
  | None =>
      let path := Js.nullish_or (penv P !! "AWS_SHARED_CREDENTIALS_FILE")
                                (defaultPath P) in
      let loaded :=
        match cachedConfigLines with
        | Some ls => Some (ls, [])
        | None => match readFile P path with
                  | Some content => Some (parseLines content, [path])
                  | None => None
                  end
        end in
      match loaded with
      | None => {| cr_result := inl (ReadFailed path);
                   cr_cache := cachedConfigLines; cr_reads := [path] |}
      | Some (configLines, reads) =>
          let section := "[" +:+ Js.nullish_or profile "default" +:+ "]" in
          let sectionBeginIx :=
            Js.nullish (Js.indexOf configLines section)
                       (Js.indexOf configLines "[default]") in
          match sectionBeginIx with
          | None => {| cr_result := inl SectionNotFound;
                       cr_cache := Some configLines; cr_reads := reads |}
          | Some b =>
              let sectionEndIx :=
                Js.findIndexFrom
                  (fun line ix => (b <? ix)%nat && Js.startsWith line "[") 0 configLines in
              let sectionLines :=
                map keyValue (Js.slice configLines (S b) sectionEndIx) in
              let AWS_REGION1 := Js.nullish AWS_REGION0 (findValue "region" sectionLines) in
              let AWS_ACCESS_KEY_ID1 := findValue "aws_access_key_id" sectionLines in
              let AWS_SECRET_ACCESS_KEY1 := findValue "aws_secret_access_key" sectionLines in
              let AWS_SESSION_TOKEN1 := findValue "aws_session_token" sectionLines in
              match AWS_REGION1, AWS_ACCESS_KEY_ID1, AWS_SECRET_ACCESS_KEY1 with
              | Some r, Some k, Some s =>
                  if Js.truthy (Some r) && Js.truthy (Some k) && Js.truthy (Some s) then
                    {| cr_result := inr {| AWS_REGION := r; AWS_ACCESS_KEY_ID := k;
                                           AWS_SECRET_ACCESS_KEY := s;
                                           AWS_SESSION_TOKEN := AWS_SESSION_TOKEN1 |};
                       cr_cache := Some configLines; cr_reads := reads |}
                  else {| cr_result := inl IncompleteCredentials;
                          cr_cache := Some configLines; cr_reads := reads |}
              | _, _, _ => {| cr_result := inl IncompleteCredentials;
                              cr_cache := Some configLines; cr_reads := reads |}
              end
          end
      end
  end.

End Credentials.

(** ** Wire data of the remote store *)

(** The tagged union [{S|N|...: value}]. The driver reads and writes only
    [S] and [N]; an [N] travels as a decimal string and is kept here as the
    integer it denotes. [AttrOther] stands for the remaining tags. *)
Inductive AttributeValue :=
| AttrS (s : string)
| AttrN (n : Z)
| AttrOther (tag : string).

(** [attr?.S] *)
Definition attrS (a : option AttributeValue) : option string :=
  match a with
  | Some (AttrS s) => Some s
  | _ => None
  end.

(** [attr?.N] *)
Definition attrN (a : option AttributeValue) : option Z :=
  match a with
  | Some (AttrN n) => Some n
  | _ => None
  end.

Abbreviation Item := (gmap string AttributeValue).

(** A value placed in [ExpressionAttributeValues] by [x && { S: x }]:
    [undefined] (dropped on the wire), the falsy string itself, or the
    attribute value. *)
Inductive ExprValue :=
| EvUndefined
| EvBare (s : string)
| EvAttr (a : AttributeValue).

(** [Number(s)], left symbolic: it is only sent to the remote. *)
Inductive JsNumber := Number (s : string).

Inductive BillingOptions :=
| PROVISIONED (ReadCapacityUnits WriteCapacityUnits : JsNumber)
| PAY_PER_REQUEST.

Record KeyCondition := {
  KeyConditionExpression : string;
  ExpressionAttributeNames : list (string * string);
  QExpressionAttributeValues : list (string * ExprValue)
}.

(** The request bodies the driver builds, one constructor per remote
    operation; the constructor stands for the JSON text [JSON.stringify]
    makes of it. *)
Inductive Body :=
| PutItemBody (TableName : string) (item : Item) (ConditionExpression : string)
| GetItemBody (TableName : string) (keyPartition keyKey : string)
| QueryBody (TableName : string) (ExclusiveStartKey : option Item) (cond : KeyCondition)
| UpdateItemBody (TableName : string) (keyPartition keyKey : string)
    (UpdateExpression ConditionExpression : string)
    (ExpressionAttributeValues : list (string * AttributeValue))
| DeleteItemBody (TableName : string) (keyPartition keyKey : string)
    (condition : option (string * list (string * AttributeValue)))
| CreateTableBody (TableName : string)
    (AttributeDefinitions KeySchema : list (string * string))
    (billing : BillingOptions).

(** The decoded JSON of a successful reply; [GetItem] fills [Item],
    [Query] fills [Items] and [LastEvaluatedKey]. *)
Record Response := {
  RItem : option Item;
  RItems : option (list Item);
  RLastEvaluatedKey : option Item
}.

Definition emptyResponse : Response :=
  {| RItem := None; RItems := None; RLastEvaluatedKey := None |}.

(** ** Errors *)

(** The [__type] member of an error body: declared [string[]] in the
    source, a plain string on the wire; [includes] exists on both. *)
Inductive TypeTag :=
| TagString (s : string)
| TagArray (l : list string).

(** [response.body] seen through [JSON.parse]: not JSON at all, or an
    object with or without [__type]. *)
Inductive ErrorBody :=
| Unparsable (raw : string)
| Parsed (__type : option TypeTag).

(** What the transport ([fetchJson]) can reject with: an error carrying
    the HTTP [response], or any other failure. *)
Inductive TransportError :=
| HttpError (status : Z) (body : ErrorBody)
| NetworkError (message : string).

(** Everything a driver operation can throw. *)
Inductive JsError :=
| Transport (e : TransportError)
| StatusError (message : string) (status : Z)   (* conflict(), notFound() *)
| PlainError (message : string)                 (* new Error(message) *)
| MissingVariable (name : string)               (* missing(name) *)
| SyntaxError.                                  (* JSON.parse *)

Definition conflict : JsError := StatusError "Conflict" 409.

Definition notFound : JsError := StatusError "Not found" 404.

Definition tagIncludes (t : TypeTag) (type : string) : bool :=
  match t with
  | TagString s => Js.includes s type
  | TagArray l => existsb (String.eqb type) l
  end.

Definition isErrorType (error : JsError) (type : string) : bool :=
  match error with
  | Transport (HttpError _ body) =>
      match body with
      | Unparsable _ => false
      | Parsed None => false
      | Parsed (Some t) => tagIncludes t type
      end
  | _ => false
  end.

(** ** Key ranges *)

(** A property of a range object: not there, there but undefined, or a string. *)
Inductive Field :=
| Absent
| Undefined
| Str (s : string).

(** ['name' in range] *)
Definition present (f : Field) : bool :=
  match f with
  | Absent => false
  | _ => true
  end.

(** [range.name] *)
Definition value (f : Field) : option string :=
  match f with
  | Str s => Some s
  | _ => None
  end.

(** Modelled from the spec: the type [KeyRange] is imported from
    [./schema.js], which is not among the sources. The spec gives it as a
    filter on the key that is one of [withPrefix: string] or
    [{after?: string, before?: string}]; "no filter" is an absent range
    ([option KeyRange] at the use sites). *)
Inductive KeyRange :=
| WithPrefix (withPrefix : string)
| Interval (after before : Field).

(** [x && { S: x }] *)
Definition andAttr (x : option string) : ExprValue :=
  match x with
  | None => EvUndefined
  | Some s => if Js.truthy (Some s) then EvAttr (AttrS s) else EvBare s
  end.

(** [terms.join(' and ')] *)
Fixpoint join (sep : string) (terms : list string) : string :=
  match terms with
  | [] => ""
  | [t] => t
  | t :: rest => t +:+ sep +:+ join sep rest
  end.

Definition queryFromRange (partition : string) (range : option KeyRange)
  : JsError + KeyCondition :=
  match range with
  | None =>
      inr {| KeyConditionExpression := "#p = :p";
             ExpressionAttributeNames := [("#p", "partition")];
             QExpressionAttributeValues := [(":p", EvAttr (AttrS partition))] |}
  | Some (WithPrefix withPrefix) =>
      inr {| KeyConditionExpression := "#p = :p AND begins_with(#k, :withPrefix)";
             ExpressionAttributeNames := [("#p", "partition"); ("#k", "key")];
             QExpressionAttributeValues :=
               [(":p", EvAttr (AttrS partition));
                (":withPrefix", EvAttr (AttrS withPrefix))] |}
  | Some (Interval after before) =>
      if present before || present after then
        let terms :=
          (["#p = :p"] ++
           (if Js.truthy (value after) then
              if Js.truthy (value before) then ["#k between :after and :before"]
              else [":after <= #k"]
            else if Js.truthy (value before) then ["#k < :before"]
            else []))%list in
        inr {| KeyConditionExpression := join " and " terms;
               ExpressionAttributeNames := [("#p", "partition"); ("#k", "key")];
               QExpressionAttributeValues :=
                 [(":p", EvAttr (AttrS partition));
                  (":before", andAttr (value before));
                  (":after", andAttr (value after))] |}
      else inl (PlainError "Unsupported range.")
  end.

(** The string held by a truthy [string | undefined]. *)
Definition str (v : option string) : string := Js.nullish_or v "".

Definition matchRange (range : option KeyRange) : string -> bool :=
  match range with
  | None => fun _ => true
  | Some (WithPrefix withPrefix) => fun key => Js.startsWith key withPrefix
  | Some (Interval after_ before_) =>
      if present before_ || present after_ then
        let after := value after_ in
        let before := value before_ in
        if Js.truthy after then
          if Js.truthy before then
            fun key => Js.le (str after) key && Js.lt key (str before)
          else
            fun key => Js.le (str after) key
        else if Js.truthy before then
          fun key => Js.lt key (str before)
        else fun _ => false
      else fun _ => false
  end.

(** ** Runtime and the driver monad *)

(** An [AbortSignal], by identity. *)
Inductive AbortSignal := Signal (id : nat).

(** The input of [SignatureV4.sign]: signer configuration and request. *)
Record SigningRequest := {
  sg_service : string;
  sg_region : string;
  sg_accessKeyId : string;
  sg_secretAccessKey : string;
  sg_sessionToken : option string;
  sg_method : string;
  sg_protocol : string;
  sg_hostname : string;
  sg_path : string;
  sg_headers : list (string * string);
  sg_body : Body
}.

(** One [fetchJson(url, init, message, fields)] call. [fc_signal] is the
    [signal] member of [init]: [None] when the object literal has none. *)
Record FetchCall := {
  fc_url : string;
  fc_method : string;
  fc_headers : list (string * string);
  fc_body : Body;
  fc_signal : option AbortSignal;
  fc_message : string;
  fc_target : string
}.

(** What the code needs from its host: the HTTP transport, the request
    signer, [randomUUID], [new Date().toISOString()] and the timer. The
    world [W] is everything outside the process, the remote store included. *)
Class Runtime (W : Type) := {
  fetchJson : FetchCall -> W -> (TransportError + Response) * W;
  sign : SigningRequest -> W -> list (string * string);
  randomUUID : W -> string * W;
  toISOString : W -> string;
  setTimeout : Z -> W -> W
}.

(** [JSON.stringify] and [JSON.parse] on the document payload; [None] is
    a thrown [SyntaxError]. *)
Class Json (J : Type) := {
  JSON_stringify : J -> string;
  JSON_parse : string -> option J
}.

Inductive Event :=
| EvFetch (call : FetchCall)
| EvSleep (ms : Z)
| EvLog (message : string).

(** State threaded through an operation: the world and what was done to it. *)
Record St (W : Type) := mkSt {
  world : W;
  trace : list Event
}.
Arguments mkSt {W} _ _.
Arguments world {W} _.
Arguments trace {W} _.

Inductive Outcome (A : Type) :=
| Return (a : A)
| Throw (e : JsError)
| OutOfFuel.
Arguments Return {A} _.
Arguments Throw {A} _.
Arguments OutOfFuel {A}.

Definition M (W A : Type) : Type := St W -> Outcome A * St W.

Definition ret {W A : Type} (a : A) : M W A := fun st => (Return a, st).

Definition throw {W A : Type} (e : JsError) : M W A := fun st => (Throw e, st).

Definition bind {W A B : Type} (m : M W A) (k : A -> M W B) : M W B :=
  fun st =>
    match m st with
    | (Return a, st') => k a st'
    | (Throw e, st') => (Throw e, st')
    | (OutOfFuel, st') => (OutOfFuel, st')
    end.

(** [try { m } catch (e) { handler e }] *)
Definition try_catch {W A : Type} (m : M W A) (handler : JsError -> M W A) : M W A :=
  fun st =>
    match m st with
    | (Throw e, st') => handler e st'
    | other => other
    end.

Notation "x <- m ;; k" := (bind m (fun x => k))
  (at level 100, m at next level, right associativity).
Notation "m ;;; k" := (bind m (fun _ => k))
  (at level 100, right associativity).

Definition emit {W : Type} (ev : Event) : M W unit :=
  fun st => (Return tt, mkSt (world st) (trace st ++ [ev])).

(** A record as the driver hands it to its caller. *)
Record Row (J : Type) := mkRow {
  partition : string;
  key : string;
  revision : option string;
  document : J
}.
Arguments mkRow {J} _ _ _ _.
Arguments partition {J} _.
Arguments key {J} _.
Arguments revision {J} _.
Arguments document {J} _.

(** The [Context] a connection is made with. [env] is the [Environment]
    object, [log] tells whether a logger is supplied. *)
Record Context := {
  env : option (gmap string string);
  log : bool;
  signal : option AbortSignal
}.

(** [env?.name] *)
Definition envVar (e : option (gmap string string)) (name : string) : option string :=
  match e with
  | Some m => m !! name
  | None => None
  end.

(** ** Remote call layer *)

Section RemoteCall.
Context {W : Type} `{Runtime W}.

(** The signed request [awsStringRequest] hands to [fetchJson]. The
    address is the text given to [new URL], which is what [new URL] makes
    of it for the path [/] and a region that is a host label in lower
    case; the address has no query. *)
Definition signedCall (env : LocalEnv)
    (method service path : string) (body : Body) (contentType target : string)
    (w : W) : FetchCall :=
  let hostname := service +:+ "." +:+ AWS_REGION env +:+ ".amazonaws.com" in
  let uri := "https://" +:+ hostname +:+ path in
  let headers :=
    sign {| sg_service := service;
            sg_region := AWS_REGION env;
            sg_accessKeyId := AWS_ACCESS_KEY_ID env;
            sg_secretAccessKey := AWS_SECRET_ACCESS_KEY env;
            sg_sessionToken := AWS_SESSION_TOKEN env;
            sg_method := method;
            sg_protocol := "https:";
            sg_hostname := hostname;
            sg_path := path;
            sg_headers :=
              ([("host", hostname); ("content-type", contentType);
                ("accept", "application/json")] ++
               (if Js.truthy (Some target) then [("X-Amz-Target", target)] else []))%list;
            sg_body := body |} w in
  (* fetchJson(uri.toString(), { method, headers, body }, 'Error fetching DynamoDB', { target }) *)
  {| fc_url := uri; fc_method := method; fc_headers := headers;
     fc_body := body; fc_signal := None;
     fc_message := "Error fetching DynamoDB"; fc_target := target |}.

(** The promise of [fetchJson] as an outcome. *)
Definition settle (reply : TransportError + Response) : Outcome Response :=
  match reply with
  | inl e => Throw (Transport e)
  | inr json => Return json
  end.

Definition awsStringRequest (env : LocalEnv)
    (method service path : string) (body : Body) (contentType target : string)
  : M W Response :=
  fun st =>
    let call := signedCall env method service path body contentType target (world st) in
    let reply := fetchJson call (world st) in
    (settle (fst reply), mkSt (snd reply) (trace st ++ [EvFetch call])).

Definition dbRequest (env : option (gmap string string)) (target : string) (body : Body)
  : M W Response :=
  match envVar env "AWS_REGION" with
  | None => throw (MissingVariable "AWS_REGION")
  | Some region =>
      match envVar env "AWS_ACCESS_KEY_ID" with
      | None => throw (MissingVariable "AWS_ACCESS_KEY_ID")
      | Some keyId =>
          match envVar env "AWS_SECRET_ACCESS_KEY" with
          | None => throw (MissingVariable "AWS_SECRET_ACCESS_KEY")
          | Some secret =>
              awsStringRequest
                {| AWS_REGION := region; AWS_ACCESS_KEY_ID := keyId;
                   AWS_SECRET_ACCESS_KEY := secret;
                   AWS_SESSION_TOKEN := envVar env "AWS_SESSION_TOKEN" |}
                "POST" "dynamodb" "/" body "application/json"
                ("DynamoDB_20120810." +:+ target)
          end
      end
  end.

End RemoteCall.

(** ** Storage driver ([Connection]) *)

Module Connection.
Section Driver.
Context {W : Type} `{Runtime W} {J : Type} `{Json J}.

(** [await setTimeout(ms)] *)
Definition sleep (ms : Z) : M W unit :=
  fun st => (Return tt, mkSt (setTimeout ms (world st)) (trace st ++ [EvSleep ms])).

(** [randomUUID().replaceAll('-', '')] *)
Definition freshRevision : M W string :=
  fun st =>
    let '(uuid, w') := randomUUID (world st) in
    (Return (Js.removeAll "-"%char uuid), mkSt w' (trace st)).

(** [new Date().toISOString()] *)
Definition now : M W string :=
  fun st => (Return (toISOString (world st)), st).

(** [this.#context.log?.debug(message, e, fields)] *)
Definition logDebug (ctx : Context) (message : string) : M W unit :=
  if log ctx then emit (EvLog message) else ret tt.

Definition tableName (ctx : Context) (table : string) : string :=
  Js.nullish_or (envVar (env ctx) "TABLE_PREFIX") "" +:+ table +:+
  Js.nullish_or (envVar (env ctx) "TABLE_POSTFIX") "".

(** The [tableOptions] of [#createTable]. *)
Definition tableOptions (ctx : Context) : BillingOptions :=
  match envVar (env ctx) "AWS_DYNAMODB_BILLING_METHOD" with
  | Some method =>
      if String.eqb method "PROVISIONED" then
        PROVISIONED
          (Number (Js.nullish_or (envVar (env ctx) "AWS_DYNAMODB_RCU") "1"))
          (Number (Js.nullish_or (envVar (env ctx) "AWS_DYNAMODB_WCU") "1"))
      else PAY_PER_REQUEST
  | None => PAY_PER_REQUEST
  end.

Definition createTable (ctx : Context) (table : string) : M W unit :=
  try_catch
    (_ <- dbRequest (env ctx) "CreateTable"
            (CreateTableBody (tableName ctx table)
               [("partition", "S"); ("key", "S")]
               [("partition", "HASH"); ("key", "RANGE")]
               (tableOptions ctx)) ;;
     ret tt)
    (fun e =>
       if isErrorType e "ResourceInUseException" then ret tt
       else throw e).

(** The [Item] of [add]. *)
Definition newItem (partition key revision now : string) (document : J) : Item :=
  <["partition" := AttrS partition]>
  (<["key" := AttrS key]>
  (<["revision" := AttrS revision]>
  (<["created" := AttrS now]>
  (<["updated" := AttrS now]>
  (<["seq" := AttrN 0]>
  (<["document" := AttrS (JSON_stringify document)]> ∅)))))).

(** [add]: each level of [fuel] is one attempt of the recursive retry.
    The [return revision] after the [try] statement is placed at the end
    of the [try] block; it cannot throw, and each [catch] branch leaves
    the function. *)
Fixpoint add (fuel : nat) (ctx : Context) (table partition key : string) (document : J)
  : M W string :=
  match fuel with
  | O => fun st => (OutOfFuel, st)
  | S fuel' =>
      revision <- freshRevision ;;
      try_catch
        (now <- now ;;
         _ <- dbRequest (env ctx) "PutItem"
                (PutItemBody (tableName ctx table)
                   (newItem partition key revision now document)
                   "attribute_not_exists(revision)") ;;
         ret revision)
        (fun e =>
           if isErrorType e "ResourceNotFoundException" then
             createTable ctx table ;;;
             sleep 1000 ;;;
             add fuel' ctx table partition key document
           else if isErrorType e "ResourceInUseException" then
             logDebug ctx "Table in use; retrying assuming it is being created." ;;;
             sleep 1000 ;;;
             add fuel' ctx table partition key document
           else if isErrorType e "ConditionalCheckFailedException" then
             throw conflict
           else throw e)
  end.

Definition get (ctx : Context) (table partition key : string) : M W (Row J) :=
  try_catch
    (result <- dbRequest (env ctx) "GetItem"
                 (GetItemBody (tableName ctx table) partition key) ;;
     match RItem result with
     | None => throw notFound
     | Some item =>
         match JSON_parse (Js.nullish_or (attrS (item !! "document")) "{}") with
         | None => throw SyntaxError
         | Some doc => ret (mkRow partition key (attrS (item !! "revision")) doc)
         end
     end)
    (fun e =>
       if isErrorType e "ResourceNotFoundException" then throw notFound
       else if isErrorType e "ResourceInUseException" then throw notFound
       else throw e).

(** The [for (const item of result.Items ?? [])] loop of [getPartition]:
    the rows it yields and the error that stopped it, if any. *)
Fixpoint yieldItems (range : option KeyRange) (items : list Item)
  : list (Row J) * option JsError :=
  match items with
  | [] => ([], None)
  | item :: rest =>
      let key := attrS (item !! "key") in
      if negb (Js.truthy key)
         || (match range with
             | Some _ => negb (matchRange range (str key))
             | None => false
             end)
      then yieldItems range rest
      else
        match JSON_parse (Js.nullish_or (attrS (item !! "document")) "{}") with
        | None => ([], Some SyntaxError)
        | Some doc =>
            let '(rows, err) := yieldItems range rest in
            (mkRow (Js.nullish_or (attrS (item !! "partition")) "") (str key)
                   (attrS (item !! "revision")) doc :: rows, err)
        end
  end.

(** A run of the generator: the rows yielded, then how it ended. *)
Definition Gen : Type := St W -> (list (Row J) * Outcome unit) * St W.

(** The [for (;;)] loop of [getPartition]; each level of [fuel] is one page. *)
Fixpoint scan (fuel : nat) (ctx : Context) (table partition : string)
    (range : option KeyRange) (lastEvaluatedKey : option Item) : Gen :=
  match fuel with
  | O => fun st => (([], OutOfFuel), st)
  | S fuel' => fun st =>
      match queryFromRange partition range with
      | inl e => (([], Throw e), st)
      | inr cond =>
          match dbRequest (env ctx) "Query"
                  (QueryBody (tableName ctx table) lastEvaluatedKey cond) st with
          | (Throw e, st') => (([], Throw e), st')
          | (OutOfFuel, st') => (([], OutOfFuel), st')
          | (Return result, st') =>
              match yieldItems range (Js.nullish_or (RItems result) []) with
              | (rows, Some e) => ((rows, Throw e), st')
              | (rows, None) =>
                  match RLastEvaluatedKey result with
                  | None => ((rows, Return tt), st')
                  | Some k =>
                      let '((more, out), st'') :=
                        scan fuel' ctx table partition range (Some k) st' in
                      ((rows ++ more, out)%list, st'')
                  end
              end
          end
      end
  end.

(** The [catch] clause around the loop of [getPartition]. *)
Definition endOfScan (out : Outcome unit) : Outcome unit :=
  match out with
  | Throw e =>
      if isErrorType e "ResourceNotFoundException" then Return tt
      else if isErrorType e "ResourceInUseException" then Return tt
      else Throw e
  | other => other
  end.

Definition getPartition (fuel : nat) (ctx : Context) (table partition : string)
    (range : option KeyRange) : Gen :=
  fun st =>
    let '((rows, out), st') := scan fuel ctx table partition range None st in
    ((rows, endOfScan out), st').

Fixpoint update (fuel : nat) (ctx : Context) (table partition key : string)
    (currentRevision : string) (document : J) : M W string :=
  match fuel with
  | O => fun st => (OutOfFuel, st)
  | S fuel' =>
      newRevision <- freshRevision ;;
      try_catch
        (now <- now ;;
         _ <- dbRequest (env ctx) "UpdateItem"
                (UpdateItemBody (tableName ctx table) partition key
                   "ADD seq :one SET revision = :newRevision, updated = :now, document = :document"
                   "revision = :oldRevision"
                   [(":one", AttrN 1);
                    (":oldRevision", AttrS currentRevision);
                    (":newRevision", AttrS newRevision);
                    (":now", AttrS now);
                    (":document", AttrS (JSON_stringify document))]) ;;
         ret newRevision)
        (fun e =>
           if isErrorType e "ConditionalCheckFailedException" then throw conflict
           else if isErrorType e "ResourceInUseException" then
             logDebug ctx "Table in use; retrying assuming it is being created." ;;;
             sleep 1000 ;;;
             update fuel' ctx table partition key currentRevision document
           else if isErrorType e "ResourceNotFoundException" then throw conflict
           else throw e)
  end.

(** [delete]; [currentRevision] is [None] when the argument is undefined. *)
Definition delete (ctx : Context) (table partition key : string)
    (currentRevision : option string) : M W unit :=
  try_catch
    (let deleteParams :=
       DeleteItemBody (tableName ctx table) partition key
         (match currentRevision with
          | Some r => Some ("revision = :oldRevision", [(":oldRevision", AttrS r)])
          | None => None
          end) in
     _ <- dbRequest (env ctx) "DeleteItem" deleteParams ;;
     ret tt)
    (fun e =>
       if isErrorType e "ConditionalCheckFailedException" then throw conflict
       else if isErrorType e "ResourceInUseException" then ret tt
       else if isErrorType e "ResourceNotFoundException" then
         if Js.truthy currentRevision then throw conflict
         else ret tt
       else throw e).

End Driver.
End Connection.

(** ** A model of the remote store

    The remote service is not part of the program. For the properties that
    depend on what it stores, it is modelled here by the behaviour the
    driver's requests rely on: tables that take some time to become active
    after [CreateTable] and are not found until then, conditional puts,
    updates and deletes on the pair (partition, key), and the error types
    the driver looks for. The expressions are the strings the driver sends;
    any other expression is refused as invalid. Limits of the real service
    on names, sizes and values are left out. *)

Module Dynamo.

Inductive TableStatus :=
| CREATING (remaining : nat)
| ACTIVE.

Record Table := {
  status : TableStatus;
  rows : gmap (string * string) Item
}.

Record World := {
  tables : gmap string Table;
  uuids : nat -> string;          (* the random source *)
  drawn : nat;                    (* how many UUIDs were drawn *)
  seconds : nat;                  (* time elapsed *)
  isoTime : nat -> string;        (* the calendar *)
  provisioning : nat;             (* seconds a new table stays in CREATING, less one *)
  signature : SigningRequest -> string
}.

Definition withTables (w : World) (ts : gmap string Table) : World :=
  {| tables := ts; uuids := uuids w; drawn := drawn w; seconds := seconds w;
     isoTime := isoTime w; provisioning := provisioning w; signature := signature w |}.

Definition failure (status : Z) (type : string) : TransportError + Response :=
  inl (HttpError status (Parsed (Some (TagString type)))).

Definition ResourceNotFound := failure 400 "com.amazonaws.dynamodb.v20120810#ResourceNotFoundException".
Definition ResourceInUse := failure 400 "com.amazonaws.dynamodb.v20120810#ResourceInUseException".
Definition ConditionalCheckFailed :=
  failure 400 "com.amazonaws.dynamodb.v20120810#ConditionalCheckFailedException".
Definition Validation := failure 400 "com.amazon.coral.validate#ValidationException".

(** The rows of a table that is there and active. *)
Definition activeRows (w : World) (name : string) : option (gmap (string * string) Item) :=
  match tables w !! name with
  | Some t => match status t with
              | ACTIVE => Some (rows t)
              | CREATING _ => None
              end
  | None => None
  end.

Definition setRows (w : World) (name : string) (rs : gmap (string * string) Item) : World :=
  withTables w (<[name := {| status := ACTIVE; rows := rs |}]> (tables w)).

Fixpoint assoc {A : Type} (name : string) (l : list (string * A)) : option A :=
  match l with
  | [] => None
  | (n, v) :: rest => if String.eqb n name then Some v else assoc name rest
  end.

(** [revision = :oldRevision] on a stored item, absent or not. *)
Definition revisionIs (stored : option Item) (vals : list (string * AttributeValue)) : bool :=
  match stored, assoc ":oldRevision" vals with
  | Some item, Some (AttrS r) =>
      match item !! "revision" with
      | Some (AttrS r') => String.eqb r' r
      | _ => false
      end
  | _, _ => false
  end.

Definition putItem (w : World) (name : string) (item : Item) (cond : string)
  : (TransportError + Response) * World :=
  match activeRows w name with
  | None => (ResourceNotFound, w)
  | Some rs =>
      match attrS (item !! "partition"), attrS (item !! "key") with
      | Some p, Some k =>
          if String.eqb cond "attribute_not_exists(revision)" then
            match rs !! (p, k) with
            | Some old =>
                match old !! "revision" with
                | Some _ => (ConditionalCheckFailed, w)
                | None => (inr emptyResponse, setRows w name (<[(p, k) := item]> rs))
                end
            | None => (inr emptyResponse, setRows w name (<[(p, k) := item]> rs))
            end
          else (Validation, w)
      | _, _ => (Validation, w)
      end
  end.

Definition getItem (w : World) (name p k : string) : (TransportError + Response) * World :=
  match activeRows w name with
  | None => (ResourceNotFound, w)
  | Some rs =>
      (inr {| RItem := rs !! (p, k); RItems := None; RLastEvaluatedKey := None |}, w)
  end.

Definition updateItem (w : World) (name p k : string) (upd cond : string)
    (vals : list (string * AttributeValue)) : (TransportError + Response) * World :=
  match activeRows w name with
  | None => (ResourceNotFound, w)
  | Some rs =>
      if String.eqb upd
           "ADD seq :one SET revision = :newRevision, updated = :now, document = :document"
         && String.eqb cond "revision = :oldRevision"
      then
        match rs !! (p, k), assoc ":one" vals, assoc ":newRevision" vals,
              assoc ":now" vals, assoc ":document" vals with
        | Some old, Some (AttrN one), Some newRevision, Some now, Some document =>
            if revisionIs (Some old) vals then
              let written (seq : Z) : Item :=
                <["document" := document]>
                (<["updated" := now]>
                (<["revision" := newRevision]>
                (<["seq" := AttrN (seq + one)]> old))) in
              match old !! "seq" with
              | Some (AttrN n) =>
                  (inr emptyResponse, setRows w name (<[(p, k) := written n]> rs))
              | None =>
                  (inr emptyResponse, setRows w name (<[(p, k) := written 0%Z]> rs))
              | Some _ => (Validation, w)
              end
            else (ConditionalCheckFailed, w)
        | None, Some (AttrN _), Some _, Some _, Some _ => (ConditionalCheckFailed, w)
        | _, _, _, _, _ => (Validation, w)
        end
      else (Validation, w)
  end.

Definition deleteItem (w : World) (name p k : string)
    (condition : option (string * list (string * AttributeValue)))
  : (TransportError + Response) * World :=
  match activeRows w name with
  | None => (ResourceNotFound, w)
  | Some rs =>
      match condition with
      | None => (inr emptyResponse, setRows w name (base.delete (p, k) rs))
      | Some (cond, vals) =>
          if String.eqb cond "revision = :oldRevision" then
            if revisionIs (rs !! (p, k)) vals
            then (inr emptyResponse, setRows w name (base.delete (p, k) rs))
            else (ConditionalCheckFailed, w)
          else (Validation, w)
      end
  end.

Definition exprS (name : string) (vals : list (string * ExprValue)) : option string :=
  match assoc name vals with
  | Some (EvAttr (AttrS s)) => Some s
  | _ => None
  end.

(** The key conditions [queryFromRange] can produce, on one stored key. *)
Definition keyCondition (cond : KeyCondition) (p k : string) : option bool :=
  let vals := QExpressionAttributeValues cond in
  let e := KeyConditionExpression cond in
  match exprS ":p" vals with
  | None => None
  | Some p' =>
      let inPartition := String.eqb p p' in
      if String.eqb e "#p = :p" then Some inPartition
      else if String.eqb e "#p = :p AND begins_with(#k, :withPrefix)" then
        option_map (fun s => inPartition && String.prefix s k) (exprS ":withPrefix" vals)
      else if String.eqb e "#p = :p and #k between :after and :before" then
        match exprS ":after" vals, exprS ":before" vals with
        | Some a, Some b => Some (inPartition && String.leb a k && String.leb k b)
        | _, _ => None
        end
      else if String.eqb e "#p = :p and :after <= #k" then
        option_map (fun a => inPartition && String.leb a k) (exprS ":after" vals)
      else if String.eqb e "#p = :p and #k < :before" then
        option_map (fun b => inPartition && String.ltb k b) (exprS ":before" vals)
      else None
  end.

(** A value that is not an attribute value is refused. *)
Definition malformed (entry : string * ExprValue) : bool :=
  match snd entry with
  | EvBare _ => true
  | _ => false
  end.

(** A query answered in one page. *)
Definition query (w : World) (name : string) (cond : KeyCondition)
  : (TransportError + Response) * World :=
  match activeRows w name with
  | None => (ResourceNotFound, w)
  | Some rs =>
      match exprS ":p" (QExpressionAttributeValues cond) with
      | None => (Validation, w)
      | Some p =>
          if existsb malformed (QExpressionAttributeValues cond) then (Validation, w)
          else
          match keyCondition cond p "" with
          | None => (Validation, w)
          | Some _ =>
              let hits :=
                List.filter
                  (fun '((p', k), _) =>
                     match keyCondition cond p' k with
                     | Some b => b
                     | None => false
                     end)
                  (map_to_list rs) in
              (inr {| RItem := None; RItems := Some (map snd hits);
                      RLastEvaluatedKey := None |}, w)
          end
      end
  end.

Definition createTable (w : World) (name : string) : (TransportError + Response) * World :=
  match tables w !! name with
  | Some _ => (ResourceInUse, w)
  | None =>
      (inr emptyResponse,
       withTables w (<[name := {| status := CREATING (provisioning w); rows := ∅ |}]>
                       (tables w)))
  end.

Definition fetch (call : FetchCall) (w : World) : (TransportError + Response) * World :=
  match fc_body call with
  | PutItemBody name item cond => putItem w name item cond
  | GetItemBody name p k => getItem w name p k
  | QueryBody name _ cond => query w name cond
  | UpdateItemBody name p k upd cond vals => updateItem w name p k upd cond vals
  | DeleteItemBody name p k condition => deleteItem w name p k condition
  | CreateTableBody name _ _ _ => createTable w name
  end.

(** One second passes: tables being created come closer to active. *)
Definition age (t : Table) : Table :=
  match status t with
  | CREATING (S n) => {| status := CREATING n; rows := rows t |}
  | CREATING O => {| status := ACTIVE; rows := rows t |}
  | ACTIVE => t
  end.

Definition tick (w : World) : World :=
  {| tables := age <$> tables w; uuids := uuids w; drawn := drawn w;
     seconds := S (seconds w); isoTime := isoTime w;
     provisioning := provisioning w; signature := signature w |}.

Definition draw (w : World) : string * World :=
  (uuids w (drawn w),
   {| tables := tables w; uuids := uuids w; drawn := S (drawn w);
      seconds := seconds w; isoTime := isoTime w;
      provisioning := provisioning w; signature := signature w |}).

#[global] Instance runtime : Runtime World := {
  fetchJson := fetch;
  sign := fun req w => (sg_headers req ++ [("authorization", signature w req)])%list;
  randomUUID := draw;
  toISOString := fun w => isoTime w (seconds w);
  setTimeout := fun ms w => Nat.iter (Z.to_nat (ms / 1000)) tick w
}.

End Dynamo.

(** ** Sample instances used to run the definitions *)

(** A few JSON documents with their texts. *)
Inductive Literal :=
| LNull
| LTrue
| LFalse
| LEmptyObject.

#[global] Instance literalJson : Json Literal := {
  JSON_stringify := fun d =>
    match d with
    | LNull => "null"
    | LTrue => "true"
    | LFalse => "false"
    | LEmptyObject => "{}"
    end;
  JSON_parse := fun s =>
    if String.eqb s "null" then Some LNull
    else if String.eqb s "true" then Some LTrue
    else if String.eqb s "false" then Some LFalse
    else if String.eqb s "{}" then Some LEmptyObject
    else None
}.

(** A transport that answers from a prepared list of replies, whatever
    the request: any remote behaviour can be played through it. *)
Module Scripted.

Definition World : Type := list (TransportError + Response).

Definition next (call : FetchCall) (w : World) : (TransportError + Response) * World :=
  match w with
  | reply :: rest => (reply, rest)
  | [] => (inl (NetworkError "connection closed"), [])
  end.

#[global] Instance runtime : Runtime World := {
  fetchJson := next;
  sign := fun req _ => sg_headers req;
  randomUUID := fun w => ("123e4567-e89b-42d3-a456-426614174000", w);
  toISOString := fun _ => "2024-05-01T10:00:00.000Z";
  setTimeout := fun _ w => w
}.

End Scripted.

Module Sample.

Definition variables : gmap string string :=
  <["AWS_REGION" := "eu-west-1"]>
  (<["AWS_ACCESS_KEY_ID" := "AKIDEXAMPLE"]>
  (<["AWS_SECRET_ACCESS_KEY" := "wJalrXUtnFEMI"]>
  (<["AWS_SESSION_TOKEN" := "FwoGZXIvYXdzEBY"]>
  (<["TABLE_PREFIX" := "DocsTests."]> ∅)))).

(** A context with credentials, a logger and an abort signal. *)
Definition context : Context :=
  {| env := Some variables; log := true; signal := Some (Signal 1) |}.

(** A process whose environment holds credentials with a session token. *)
Definition process : Process :=
  {| penv := variables; homedir := "/home/dev"; readFile := fun _ => None |}.

Definition uuid (n : nat) : string :=
  String (ascii_of_nat (97 + n)) "f1e2d3c-4b5a-4978-8695-a4b3c2d1e0f9".

Definition isoTime (n : nat) : string :=
  "2024-05-01T10:00:0" +:+ String (ascii_of_nat (48 + n)) ".000Z".

(** A remote store without any table, where a new table is ready after two seconds. *)
Definition emptyStore : Dynamo.World :=
  {| Dynamo.tables := ∅; Dynamo.uuids := uuid; Dynamo.drawn := 0;
     Dynamo.seconds := 0; Dynamo.isoTime := isoTime; Dynamo.provisioning := 1;
     Dynamo.signature := fun _ => "AWS4-HMAC-SHA256 Credential=AKIDEXAMPLE" |}.

(** The store after [add('docs', 'p', 'k', true)]. *)
Definition afterAdd : St Dynamo.World :=
  snd (Connection.add 3 context "docs" "p" "k" LTrue (mkSt emptyStore [])).

Definition item (key : string) : Item :=
  <["partition" := AttrS "p"]> (<["key" := AttrS key]>
  (<["revision" := AttrS "r1"]> (<["document" := AttrS "true"]> ∅))).

(** One page of query results with the keys a, b and c. *)
Definition page : Response :=
  {| RItem := None; RItems := Some [item "a"; item "b"; item "c"];
     RLastEvaluatedKey := None |}.

Definition tableNotFound : TransportError :=
  HttpError 400
    (Parsed (Some (TagString "com.amazonaws.dynamodb.v20120810#ResourceNotFoundException"))).

(** The reply of the remote to a request it cannot read. *)
Definition invalidRequest : TransportError :=
  HttpError 400 (Parsed (Some (TagString "com.amazon.coral.validate#ValidationException"))).

(** U+1F600, a supplementary character: four bytes, the surrogate pair D83D DE00. *)
Definition grinningFace : string :=
  String "240"%char (String "159"%char (String "152"%char (String "128"%char EmptyString))).

(** U+FF5E, of the basic plane above the surrogates: three bytes, one code unit. *)
Definition fullwidthTilde : string :=
  String "239"%char (String "189"%char (String "158"%char EmptyString)).

End Sample.

(** ** Notions used in the statements *)

(** The three variables [dbRequest] insists on are set. *)
Definition hasCredentials (ctx : Context) : bool :=
  match envVar (env ctx) "AWS_REGION", envVar (env ctx) "AWS_ACCESS_KEY_ID",
        envVar (env ctx) "AWS_SECRET_ACCESS_KEY" with
  | Some _, Some _, Some _ => true
  | _, _, _ => false
  end.

(** The text [t] occurs in [s]. *)
Definition occursIn (t s : string) : Prop :=
  exists front back, s = front +:+ t +:+ back.

(** A remote situation by its name: the call was rejected with an error
    response whose body is a JSON object with a [__type] that names
    [type], as a text in which the name occurs or as an array that holds
    it. The service sends the name after a namespace, as in
    [com.amazonaws.dynamodb.v20120810#ResourceNotFoundException]. *)
Definition errorOfType (e : JsError) (type : string) : Prop :=
  exists status tag,
    e = Transport (HttpError status (Parsed (Some tag))) /\
    match tag with
    | TagString s => occursIn type s
    | TagArray l => In type l
    end.

(** A document survives [JSON.stringify] followed by [JSON.parse]. *)
Definition serializable {J : Type} `{Json J} (document : J) : Prop :=
  JSON_parse (JSON_stringify document) = Some document.

(** The item stored under an identity, in a table that is active. *)
Definition stored (w : Dynamo.World) (name partition key : string) : option Item :=
  match Dynamo.activeRows w name with
  | Some rs => rs !! (partition, key)
  | None => None
  end.

(** No table of that name holds an item under the identity. *)
Definition vacant (w : Dynamo.World) (name partition key : string) : bool :=
  match Dynamo.tables w !! name with
  | Some t => match Dynamo.rows t !! (partition, key) with
              | Some _ => false
              | None => true
              end
  | None => true
  end.

(** Attempts [add] needs before the table of that name takes the item. *)
Definition attempts (w : Dynamo.World) (name : string) : nat :=
  match Dynamo.tables w !! name with
  | None => Dynamo.provisioning w + 2
  | Some t => match Dynamo.status t with
              | Dynamo.CREATING n => n + 2
              | Dynamo.ACTIVE => 1
              end
  end.

(** The range predicate in the words of the specification: its table of
    client-side re-checks, row by row, with the comparisons of the
    language the re-check is written in. *)
Definition exactRange (range : KeyRange) (k : string) : bool :=
  match range with
  | WithPrefix s => Js.startsWith k s
  | Interval after before =>
      match value after, value before with
      | Some a, Some b => Js.le a k && Js.lt k b
      | Some a, None => Js.le a k
      | None, Some b => Js.lt k b
      | None, None => true
      end
  end.

(** [range.before], for any range. *)
Definition upperBound (range : KeyRange) : option string :=
  match range with
  | WithPrefix _ => None
  | Interval _ before => value before
  end.

(** The fetch calls among some events. *)
Definition fetches (events : list Event) : list FetchCall :=
  omap (fun ev => match ev with EvFetch call => Some call | _ => None end) events.

Section Scans.
Context {W : Type} `{Runtime W} {J : Type} `{Json J}.

(** [pages c s n rows c' s']: starting a scan at cursor [c] in state [s],
    [n] pages are answered with a continuation cursor and without a
    failure, they yield [rows], and the scan stands at cursor [c'] in
    state [s']. *)
Inductive pages (ctx : Context) (table partition : string) (range : option KeyRange)
  : option Item -> St W -> nat -> list (Row J) -> option Item -> St W -> Prop :=
| pages_done c s : pages ctx table partition range c s 0 [] c s
| pages_more c s cond result s1 rows k n more c' s' :
    queryFromRange partition range = inr cond ->
    dbRequest (env ctx) "Query"
      (QueryBody (Connection.tableName ctx table) c cond) s = (Return result, s1) ->
    Connection.yieldItems range (Js.nullish_or (RItems result) []) = (rows, None) ->
    RLastEvaluatedKey result = Some k ->
    pages ctx table partition range (Some k) s1 n more c' s' ->
    pages ctx table partition range c s (S n) (rows ++ more)%list c' s'.

End Scans.

(** The item the store holds after the driver's update of [old], whose [seq] was [seq]. *)
Definition updated (old : Item) (seq : Z) (revision now document : string) : Item :=
  <["document" := AttrS document]>
  (<["updated" := AttrS now]>
  (<["revision" := AttrS revision]>
  (<["seq" := AttrN (seq + 1)]> old))).

(** None of the fetch calls among some events carries a signal. *)
Definition withoutSignal (events : list Event) : Prop :=
  Forall (fun call => fc_signal call = None) (fetches events).

(** From any state, the computation only appends events, and the fetch
    calls among them carry no signal. *)
Definition sendsNoSignal {W A : Type} (m : St W -> A * St W) : Prop :=
  forall st, exists new, trace (snd (m st)) = (trace st ++ new)%list /\ withoutSignal new.

(** ** The hash primitive handed to the signer ([AwsHash]) *)


(** [SourceData = string | ArrayBuffer | ArrayBufferView]. A view is a
    window on the bytes of its buffer; a [Buffer] is the view that
    [Buffer.isBuffer] recognises. *)
Inductive SourceData :=
| SdString (s : string)
| SdArrayBuffer (bytes : list Byte.byte)
| SdView (buffer : list Byte.byte) (byteOffset byteLength : nat)
| SdBuffer (buffer : list Byte.byte) (byteOffset byteLength : nat).

Module AwsHash.

(** A hash object of [node:crypto]: the key of an HMAC, the bytes fed so
    far, and whether [digest] was taken, after which it takes no more
    bytes. *)
Record NodeHash := {
  hmacKey : option (list Byte.byte);
  fed : list Byte.byte;
  finalized : bool
}.

Definition createHash : NodeHash :=
  {| hmacKey := None; fed := []; finalized := false |}.

Definition createHmac (key : list Byte.byte) : NodeHash :=
  {| hmacKey := Some key; fed := []; finalized := false |}.

(** [hash.update(bytes)]; [None] is the error thrown on a finalized hash. *)
Definition nodeUpdate (h : NodeHash) (bytes : list Byte.byte) : option NodeHash :=
  if finalized h then None
  else Some {| hmacKey := hmacKey h; fed := (fed h ++ bytes)%list; finalized := false |}.


(** The bytes a view shows of its buffer. *)
Definition window (buffer : list Byte.byte) (byteOffset byteLength : nat) : list Byte.byte :=
  firstn byteLength (skipn byteOffset buffer).

Definition castSourceData (data : SourceData) : list Byte.byte :=
  match data with
  | SdBuffer buffer byteOffset byteLength => window buffer byteOffset byteLength
  | SdString s => list_byte_of_string s
  | SdView buffer byteOffset byteLength => window buffer byteOffset byteLength
  | SdArrayBuffer bytes => bytes
  end.

(** Truthiness of [secret?: SourceData]: undefined and the empty string are falsy. *)
Definition truthySecret (secret : option SourceData) : bool :=
  match secret with
  | None => false
  | Some (SdString s) => Js.truthy (Some s)
  | Some _ => true
  end.

Definition makeHash (secret : option SourceData) : NodeHash :=
  match secret with
  | Some data => if truthySecret secret then createHmac (castSourceData data) else createHash
  | None => createHash
  end.

(** The private fields [#secret] and [#hash]. *)
Record t := {
  secret : option SourceData;
  hash : NodeHash
}.

(** [new AwsHash(secret)] *)
Definition new (secret : option SourceData) : t :=
  {| secret := secret; hash := makeHash secret |}.



(** [update(chunk)]; [None] when the hash throws. *)
Definition update (a : t) (chunk : list Byte.byte) : option t :=
  match nodeUpdate (hash a) chunk with
  | Some h => Some {| secret := secret a; hash := h |}
  | None => None
  end.


End AwsHash.

(** ** Further instances and notions *)

(** A remote that answers every request with ResourceInUseException. *)
Module Busy.

Definition World : Type := nat.

Definition tableInUse : TransportError :=
  HttpError 400
    (Parsed (Some (TagString "com.amazonaws.dynamodb.v20120810#ResourceInUseException"))).

#[global] Instance runtime : Runtime World := {
  fetchJson := fun _ n => (inl tableInUse, S n);
  sign := fun req _ => sg_headers req;
  randomUUID := fun n => ("123e4567-e89b-42d3-a456-426614174000", n);
  toISOString := fun _ => "2024-05-01T10:00:00.000Z";
  setTimeout := fun _ n => n
}.

End Busy.

(** The context of [src/test/driver.ts]:
    [{ env: { ...(await localAwsEnv()), TABLE_PREFIX: 'DocsTests.' } }]. *)
Definition testContext (c : LocalEnv) : Context :=
  let credentials : gmap string string :=
    <["AWS_REGION" := AWS_REGION c]>
    (<["AWS_ACCESS_KEY_ID" := AWS_ACCESS_KEY_ID c]>
    (<["AWS_SECRET_ACCESS_KEY" := AWS_SECRET_ACCESS_KEY c]>
    (match AWS_SESSION_TOKEN c with
     | Some token => <["AWS_SESSION_TOKEN" := token]> ∅
     | None => ∅
     end))) in
  {| env := Some (<["TABLE_PREFIX" := "DocsTests."]> credentials);
     log := false; signal := None |}.

(** The path [localAwsEnv] reads its credentials file from. *)
Definition credentialsPath (P : Process) : string :=
  Js.nullish_or (penv P !! "AWS_SHARED_CREDENTIALS_FILE") (Credentials.defaultPath P).

(** The lines [localAwsEnv] works on when the fast path does not apply:
    the cache, or else the file. *)
Definition configLinesOf (P : Process) (cache : option (list string)) : option (list string) :=
  match cache with
  | Some lines => Some lines
  | None => option_map Credentials.parseLines (readFile P (credentialsPath P))
  end.

(** A caller that updates a record again and again, each time with the
    revision the update before returned; it stops at the first failure. *)
Fixpoint updateAll {W : Type} `{Runtime W} {J : Type} `{Json J}
    (ctx : Context) (table partition key : string)
    (revision : string) (documents : list J) (st : St W) : Outcome string * St W :=
  match documents with
  | [] => (Return revision, st)
  | document :: rest =>
      match Connection.update 1 ctx table partition key revision document st with
      | (Return next, st1) => updateAll ctx table partition key next rest st1
      | failed => failed
      end
  end.

(** Whether the item loop of [getPartition] lets an item through: its key
    is a non-empty string and, when there is a range, passes the re-check. *)
Definition accepted (range : option KeyRange) (item : Item) : bool :=
  Js.truthy (attrS (item !! "key"))
  && match range with
     | Some _ => matchRange range (str (attrS (item !! "key")))
     | None => true
     end.

(** A process without credentials in its environment, and with a
    credentials file of two profiles. *)
Module Files.

Definition newline : string := String "010"%char EmptyString.

Definition content : string :=
  join newline
    ["# shared credentials";
     "[default]";
     "region = us-east-1";
     "aws_access_key_id = AKIDDEFAULT";
     "aws_secret_access_key = defaultSecret";
     "";
     "[work]";
     "  aws_access_key_id=AKIDWORK  ";
     "aws_secret_access_key = workSecret";
     "aws_session_token = workToken"].

Definition process : Process :=
  {| penv := <["AWS_REGION" := "eu-west-1"]> ∅;
     homedir := "/home/dev";
     readFile := fun path =>
       if String.eqb path "/home/dev/.aws/credentials" then Some content else None |}.

End Files.

(** The row the item loop of [getPartition] makes of an item, when its
    document parses. *)
Definition rowOf {J : Type} `{Json J} (item : Item) : option (Row J) :=
  option_map
    (mkRow (Js.nullish_or (attrS (item !! "partition")) "") (str (attrS (item !! "key")))
           (attrS (item !! "revision")))
    (JSON_parse (Js.nullish_or (attrS (item !! "document")) "{}")).

(** The document of an item parses. *)
Definition parseable {J : Type} `{Json J} (item : Item) : bool :=
  match rowOf (J := J) item with
  | Some _ => true
  | None => false
  end.

(** A remote that answers a scan in two pages. *)
Module Paged.

Definition first : Response :=
  {| RItem := None; RItems := Some [Sample.item "a"; Sample.item "b"];
     RLastEvaluatedKey := Some (Sample.item "b") |}.

Definition second : Response :=
  {| RItem := None; RItems := Some [Sample.item "c"]; RLastEvaluatedKey := None |}.

Definition remote : Scripted.World := [inr first; inr second].

End Paged.

(** A bound given as the empty string. *)
Definition emptyBound (f : Field) : bool :=
  match f with
  | Str s => String.eqb s ""
  | _ => false
  end.


(** A range with a non-empty [after] whose [before] is the empty string. *)
Definition emptyUpperBound (range : KeyRange) : bool :=
  match range with
  | WithPrefix _ => false
  | Interval after before => Js.truthy (value after) && emptyBound before
  end.

(** The bounds of an interval are ASCII text. *)
Definition asciiBounds (range : option KeyRange) : bool :=
  match range with
  | Some (Interval after before) =>
      Js.isAscii (str (value after)) && Js.isAscii (str (value before))
  | _ => true
  end.



(** The store after an attempt of [add] that found the table of that
    name not active: a UUID was drawn, the table was created unless it was
    there, and a second passed. *)
Definition afterFailedAttempt (w : Dynamo.World) (name : string) : Dynamo.World :=
  let w0 := snd (Dynamo.draw w) in
  Dynamo.tick
    (match Dynamo.tables w0 !! name with
     | Some _ => w0
     | None =>
         Dynamo.withTables w0
           (<[name := {| Dynamo.status := Dynamo.CREATING (Dynamo.provisioning w0);
                         Dynamo.rows := ∅ |}]> (Dynamo.tables w0))
     end).

(** The rows of the table of that name, whatever its status. *)
Definition rowsOf (w : Dynamo.World) (name : string) : option (gmap (string * string) Item) :=
  Dynamo.rows <$> Dynamo.tables w !! name.

(** * Properties *)

(** ** Strings and ranges *)

Lemma truthy_nonempty (s : string) : Js.truthy (Some s) = true <-> s <> "".
Proof.
  unfold Js.truthy. destruct (String.eqb_spec s ""); simpl; split; intros; congruence.
Qed.

Lemma truthy_empty (s : string) : Js.truthy (Some s) = false <-> s = "".
Proof.
  unfold Js.truthy. destruct (String.eqb_spec s ""); simpl; split; intros; congruence.
Qed.

Lemma le_empty (k : string) : Js.le "" k = true.
Proof. unfold Js.le. cbn [Js.codeUnits]. now destruct (Js.codeUnits k). Qed.

Lemma lt_empty (k : string) : Js.lt k "" = false.
Proof. unfold Js.lt. cbn [Js.codeUnits]. now destruct (Js.codeUnits k). Qed.

Lemma lt_le (a b : string) : Js.lt a b = true -> Js.le a b = true.
Proof. unfold Js.lt, Js.le. now destruct (Js.compareUnits _ _). Qed.

(** With a non-empty lower bound and no upper bound, the re-check is the comparison itself. *)
Lemma matchRange_after_only (a k : string) (before : Field) :
  a <> "" -> value before = None ->
  matchRange (Some (Interval (Str a) before)) k = Js.le a k.
Proof.
  intros Ha Hb. apply truthy_nonempty in Ha.
  unfold matchRange. cbn [present value]. rewrite orb_true_r, Hb, Ha.
  reflexivity.
Qed.

(** Whatever the re-check accepts lies in the range as the specification
    words it, unless a non-empty lower bound stands next to an empty upper
    bound. *)
Lemma matchRange_exact (range : KeyRange) (k : string) :
  emptyUpperBound range = false ->
  matchRange (Some range) k = true -> exactRange range k = true.
Proof.
  destruct range as [s | after before]; cbn [emptyUpperBound matchRange exactRange];
    [auto |].
  destruct after as [| | a], before as [| | b];
    cbn [present value orb emptyBound str Js.nullish_or];
    change (Js.truthy None) with false; cbv iota zeta; try discriminate;
    try (destruct (Js.truthy (Some a)) eqn:Ha; [auto | discriminate]);
    try (destruct (Js.truthy (Some b)) eqn:Hb; [auto | discriminate]).
  destruct (Js.truthy (Some a)) eqn:Ha; cbn [andb].
  - intros Hb. apply negb_true_iff in Hb. fold (Js.truthy (Some b)) in Hb.
    rewrite Hb. auto.
  - intros _. apply truthy_empty in Ha. subst a.
    destruct (Js.truthy (Some b)); [| discriminate].
    intros ->. now rewrite le_empty.
Qed.

Section Yield.
Context {W : Type} `{Runtime W} {J : Type} `{Json J}.

(** Every row the item loop lets through has a non-empty key that passed the re-check. *)
Lemma yieldItems_checked (range : option KeyRange) (items : list Item) :
  Forall (fun row : Row J => key row <> "" /\ matchRange range (key row) = true)
         (fst (Connection.yieldItems range items)).
Proof.
  induction items as [| item rest IH]; simpl; [constructor |].
  destruct (attrS (item !! "key")) as [k |] eqn:Hk; simpl; [| exact IH].
  destruct (String.eqb_spec k ""); simpl; [exact IH |].
  assert (Hpass :
    (match range with
     | Some _ => negb (matchRange range k)
     | None => false
     end) = false -> matchRange range k = true).
  { destruct range; simpl; [| reflexivity].
    intros E. now apply negb_false_iff in E. }
  destruct (match range with Some _ => negb (matchRange range k) | None => false end);
    [exact IH |].
  destruct (JSON_parse _); [| constructor].
  destruct (Connection.yieldItems range rest) as [rows err]. simpl in *.
  constructor; [| exact IH]. simpl. split; [assumption | now apply Hpass].
Qed.

Lemma scan_checked (fuel : nat) (ctx : Context) (table partition : string)
    (range : option KeyRange) (cursor : option Item) (st : St W) :
  Forall (fun row : Row J => key row <> "" /\ matchRange range (key row) = true)
         (fst (fst (Connection.scan fuel ctx table partition range cursor st))).
Proof.
  revert cursor st. induction fuel as [| fuel IH]; intros cursor st; simpl;
    [constructor |].
  destruct (queryFromRange partition range) as [e | cond]; [constructor |].
  destruct (dbRequest _ _ _ st) as [[result | e |] st1]; try constructor.
  pose proof (yieldItems_checked range (Js.nullish_or (RItems result) [])) as Hy.
  destruct (Connection.yieldItems range _) as [rows [e |]]; simpl in Hy; [exact Hy |].
  destruct (RLastEvaluatedKey result) as [k |]; [| exact Hy].
  specialize (IH (Some k) st1).
  destruct (Connection.scan fuel ctx table partition range (Some k) st1) as [[more out] st2].
  simpl in *. apply Forall_app. split; assumption.
Qed.

Lemma getPartition_rows (fuel : nat) (ctx : Context) (table partition : string)
    (range : option KeyRange) (st : St W) :
  fst (fst (Connection.getPartition fuel ctx table partition range st)) =
  fst (fst (Connection.scan (J := J) fuel ctx table partition range None st)).
Proof.
  unfold Connection.getPartition.
  destruct (Connection.scan fuel ctx table partition range None st) as [[rows out] st1].
  reflexivity.
Qed.

(** Whatever the remote answers and however many pages are read, every
    row [getPartition] yields for a range has a key within that range as
    the specification words it, for every range but those with a non-empty
    lower bound next to an empty upper bound. *)
Lemma getPartition_rows_within_range
    (fuel : nat) (ctx : Context) (table partition : string)
    (range : KeyRange) (st : St W) (row : Row J) :
  emptyUpperBound range = false ->
  In row (fst (fst (Connection.getPartition fuel ctx table partition (Some range) st))) ->
  exactRange range (key row) = true.
Proof.
  intros Hb Hin. rewrite getPartition_rows in Hin.
  pose proof (scan_checked fuel ctx table partition (Some range) None st) as Hall.
  rewrite Forall_forall in Hall. apply list_elem_of_In in Hin.
  destruct (Hall row Hin) as [_ Hm].
  now apply matchRange_exact.
Qed.

End Yield.

(** C4 at an empty upper bound. For the range [{after: 'a', before: ''}]
    no key lies within the range, as none is below the empty string; yet
    the re-check is [after <= key] alone, the query sent asks for the keys
    from [after] on, and a remote that returns the keys a, b and c has all
    three yielded. For every other range, whatever the remote answers and
    however many pages are read, every row yielded has a key within the
    range: the prefix for [withPrefix], [after <= key < before] for both
    bounds, [key < before] for an upper bound alone. *)
Theorem getPartition_empty_before_yields_outside_range :
  let range := Interval (Str "a") (Str "") in
  let rows : list (Row Literal) :=
    fst (fst (Connection.getPartition 1 Sample.context "docs" "p" (Some range)
                (mkSt ([inr Sample.page] : Scripted.World) []))) in
  (forall k, exactRange range k = false) /\
  (forall k, matchRange (Some range) k = Js.le "a" k) /\
  option_map KeyConditionExpression
    (match queryFromRange "p" (Some range) with inr c => Some c | inl _ => None end)
    = Some "#p = :p and :after <= #k" /\
  map key rows = ["a"; "b"; "c"] /\
  (forall (W : Type) (R : Runtime W) (J : Type) (P : Json J)
          (fuel : nat) (ctx : Context) (table partition : string)
          (range : KeyRange) (st : St W) (row : Row J),
     emptyUpperBound range = false ->
     In row (fst (fst (Connection.getPartition fuel ctx table partition (Some range) st))) ->
     exactRange range (key row) = true).
Proof.
  intros range rows. split; [| split; [| split; [| split]]].
  - intros k. cbn. now rewrite lt_empty, andb_false_r.
  - intros k. reflexivity.
  - reflexivity.
  - reflexivity.
  - intros W R J P fuel ctx table partition range' st row.
    apply getPartition_rows_within_range.
Qed.

Lemma getPartition_empty_before_yields_outside_range_witness :
  let range := Interval (Str "b") (Str "c") in
  let row := mkRow "p" "b" (Some "r1") LTrue in
  let rows : list (Row Literal) :=
    fst (fst (Connection.getPartition 1 Sample.context "docs" "p" (Some range)
                (mkSt ([inr Sample.page] : Scripted.World) []))) in
  emptyUpperBound range = false /\
  emptyUpperBound (Interval Absent (Str "")) = false /\
  emptyUpperBound (Interval (Str "") (Str "")) = false /\
  emptyUpperBound (Interval (Str "a") (Str "")) = true /\
  rows = [row] /\
  exactRange range (key row) = true.
Proof.
  intros range row rows.
  assert (Hb : emptyUpperBound range = false) by reflexivity.
  assert (Hrows : rows = [row]) by (vm_compute; reflexivity).
  assert (Hin : In row rows) by (rewrite Hrows; left; reflexivity).
  split; [exact Hb |]. split; [reflexivity |]. split; [reflexivity |].
  split; [reflexivity |]. split; [exact Hrows |].
  exact (proj2 (proj2 (proj2 (proj2 getPartition_empty_before_yields_outside_range)))
           Scripted.World Scripted.runtime Literal literalJson
           1 Sample.context "docs" "p" range
           (mkSt ([inr Sample.page] : Scripted.World) []) row Hb Hin).
Defined.

(** C5 at the empty lower bound. For [{after: ''}] the query built by
    [queryFromRange] carries no condition on the key, and every key is at
    or above the empty string; yet the re-check refuses every key, so
    nothing the remote returns is yielded. *)
Theorem after_only_empty_bound_rejects_every_key :
  let range := Some (Interval (Str "") Absent) in
  (forall k, Js.le "" k = true /\ matchRange range k = false) /\
  (forall partition,
     option_map KeyConditionExpression
       (match queryFromRange partition range with inr c => Some c | inl _ => None end)
     = Some "#p = :p") /\
  fst (Connection.getPartition (J := Literal) 1 Sample.context "docs" "p" range
         (mkSt ([inr Sample.page] : Scripted.World) [])) = ([], Return tt).
Proof.
  intros range. split; [| split].
  - intros k. split; [apply le_empty | reflexivity].
  - intros partition. reflexivity.
  - reflexivity.
Qed.

(** ** Credential resolver *)

(** On the fast path the result is built from the region, the key id and
    the secret alone; the cache and the file system are left alone. *)
Lemma localAwsEnv_fast_path (P : Process) (cache : option (list string))
    (region profile : option string) (r k s : string) :
  Js.nullish region (Js.nullish (penv P !! "AWS_REGION") (penv P !! "AWS_DEFAULT_REGION"))
    = Some r ->
  penv P !! "AWS_ACCESS_KEY_ID" = Some k ->
  penv P !! "AWS_SECRET_ACCESS_KEY" = Some s ->
  r <> "" -> k <> "" -> s <> "" ->
  Credentials.localAwsEnv P cache region profile =
    {| cr_result := inr {| AWS_REGION := r; AWS_ACCESS_KEY_ID := k;
                           AWS_SECRET_ACCESS_KEY := s; AWS_SESSION_TOKEN := None |};
       cr_cache := cache; cr_reads := [] |}.
Proof.
  intros Hr Hk Hs Nr Nk Ns. unfold Credentials.localAwsEnv.
  rewrite Hr, Hk, Hs.
  apply truthy_nonempty in Nr, Nk, Ns. rewrite Nr, Nk, Ns. reflexivity.
Qed.

(** C9 at an environment that holds a session token. All three mandatory
    variables and [AWS_SESSION_TOKEN] are set; [localAwsEnv()] returns the
    three without reading any file, and no session token with them. *)
Theorem localAwsEnv_drops_environment_session_token :
  penv Sample.process !! "AWS_SESSION_TOKEN" = Some "FwoGZXIvYXdzEBY" /\
  Credentials.localAwsEnv Sample.process None None None =
    {| cr_result := inr {| AWS_REGION := "eu-west-1";
                           AWS_ACCESS_KEY_ID := "AKIDEXAMPLE";
                           AWS_SECRET_ACCESS_KEY := "wJalrXUtnFEMI";
                           AWS_SESSION_TOKEN := None |};
       cr_cache := None; cr_reads := [] |}.
Proof.
  split; [reflexivity |].
  apply localAwsEnv_fast_path; try reflexivity; discriminate.
Qed.

(** ** The monad and the remote call layer *)

Section Calls.
Context {W : Type} `{Runtime W}.

(** A remote call either stops at a missing variable, before anything
    is sent, or sends one request, without a signal, and settles with the
    reply of the transport. *)
Lemma dbRequest_cases (env : option (gmap string string)) (target : string)
    (body : Body) (st : St W) :
  (exists name, dbRequest env target body st = (Throw (MissingVariable name), st)) \/
  (exists call,
     fc_body call = body /\ fc_signal call = None /\
     dbRequest env target body st =
       (settle (fst (fetchJson call (world st))),
        mkSt (snd (fetchJson call (world st))) (trace st ++ [EvFetch call]))).
Proof.
  unfold dbRequest.
  destruct (envVar env "AWS_REGION") as [region |]; [| left; eauto].
  destruct (envVar env "AWS_ACCESS_KEY_ID") as [keyId |]; [| left; eauto].
  destruct (envVar env "AWS_SECRET_ACCESS_KEY") as [secret |]; [| left; eauto].
  right. eexists. split; [| split]; [| | reflexivity]; reflexivity.
Qed.

Lemma dbRequest_with_credentials (ctx : Context) (target : string)
    (body : Body) (st : St W) :
  hasCredentials ctx = true ->
  exists call,
    fc_body call = body /\ fc_signal call = None /\
    dbRequest (env ctx) target body st =
      (settle (fst (fetchJson call (world st))),
       mkSt (snd (fetchJson call (world st))) (trace st ++ [EvFetch call])).
Proof.
  unfold hasCredentials, dbRequest. intros Hc.
  destruct (envVar (env ctx) "AWS_REGION") as [region |]; [| discriminate].
  destruct (envVar (env ctx) "AWS_ACCESS_KEY_ID") as [keyId |]; [| discriminate].
  destruct (envVar (env ctx) "AWS_SECRET_ACCESS_KEY") as [secret |]; [| discriminate].
  eexists. split; [| split]; [| | reflexivity]; reflexivity.
Qed.

(** What a remote call throws comes from the transport or is a missing
    variable: never one of the driver's own errors. *)
Lemma dbRequest_throws (env : option (gmap string string)) (target : string)
    (body : Body) (st : St W) (e : JsError) :
  fst (dbRequest env target body st) = Throw e ->
  (exists t, e = Transport t) \/ (exists name, e = MissingVariable name).
Proof.
  destruct (dbRequest_cases env target body st) as [[name E] | [call [_ [_ E]]]];
    rewrite E; simpl.
  - intros [= <-]. right. eauto.
  - destruct (fst (fetchJson call (world st))); simpl; [| discriminate].
    intros [= <-]. left. eauto.
Qed.

Lemma dbRequest_without_credentials (ctx : Context) (target : string)
    (body : Body) (st : St W) :
  hasCredentials ctx = false ->
  exists name, dbRequest (env ctx) target body st = (Throw (MissingVariable name), st).
Proof.
  unfold hasCredentials, dbRequest. intros Hc.
  destruct (envVar (env ctx) "AWS_REGION") as [region |]; [| eauto].
  destruct (envVar (env ctx) "AWS_ACCESS_KEY_ID") as [keyId |]; [| eauto].
  destruct (envVar (env ctx) "AWS_SECRET_ACCESS_KEY") as [secret |]; [discriminate | eauto].
Qed.

(** A sequence that returns went through its first part returning. *)
Lemma bind_returns {A B : Type} (m : M W A) (k : A -> M W B) (st st2 : St W) (b : B) :
  bind m k st = (Return b, st2) ->
  exists a st1, m st = (Return a, st1) /\ k a st1 = (Return b, st2).
Proof.
  unfold bind. destruct (m st) as [[a | e |] st1]; [eauto | discriminate | discriminate].
Qed.

End Calls.

(** ** Error mapping of the driver *)

Lemma prefix_append (t s : string) :
  String.prefix t s = true <-> exists back, s = t +:+ back.
Proof.
  revert s. induction t as [| c t IH]; intros s.
  - destruct s; simpl; (split; [intros _; eexists; reflexivity | reflexivity]).
  - destruct s as [| d s]; simpl.
    + split; [discriminate | intros [back E]; discriminate].
    + destruct (ascii_dec c d) as [<- | Hne].
      * rewrite IH. split; intros [back E]; exists back.
        -- change (String c t +:+ back) with (String c (t +:+ back)). now rewrite E.
        -- change (String c t +:+ back) with (String c (t +:+ back)) in E.
           now injection E.
      * split; [discriminate | intros [back E]].
        change (String c t +:+ back) with (String c (t +:+ back)) in E. congruence.
Qed.

(** [s.includes(t)] holds exactly when [t] occurs in [s]. *)
Lemma includes_occurs (s t : string) : Js.includes s t = true <-> occursIn t s.
Proof.
  unfold Js.includes, occursIn. induction s as [| b s IH].
  - destruct t as [| c t]; simpl.
    + split; [intros _; exists "", ""; reflexivity | reflexivity].
    + split; [discriminate |]. intros [[| x front] [back E]]; discriminate.
  - cbn [String.index]. destruct (String.prefix t (String b s)) eqn:Hp.
    + split; [intros _ | reflexivity].
      apply prefix_append in Hp. destruct Hp as [back E].
      exists "", back. exact E.
    + destruct (String.index 0 t s) as [n |].
      * split; [intros _ | reflexivity].
        destruct (proj1 IH eq_refl) as [front [back E]].
        exists (String b front), back. simpl. now rewrite E.
      * split; [discriminate |]. intros [[| x front] [back E]].
        -- assert (String.prefix t (String b s) = true) as Hq
             by (apply prefix_append; exists back; exact E).
           congruence.
        -- simpl in E. injection E as _ E.
           assert (false = true) by (apply IH; eauto). discriminate.
Qed.

(** [isErrorType] recognises the remote situations by their names. *)
Lemma isErrorType_spec (e : JsError) (type : string) :
  isErrorType e type = true <-> errorOfType e type.
Proof.
  unfold errorOfType. split.
  - destruct e as [[status [raw | [tag |]] | message] | | | |]; simpl; try discriminate.
    intros E. exists status, tag. split; [reflexivity |].
    destruct tag as [s | l]; simpl in E.
    + now apply includes_occurs.
    + apply existsb_exists in E. destruct E as [x [Hin Heq]].
      apply String.eqb_eq in Heq. now subst x.
  - intros [status [tag [-> E]]]. simpl. destruct tag as [s | l]; simpl.
    + now apply includes_occurs.
    + apply existsb_exists. exists type. split; [exact E | apply String.eqb_refl].
Qed.

Lemma isErrorType_not (e : JsError) (type : string) :
  ~ errorOfType e type -> isErrorType e type = false.
Proof.
  intros N. destruct (isErrorType e type) eqn:E; [| reflexivity].
  apply isErrorType_spec in E. contradiction.
Qed.

Section ErrorMapping.
Context {W : Type} `{Runtime W} {J : Type} `{Json J}.

(** [get] in terms of the outcome of its one remote call. *)
Lemma get_by_request (ctx : Context) (table partition key : string) (st : St W) :
  let request :=
    dbRequest (env ctx) "GetItem"
      (GetItemBody (Connection.tableName ctx table) partition key) st in
  Connection.get (J := J) ctx table partition key st =
  (match fst request with
   | Return reply =>
       match RItem reply with
       | None => Throw notFound
       | Some item =>
           match JSON_parse (Js.nullish_or (attrS (item !! "document")) "{}") with
           | None => Throw SyntaxError
           | Some doc => Return (mkRow partition key (attrS (item !! "revision")) doc)
           end
       end
   | Throw e =>
       if isErrorType e "ResourceNotFoundException" then Throw notFound
       else if isErrorType e "ResourceInUseException" then Throw notFound
       else Throw e
   | OutOfFuel => OutOfFuel
   end, snd request).
Proof.
  intros request. subst request. unfold Connection.get, try_catch, bind.
  destruct (dbRequest _ _ _ st) as [[reply | e |] st1]; simpl.
  - destruct (RItem reply) as [item |]; simpl; [| reflexivity].
    destruct (JSON_parse _); reflexivity.
  - destruct (isErrorType e "ResourceNotFoundException"); [reflexivity |].
    destruct (isErrorType e "ResourceInUseException"); reflexivity.
  - reflexivity.
Qed.

(** The outcomes of [get] by what [isErrorType] says of the error of
    its remote call. *)
Lemma get_by_error_type (ctx : Context) (table partition key : string) (st : St W) :
  let request :=
    dbRequest (env ctx) "GetItem"
      (GetItemBody (Connection.tableName ctx table) partition key) st in
  let result := Connection.get (J := J) ctx table partition key st in
  notFound = StatusError "Not found" 404 /\
  (fst result = Throw notFound <->
     (exists e, fst request = Throw e /\ isErrorType e "ResourceNotFoundException" = true) \/
     (exists e, fst request = Throw e /\ isErrorType e "ResourceInUseException" = true) \/
     (exists reply, fst request = Return reply /\ RItem reply = None)) /\
  (forall e, fst request = Throw e ->
             isErrorType e "ResourceNotFoundException" = false ->
             isErrorType e "ResourceInUseException" = false ->
             fst result = Throw e).
Proof.
  intros request result. split; [reflexivity |].
  pose proof (dbRequest_throws (env ctx) "GetItem"
    (GetItemBody (Connection.tableName ctx table) partition key) st) as Hkind.
  fold request in Hkind. subst result.
  rewrite get_by_request. fold request. simpl fst.
  destruct (fst request) as [reply | e |]; split.
  - split.
    + destruct (RItem reply) as [item |] eqn:Eitem.
      * destruct (JSON_parse _); discriminate.
      * intros _. right. right. exists reply. split; [reflexivity | exact Eitem].
    + intros [[e [E _]] | [[e [E _]] | [reply' [[= <-] ->]]]];
        [discriminate | discriminate | reflexivity].
  - intros e E. discriminate.
  - split.
    + destruct (isErrorType e "ResourceNotFoundException") eqn:E1.
      { intros _. left. exists e. split; [reflexivity | exact E1]. }
      destruct (isErrorType e "ResourceInUseException") eqn:E2.
      { intros _. right. left. exists e. split; [reflexivity | exact E2]. }
      intros [= ->]. destruct (Hkind notFound eq_refl) as [[t Ht] | [n Hn]]; discriminate.
    + intros [[e' [[= <-] ->]] | [[e' [[= <-] E2]] | [reply [E _]]]];
        [reflexivity | | discriminate].
      rewrite E2. now destruct (isErrorType e "ResourceNotFoundException").
  - intros e' [= <-] -> ->. reflexivity.
  - split; [discriminate |].
    intros [[e [E _]] | [[e [E _]] | [reply [E _]]]]; discriminate.
  - intros e E. discriminate.
Qed.

(** C6. [get] fails with the NotFound error, of status 404, in exactly
    three situations of its remote call: the remote rejects it with an
    error response that names ResourceNotFoundException, the remote rejects
    it with an error response that names ResourceInUseException, or the
    call succeeds without an item. Every other error of the remote call is
    thrown on as it is. *)
Theorem get_not_found_exactly (ctx : Context) (table partition key : string) (st : St W) :
  let request :=
    dbRequest (env ctx) "GetItem"
      (GetItemBody (Connection.tableName ctx table) partition key) st in
  let result := Connection.get (J := J) ctx table partition key st in
  notFound = StatusError "Not found" 404 /\
  (fst result = Throw notFound <->
     (exists e, fst request = Throw e /\ errorOfType e "ResourceNotFoundException") \/
     (exists e, fst request = Throw e /\ errorOfType e "ResourceInUseException") \/
     (exists reply, fst request = Return reply /\ RItem reply = None)) /\
  (forall e, fst request = Throw e ->
             ~ errorOfType e "ResourceNotFoundException" ->
             ~ errorOfType e "ResourceInUseException" ->
             fst result = Throw e).
Proof.
  intros request result.
  destruct (get_by_error_type ctx table partition key st) as [Hstatus [Hiff Hother]].
  fold request result in Hiff, Hother.
  split; [exact Hstatus |]. split.
  - rewrite Hiff. split.
    + intros [[e [E T]] | [[e [E T]] | R]].
      * left. exists e. split; [exact E | now apply isErrorType_spec].
      * right. left. exists e. split; [exact E | now apply isErrorType_spec].
      * right. right. exact R.
    + intros [[e [E T]] | [[e [E T]] | R]].
      * left. exists e. split; [exact E | now apply isErrorType_spec].
      * right. left. exists e. split; [exact E | now apply isErrorType_spec].
      * right. right. exact R.
  - intros e E N1 N2. apply Hother; [exact E | |]; now apply isErrorType_not.
Qed.

(** [delete] in terms of the outcome of its one remote call. *)
Lemma delete_by_request (ctx : Context) (table partition key : string)
    (currentRevision : option string) (st : St W) :
  let request :=
    dbRequest (env ctx) "DeleteItem"
      (DeleteItemBody (Connection.tableName ctx table) partition key
         (match currentRevision with
          | Some r => Some ("revision = :oldRevision", [(":oldRevision", AttrS r)])
          | None => None
          end)) st in
  Connection.delete ctx table partition key currentRevision st =
  (match fst request with
   | Return _ => Return tt
   | Throw e =>
       if isErrorType e "ConditionalCheckFailedException" then Throw conflict
       else if isErrorType e "ResourceInUseException" then Return tt
       else if isErrorType e "ResourceNotFoundException" then
         if Js.truthy currentRevision then Throw conflict else Return tt
       else Throw e
   | OutOfFuel => OutOfFuel
   end, snd request).
Proof.
  intros request. subst request. unfold Connection.delete, try_catch, bind.
  destruct (dbRequest _ _ _ st) as [[reply | e |] st1]; simpl; [reflexivity | | reflexivity].
  destruct (isErrorType e "ConditionalCheckFailedException"); [reflexivity |].
  destruct (isErrorType e "ResourceInUseException"); [reflexivity |].
  destruct (isErrorType e "ResourceNotFoundException"); [| reflexivity].
  destruct (Js.truthy currentRevision); reflexivity.
Qed.

(** When the remote reports that the table is not there (and nothing
    else), [delete] fails with Conflict for a truthy revision and succeeds
    otherwise. *)
Lemma delete_table_not_found (ctx : Context) (table partition key : string)
    (currentRevision : option string) (st st1 : St W) (e : JsError) :
  dbRequest (env ctx) "DeleteItem"
    (DeleteItemBody (Connection.tableName ctx table) partition key
       (match currentRevision with
        | Some r => Some ("revision = :oldRevision", [(":oldRevision", AttrS r)])
        | None => None
        end)) st = (Throw e, st1) ->
  isErrorType e "ConditionalCheckFailedException" = false ->
  isErrorType e "ResourceInUseException" = false ->
  isErrorType e "ResourceNotFoundException" = true ->
  Connection.delete ctx table partition key currentRevision st =
    (if Js.truthy currentRevision then Throw conflict else Return tt, st1).
Proof.
  intros Hr H1 H2 H3. rewrite delete_by_request. cbv zeta.
  rewrite Hr. cbn [fst snd]. rewrite H1, H2, H3.
  now destruct (Js.truthy currentRevision).
Qed.

End ErrorMapping.

Lemma get_not_found_exactly_witness :
  let get := fun (W : Type) (R : Runtime W) (w : W) =>
    fst (Connection.get (J := Literal) Sample.context "docs" "p" "k" (mkSt w [])) in
  isErrorType (Transport Sample.tableNotFound) "ResourceNotFoundException" = true /\
  isErrorType (Transport Busy.tableInUse) "ResourceInUseException" = true /\
  isErrorType (Transport Sample.invalidRequest) "ResourceNotFoundException" = false /\
  isErrorType (Transport Sample.invalidRequest) "ResourceInUseException" = false /\
  get Dynamo.World Dynamo.runtime Sample.emptyStore = Throw (StatusError "Not found" 404) /\
  get Busy.World Busy.runtime 0%nat = Throw (StatusError "Not found" 404) /\
  get Scripted.World Scripted.runtime [inr emptyResponse] =
    Throw (StatusError "Not found" 404) /\
  get Scripted.World Scripted.runtime [inl Sample.invalidRequest] =
    Throw (Transport Sample.invalidRequest) /\
  get Scripted.World Scripted.runtime [inl (NetworkError "socket hang up")] =
    Throw (Transport (NetworkError "socket hang up")).
Proof.
  intros get.
  assert (Hmissing : errorOfType (Transport Sample.tableNotFound) "ResourceNotFoundException").
  { eexists _, _. split; [reflexivity |].
    exists "com.amazonaws.dynamodb.v20120810#", "". reflexivity. }
  assert (Hbusy : errorOfType (Transport Busy.tableInUse) "ResourceInUseException").
  { eexists _, _. split; [reflexivity |].
    exists "com.amazonaws.dynamodb.v20120810#", "". reflexivity. }
  assert (Hother : forall e type, isErrorType e type = false -> ~ errorOfType e type).
  { intros e type E T. apply isErrorType_spec in T. congruence. }
  split; [reflexivity |]. split; [reflexivity |].
  split; [reflexivity |]. split; [reflexivity |].
  split; [| split; [| split; [| split]]].
  - apply (proj2 (proj1 (proj2 (get_not_found_exactly (J := Literal)
             Sample.context "docs" "p" "k" (mkSt Sample.emptyStore []))))).
    left. exists (Transport Sample.tableNotFound).
    split; [vm_compute; reflexivity | exact Hmissing].
  - apply (proj2 (proj1 (proj2 (get_not_found_exactly (J := Literal)
             Sample.context "docs" "p" "k" (mkSt (0%nat : Busy.World) []))))).
    right. left. exists (Transport Busy.tableInUse).
    split; [vm_compute; reflexivity | exact Hbusy].
  - apply (proj2 (proj1 (proj2 (get_not_found_exactly (J := Literal)
             Sample.context "docs" "p" "k"
             (mkSt ([inr emptyResponse] : Scripted.World) []))))).
    right. right. exists emptyResponse. split; vm_compute; reflexivity.
  - apply (proj2 (proj2 (get_not_found_exactly (J := Literal)
             Sample.context "docs" "p" "k"
             (mkSt ([inl Sample.invalidRequest] : Scripted.World) []))));
      [vm_compute; reflexivity | |]; apply Hother; reflexivity.
  - apply (proj2 (proj2 (get_not_found_exactly (J := Literal)
             Sample.context "docs" "p" "k"
             (mkSt ([inl (NetworkError "socket hang up")] : Scripted.World) []))));
      [vm_compute; reflexivity | |]; apply Hother; reflexivity.
Defined.

(** C8 at an empty revision. The table does not exist and the remote
    says so. Called with the empty string as revision, [delete] sends its
    request with the condition on the revision, as for any revision that is
    not undefined, and returns without an error. With the revision ['r1'] it
    fails with Conflict, and without a revision it returns without an error. *)
Theorem delete_empty_revision_table_not_found :
  let st := mkSt Sample.emptyStore [] in
  let run := fun revision => Connection.delete Sample.context "docs" "p" "k" revision st in
  let conditional :=
    DeleteItemBody "DocsTests.docs" "p" "k"
      (Some ("revision = :oldRevision", [(":oldRevision", AttrS "")])) in
  fst (dbRequest (env Sample.context) "DeleteItem" conditional st) =
    Throw (Transport Sample.tableNotFound) /\
  isErrorType (Transport Sample.tableNotFound) "ResourceNotFoundException" = true /\
  map fc_body (fetches (trace (snd (run (Some ""))))) = [conditional] /\
  fst (run (Some "")) = Return tt /\
  fst (run (Some "r1")) = Throw conflict /\
  fst (run None) = Return tt.
Proof.
  repeat split; vm_compute; reflexivity.
Qed.

(** ** Scans *)

Section ScanErrors.
Context {W : Type} `{Runtime W} {J : Type} `{Json J}.

(** A page whose request is rejected ends the loop with that error. *)
Lemma scan_rejected (fuel : nat) (ctx : Context) (table partition : string)
    (range : option KeyRange) (cond : KeyCondition) (cursor : option Item)
    (st st1 : St W) (e : JsError) :
  queryFromRange partition range = inr cond ->
  dbRequest (env ctx) "Query"
    (QueryBody (Connection.tableName ctx table) cursor cond) st = (Throw e, st1) ->
  Connection.scan (J := J) (S fuel) ctx table partition range cursor st =
    (([], Throw e), st1).
Proof.
  intros Hq Hr. simpl. now rewrite Hq, Hr.
Qed.

(** Pages answered with a cursor are followed by the rest of the scan. *)
Lemma scan_after_pages (ctx : Context) (table partition : string)
    (range : option KeyRange) (c0 : option Item) (s0 : St W) (n : nat)
    (rows : list (Row J)) (c : option Item) (s : St W) :
  pages ctx table partition range c0 s0 n rows c s ->
  forall fuel,
    Connection.scan (n + fuel) ctx table partition range c0 s0 =
    ((rows ++ fst (fst (Connection.scan fuel ctx table partition range c s)),
      snd (fst (Connection.scan fuel ctx table partition range c s)))%list,
     snd (Connection.scan fuel ctx table partition range c s)).
Proof.
  induction 1 as [c s | c s cond result s1 rows k n more c' s' Hq Hr Hy Hk _ IH];
    intros fuel.
  - simpl. now destruct (Connection.scan fuel ctx table partition range c s) as [[? ?] ?].
  - simpl. rewrite Hq, Hr, Hy, Hk, IH. simpl. now rewrite app_assoc.
Qed.

(** A scan whose query is rejected after some pages, by what
    [isErrorType] says of the error. *)
Lemma getPartition_rejected_query
    (ctx : Context) (table partition : string) (range : option KeyRange)
    (cond : KeyCondition) (st : St W) (n : nat) (rows : list (Row J))
    (cursor : option Item) (s s1 : St W) (e : JsError) (fuel : nat) :
  queryFromRange partition range = inr cond ->
  pages ctx table partition range None st n rows cursor s ->
  dbRequest (env ctx) "Query"
    (QueryBody (Connection.tableName ctx table) cursor cond) s = (Throw e, s1) ->
  n < fuel ->
  Connection.getPartition fuel ctx table partition range st =
    ((rows,
      if isErrorType e "ResourceNotFoundException"
         || isErrorType e "ResourceInUseException"
      then Return tt else Throw e), s1).
Proof.
  intros Hq Hp Hr Hfuel.
  replace fuel with (n + S (fuel - S n)) by lia.
  unfold Connection.getPartition.
  rewrite (scan_after_pages _ _ _ _ _ _ _ _ _ _ Hp).
  rewrite (scan_rejected _ _ _ _ _ _ _ _ _ _ Hq Hr). simpl.
  rewrite app_nil_r.
  destruct (isErrorType e "ResourceNotFoundException"); [reflexivity |].
  destruct (isErrorType e "ResourceInUseException"); reflexivity.
Qed.

(** C7. Let a scan have read any number of pages and yielded [rows],
    and let the next query be rejected by the remote call with [e]. If
    [e] is an error response of the remote that names
    ResourceNotFoundException or ResourceInUseException, the sequence ends
    there without an error (after no page: with no row at all, as for an
    empty partition); any other [e] comes out of the sequence as it is. *)
Theorem getPartition_table_missing_ends_scan
    (ctx : Context) (table partition : string) (range : option KeyRange)
    (cond : KeyCondition) (st : St W) (n : nat) (rows : list (Row J))
    (cursor : option Item) (s s1 : St W) (e : JsError) (fuel : nat) :
  queryFromRange partition range = inr cond ->
  pages ctx table partition range None st n rows cursor s ->
  dbRequest (env ctx) "Query"
    (QueryBody (Connection.tableName ctx table) cursor cond) s = (Throw e, s1) ->
  n < fuel ->
  let run := Connection.getPartition fuel ctx table partition range st in
  (errorOfType e "ResourceNotFoundException" \/ errorOfType e "ResourceInUseException" ->
   run = ((rows, Return tt), s1)) /\
  (~ errorOfType e "ResourceNotFoundException" ->
   ~ errorOfType e "ResourceInUseException" ->
   run = ((rows, Throw e), s1)).
Proof.
  intros Hq Hp Hr Hfuel run. subst run.
  rewrite (getPartition_rejected_query ctx table partition range cond st n rows cursor
             s s1 e fuel Hq Hp Hr Hfuel).
  split.
  - intros [T | T]; apply isErrorType_spec in T; rewrite T;
      [reflexivity | now rewrite orb_true_r].
  - intros N1 N2. now rewrite (isErrorType_not _ _ N1), (isErrorType_not _ _ N2).
Qed.

End ScanErrors.

Lemma getPartition_table_missing_ends_scan_witness :
  let cond := {| KeyConditionExpression := "#p = :p";
                 ExpressionAttributeNames := [("#p", "partition")];
                 QExpressionAttributeValues := [(":p", EvAttr (AttrS "p"))] |} in
  let scan := fun (W : Type) (R : Runtime W) (w : W) =>
    fst (Connection.getPartition (J := Literal) 2 Sample.context "docs" "p" None (mkSt w [])) in
  isErrorType (Transport Sample.tableNotFound) "ResourceNotFoundException" = true /\
  isErrorType (Transport Busy.tableInUse) "ResourceInUseException" = true /\
  isErrorType (Transport Sample.invalidRequest) "ResourceNotFoundException" = false /\
  isErrorType (Transport Sample.invalidRequest) "ResourceInUseException" = false /\
  scan Dynamo.World Dynamo.runtime Sample.emptyStore = ([], Return tt) /\
  scan Busy.World Busy.runtime 0%nat = ([], Return tt) /\
  scan Scripted.World Scripted.runtime [inr Paged.first; inl Sample.tableNotFound] =
    ([mkRow "p" "a" (Some "r1") LTrue; mkRow "p" "b" (Some "r1") LTrue], Return tt) /\
  scan Scripted.World Scripted.runtime [inr Paged.first; inl Sample.invalidRequest] =
    ([mkRow "p" "a" (Some "r1") LTrue; mkRow "p" "b" (Some "r1") LTrue],
     Throw (Transport Sample.invalidRequest)) /\
  scan Scripted.World Scripted.runtime [inl (NetworkError "socket hang up")] =
    ([], Throw (Transport (NetworkError "socket hang up"))).
Proof.
  intros cond scan.
  assert (Hmissing : errorOfType (Transport Sample.tableNotFound) "ResourceNotFoundException").
  { eexists _, _. split; [reflexivity |].
    exists "com.amazonaws.dynamodb.v20120810#", "". reflexivity. }
  assert (Hbusy : errorOfType (Transport Busy.tableInUse) "ResourceInUseException").
  { eexists _, _. split; [reflexivity |].
    exists "com.amazonaws.dynamodb.v20120810#", "". reflexivity. }
  assert (Hother : forall e type, isErrorType e type = false -> ~ errorOfType e type).
  { intros e type E T. apply isErrorType_spec in T. congruence. }
  assert (Hpage : forall rest : Scripted.World,
            pages (J := Literal) Sample.context "docs" "p" None None
              (mkSt (inr Paged.first :: rest) []) 1
              ([mkRow "p" "a" (Some "r1") LTrue; mkRow "p" "b" (Some "r1") LTrue] ++ [])
              (Some (Sample.item "b"))
              (snd (dbRequest (env Sample.context) "Query"
                      (QueryBody (Connection.tableName Sample.context "docs") None cond)
                      (mkSt (inr Paged.first :: rest) [])))).
  { intros rest.
    eapply pages_more with (cond := cond) (result := Paged.first);
      [reflexivity | reflexivity | reflexivity | reflexivity | apply pages_done]. }
  split; [reflexivity |]. split; [reflexivity |].
  split; [reflexivity |]. split; [reflexivity |].
  set (query := fun (W : Type) (R : Runtime W) (cursor : option Item) =>
         dbRequest (env Sample.context) "Query"
           (QueryBody (Connection.tableName Sample.context "docs") cursor cond)).
  split; [| split; [| split; [| split]]]; unfold scan.
  - set (st := mkSt Sample.emptyStore []).
    assert (Hr : query _ _ None st = (Throw (Transport Sample.tableNotFound),
                                      snd (query _ _ None st)))
      by (vm_compute; reflexivity).
    rewrite (proj1 (getPartition_table_missing_ends_scan (J := Literal)
               Sample.context "docs" "p" None cond st 0 [] None st _ _ 2
               eq_refl (pages_done _ _ _ _ _ _) Hr (le_S _ _ (le_n 1)))
             (or_introl Hmissing)).
    reflexivity.
  - set (st := mkSt (0%nat : Busy.World) []).
    assert (Hr : query _ _ None st = (Throw (Transport Busy.tableInUse),
                                      snd (query _ _ None st)))
      by (vm_compute; reflexivity).
    rewrite (proj1 (getPartition_table_missing_ends_scan (J := Literal)
               Sample.context "docs" "p" None cond st 0 [] None st _ _ 2
               eq_refl (pages_done _ _ _ _ _ _) Hr (le_S _ _ (le_n 1)))
             (or_intror Hbusy)).
    reflexivity.
  - specialize (Hpage [inl Sample.tableNotFound]).
    set (st := mkSt ([inr Paged.first; inl Sample.tableNotFound] : Scripted.World) []) in *.
    set (s := snd (query _ _ None st)).
    assert (Hr : query _ _ (Some (Sample.item "b")) s =
                 (Throw (Transport Sample.tableNotFound),
                  snd (query _ _ (Some (Sample.item "b")) s)))
      by (vm_compute; reflexivity).
    rewrite (proj1 (getPartition_table_missing_ends_scan (J := Literal)
               Sample.context "docs" "p" None cond st 1 _ _ s _ _ 2
               eq_refl Hpage Hr (le_n 2))
             (or_introl Hmissing)).
    reflexivity.
  - specialize (Hpage [inl Sample.invalidRequest]).
    set (st := mkSt ([inr Paged.first; inl Sample.invalidRequest] : Scripted.World) []) in *.
    set (s := snd (query _ _ None st)).
    assert (Hr : query _ _ (Some (Sample.item "b")) s =
                 (Throw (Transport Sample.invalidRequest),
                  snd (query _ _ (Some (Sample.item "b")) s)))
      by (vm_compute; reflexivity).
    rewrite (proj2 (getPartition_table_missing_ends_scan (J := Literal)
               Sample.context "docs" "p" None cond st 1 _ _ s _ _ 2
               eq_refl Hpage Hr (le_n 2))
             (Hother (Transport Sample.invalidRequest) "ResourceNotFoundException" eq_refl)
             (Hother (Transport Sample.invalidRequest) "ResourceInUseException" eq_refl)).
    reflexivity.
  - set (st := mkSt ([inl (NetworkError "socket hang up")] : Scripted.World) []).
    assert (Hr : query _ _ None st = (Throw (Transport (NetworkError "socket hang up")),
                                      snd (query _ _ None st)))
      by (vm_compute; reflexivity).
    rewrite (proj2 (getPartition_table_missing_ends_scan (J := Literal)
               Sample.context "docs" "p" None cond st 0 [] None st _ _ 2
               eq_refl (pages_done _ _ _ _ _ _) Hr (le_S _ _ (le_n 1)))
             (Hother (Transport (NetworkError "socket hang up"))
                     "ResourceNotFoundException" eq_refl)
             (Hother (Transport (NetworkError "socket hang up"))
                     "ResourceInUseException" eq_refl)).
    reflexivity.
Defined.

(** ** The abort signal *)

Lemma withoutSignal_nil : withoutSignal [].
Proof. constructor. Qed.

Lemma withoutSignal_app (a b : list Event) :
  withoutSignal a -> withoutSignal b -> withoutSignal (a ++ b).
Proof.
  unfold withoutSignal, fetches. intros Ha Hb. rewrite omap_app.
  apply Forall_app. split; assumption.
Qed.

Section Signal.
Context {W : Type} `{Runtime W} {J : Type} `{Json J}.

Lemma sendsNoSignal_same {A : Type} (m : St W -> A * St W) :
  (forall st, trace (snd (m st)) = trace st) -> sendsNoSignal m.
Proof.
  intros Hm st. exists []. rewrite app_nil_r. split; [apply Hm | apply withoutSignal_nil].
Qed.

Lemma sendsNoSignal_ret {A : Type} (a : A) : sendsNoSignal (ret (W := W) a).
Proof. now apply sendsNoSignal_same. Qed.

Lemma sendsNoSignal_throw {A : Type} (e : JsError) : sendsNoSignal (throw (W := W) (A := A) e).
Proof. now apply sendsNoSignal_same. Qed.

Lemma sendsNoSignal_bind {A B : Type} (m : M W A) (k : A -> M W B) :
  sendsNoSignal m -> (forall a, sendsNoSignal (k a)) -> sendsNoSignal (bind m k).
Proof.
  intros Hm Hk st. unfold bind.
  destruct (Hm st) as [new1 [E1 Q1]].
  destruct (m st) as [[a | e |] st1]; simpl in *; eauto.
  destruct (Hk a st1) as [new2 [E2 Q2]].
  exists (new1 ++ new2)%list. rewrite E2, E1, app_assoc.
  split; [reflexivity | now apply withoutSignal_app].
Qed.

Lemma sendsNoSignal_try_catch {A : Type} (m : M W A) (h : JsError -> M W A) :
  sendsNoSignal m -> (forall e, sendsNoSignal (h e)) -> sendsNoSignal (try_catch m h).
Proof.
  intros Hm Hh st. unfold try_catch.
  destruct (Hm st) as [new1 [E1 Q1]].
  destruct (m st) as [[a | e |] st1]; simpl in *; eauto.
  destruct (Hh e st1) as [new2 [E2 Q2]].
  exists (new1 ++ new2)%list. rewrite E2, E1, app_assoc.
  split; [reflexivity | now apply withoutSignal_app].
Qed.

Lemma sendsNoSignal_dbRequest (env : option (gmap string string)) (target : string)
    (body : Body) :
  sendsNoSignal (dbRequest (W := W) env target body).
Proof.
  intros st.
  destruct (dbRequest_cases env target body st) as [[name E] | [call [_ [Hs E]]]];
    rewrite E; simpl.
  - exists []. rewrite app_nil_r. split; [reflexivity | apply withoutSignal_nil].
  - exists [EvFetch call]. split; [reflexivity |].
    unfold withoutSignal. simpl. constructor; [exact Hs | constructor].
Qed.

Lemma sendsNoSignal_event (f : W -> W) (ev : Event) :
  (forall call, ev <> EvFetch call) ->
  sendsNoSignal (fun st : St W => (Return tt, mkSt (f (world st)) (trace st ++ [ev]))).
Proof.
  intros Hev st. exists [ev]. split; [reflexivity |].
  unfold withoutSignal. destruct ev as [call | ms | message]; simpl;
    [now destruct (Hev call) | constructor | constructor].
Qed.

Lemma sendsNoSignal_sleep (ms : Z) : sendsNoSignal (Connection.sleep (W := W) ms).
Proof. apply (sendsNoSignal_event (setTimeout ms)). discriminate. Qed.

Lemma sendsNoSignal_logDebug (ctx : Context) (message : string) :
  sendsNoSignal (Connection.logDebug (W := W) ctx message).
Proof.
  unfold Connection.logDebug. destruct (log ctx); [| apply sendsNoSignal_ret].
  apply (sendsNoSignal_event (fun w => w)). discriminate.
Qed.

Lemma sendsNoSignal_freshRevision : sendsNoSignal (Connection.freshRevision (W := W)).
Proof.
  apply sendsNoSignal_same. intros st. unfold Connection.freshRevision.
  now destruct (randomUUID (world st)).
Qed.

Lemma sendsNoSignal_now : sendsNoSignal (Connection.now (W := W)).
Proof. now apply sendsNoSignal_same. Qed.

Lemma sendsNoSignal_createTable (ctx : Context) (table : string) :
  sendsNoSignal (Connection.createTable (W := W) ctx table).
Proof.
  unfold Connection.createTable. apply sendsNoSignal_try_catch.
  - apply sendsNoSignal_bind; [apply sendsNoSignal_dbRequest |].
    intros _. apply sendsNoSignal_ret.
  - intros e. destruct (isErrorType e "ResourceInUseException");
      [apply sendsNoSignal_ret | apply sendsNoSignal_throw].
Qed.

Lemma sendsNoSignal_add (fuel : nat) (ctx : Context) (table partition key : string)
    (document : J) :
  sendsNoSignal (Connection.add fuel ctx table partition key document).
Proof.
  induction fuel as [| fuel IH]; [now apply sendsNoSignal_same |].
  cbn [Connection.add].
  apply sendsNoSignal_bind; [apply sendsNoSignal_freshRevision |]. intros revision.
  apply sendsNoSignal_try_catch.
  - apply sendsNoSignal_bind; [apply sendsNoSignal_now |]. intros now.
    apply sendsNoSignal_bind; [apply sendsNoSignal_dbRequest |]. intros _.
    apply sendsNoSignal_ret.
  - intros e.
    destruct (isErrorType e "ResourceNotFoundException").
    { apply sendsNoSignal_bind; [apply sendsNoSignal_createTable |]. intros _.
      apply sendsNoSignal_bind; [apply sendsNoSignal_sleep |]. intros _. exact IH. }
    destruct (isErrorType e "ResourceInUseException").
    { apply sendsNoSignal_bind; [apply sendsNoSignal_logDebug |]. intros _.
      apply sendsNoSignal_bind; [apply sendsNoSignal_sleep |]. intros _. exact IH. }
    destruct (isErrorType e "ConditionalCheckFailedException");
      apply sendsNoSignal_throw.
Qed.

Lemma sendsNoSignal_get (ctx : Context) (table partition key : string) :
  sendsNoSignal (Connection.get (J := J) ctx table partition key).
Proof.
  unfold Connection.get. apply sendsNoSignal_try_catch.
  - apply sendsNoSignal_bind; [apply sendsNoSignal_dbRequest |]. intros result.
    destruct (RItem result) as [item |]; [| apply sendsNoSignal_throw].
    destruct (JSON_parse _); [apply sendsNoSignal_ret | apply sendsNoSignal_throw].
  - intros e.
    destruct (isErrorType e "ResourceNotFoundException"); [apply sendsNoSignal_throw |].
    destruct (isErrorType e "ResourceInUseException"); apply sendsNoSignal_throw.
Qed.

Lemma sendsNoSignal_update (fuel : nat) (ctx : Context) (table partition key : string)
    (currentRevision : string) (document : J) :
  sendsNoSignal (Connection.update fuel ctx table partition key currentRevision document).
Proof.
  induction fuel as [| fuel IH]; [now apply sendsNoSignal_same |].
  cbn [Connection.update].
  apply sendsNoSignal_bind; [apply sendsNoSignal_freshRevision |]. intros revision.
  apply sendsNoSignal_try_catch.
  - apply sendsNoSignal_bind; [apply sendsNoSignal_now |]. intros now.
    apply sendsNoSignal_bind; [apply sendsNoSignal_dbRequest |]. intros _.
    apply sendsNoSignal_ret.
  - intros e.
    destruct (isErrorType e "ConditionalCheckFailedException");
      [apply sendsNoSignal_throw |].
    destruct (isErrorType e "ResourceInUseException").
    { apply sendsNoSignal_bind; [apply sendsNoSignal_logDebug |]. intros _.
      apply sendsNoSignal_bind; [apply sendsNoSignal_sleep |]. intros _. exact IH. }
    destruct (isErrorType e "ResourceNotFoundException"); apply sendsNoSignal_throw.
Qed.

Lemma sendsNoSignal_delete (ctx : Context) (table partition key : string)
    (currentRevision : option string) :
  sendsNoSignal (Connection.delete (W := W) ctx table partition key currentRevision).
Proof.
  unfold Connection.delete. apply sendsNoSignal_try_catch.
  - apply sendsNoSignal_bind; [apply sendsNoSignal_dbRequest |]. intros _.
    apply sendsNoSignal_ret.
  - intros e.
    destruct (isErrorType e "ConditionalCheckFailedException");
      [apply sendsNoSignal_throw |].
    destruct (isErrorType e "ResourceInUseException"); [apply sendsNoSignal_ret |].
    destruct (isErrorType e "ResourceNotFoundException"); [| apply sendsNoSignal_throw].
    destruct (Js.truthy currentRevision);
      [apply sendsNoSignal_throw | apply sendsNoSignal_ret].
Qed.

Lemma sendsNoSignal_scan (fuel : nat) (ctx : Context) (table partition : string)
    (range : option KeyRange) (cursor : option Item) :
  sendsNoSignal (Connection.scan (J := J) fuel ctx table partition range cursor).
Proof.
  revert cursor. induction fuel as [| fuel IH]; intros cursor;
    [now apply sendsNoSignal_same |].
  intros st. cbn [Connection.scan].
  destruct (queryFromRange partition range) as [e | cond].
  { exists []. rewrite app_nil_r. split; [reflexivity | apply withoutSignal_nil]. }
  destruct (sendsNoSignal_dbRequest (env ctx) "Query"
              (QueryBody (Connection.tableName ctx table) cursor cond) st)
    as [new1 [E1 Q1]].
  destruct (dbRequest _ _ _ st) as [[result | e |] st1]; simpl in E1; eauto.
  destruct (Connection.yieldItems range _) as [rows [e |]]; eauto.
  destruct (RLastEvaluatedKey result) as [k |]; eauto.
  destruct (IH (Some k) st1) as [new2 [E2 Q2]].
  destruct (Connection.scan fuel ctx table partition range (Some k) st1) as [[more out] st2].
  simpl in *. exists (new1 ++ new2)%list. rewrite E2, E1, app_assoc.
  split; [reflexivity | now apply withoutSignal_app].
Qed.

Lemma sendsNoSignal_getPartition (fuel : nat) (ctx : Context) (table partition : string)
    (range : option KeyRange) :
  sendsNoSignal (Connection.getPartition (J := J) fuel ctx table partition range).
Proof.
  intros st. unfold Connection.getPartition.
  destruct (sendsNoSignal_scan fuel ctx table partition range None st) as [new [E Q]].
  destruct (Connection.scan fuel ctx table partition range None st) as [[rows out] st1].
  eauto.
Qed.

(** C10 (as amended). Whatever the context holds as [signal], no
    storage operation hands it on: every remote call that [add], [get],
    [getPartition], [update] or [delete] issues goes to the transport
    without a signal. *)
Theorem operations_send_no_signal
    (fuel : nat) (ctx : Context) (table partition key : string)
    (document : J) (revision : string) (currentRevision : option string)
    (range : option KeyRange) :
  sendsNoSignal (Connection.add fuel ctx table partition key document) /\
  sendsNoSignal (Connection.get (J := J) ctx table partition key) /\
  sendsNoSignal (Connection.getPartition (J := J) fuel ctx table partition range) /\
  sendsNoSignal (Connection.update fuel ctx table partition key revision document) /\
  sendsNoSignal (Connection.delete (W := W) ctx table partition key currentRevision).
Proof.
  split; [apply sendsNoSignal_add |].
  split; [apply sendsNoSignal_get |].
  split; [apply sendsNoSignal_getPartition |].
  split; [apply sendsNoSignal_update | apply sendsNoSignal_delete].
Qed.

End Signal.

(** C10 (as stated) fails: the context holds a signal, [get] issues one
    remote call, and that call carries no signal. *)
Lemma get_signal_counterexample :
  let run := Connection.get (J := Literal) Sample.context "docs" "p" "k"
               (mkSt Sample.emptyStore []) in
  signal Sample.context = Some (Signal 1) /\
  map fc_signal (fetches (trace (snd run))) = [None] /\
  ~ Forall (fun call => fc_signal call = signal Sample.context) (fetches (trace (snd run))).
Proof.
  intros run. split; [reflexivity |]. split; [reflexivity |].
  intros Hall. apply Forall_inv in Hall. vm_compute in Hall. discriminate.
Qed.

(** ** The driver against the model of the remote store *)

Lemma newItem_partition {J : Type} `{Json J} (p k r now : string) (d : J) :
  Connection.newItem p k r now d !! "partition" = Some (AttrS p).
Proof. reflexivity. Qed.

Lemma newItem_key {J : Type} `{Json J} (p k r now : string) (d : J) :
  Connection.newItem p k r now d !! "key" = Some (AttrS k).
Proof. reflexivity. Qed.

Lemma newItem_revision {J : Type} `{Json J} (p k r now : string) (d : J) :
  Connection.newItem p k r now d !! "revision" = Some (AttrS r).
Proof. reflexivity. Qed.

Lemma newItem_seq {J : Type} `{Json J} (p k r now : string) (d : J) :
  Connection.newItem p k r now d !! "seq" = Some (AttrN 0).
Proof. reflexivity. Qed.

Lemma newItem_document {J : Type} `{Json J} (p k r now : string) (d : J) :
  Connection.newItem p k r now d !! "document" = Some (AttrS (JSON_stringify d)).
Proof. reflexivity. Qed.

Section Attempts.
Context {W : Type} `{Runtime W} {J : Type} `{Json J}.

(** One attempt of [add], by the outcome of its remote call. *)
Lemma add_attempt (fuel : nat) (ctx : Context) (table partition key : string)
    (document : J) (st : St W) :
  Connection.add (S fuel) ctx table partition key document st =
  let drawn := randomUUID (world st) in
  let revision := Js.removeAll "-" (fst drawn) in
  let request :=
    dbRequest (env ctx) "PutItem"
      (PutItemBody (Connection.tableName ctx table)
         (Connection.newItem partition key revision (toISOString (snd drawn)) document)
         "attribute_not_exists(revision)")
      (mkSt (snd drawn) (trace st)) in
  match fst request with
  | Return _ => (Return revision, snd request)
  | Throw e =>
      if isErrorType e "ResourceNotFoundException" then
        (Connection.createTable ctx table ;;;
         Connection.sleep 1000 ;;;
         Connection.add fuel ctx table partition key document) (snd request)
      else if isErrorType e "ResourceInUseException" then
        (Connection.logDebug ctx "Table in use; retrying assuming it is being created." ;;;
         Connection.sleep 1000 ;;;
         Connection.add fuel ctx table partition key document) (snd request)
      else if isErrorType e "ConditionalCheckFailedException" then
        (Throw conflict, snd request)
      else (Throw e, snd request)
  | OutOfFuel => (OutOfFuel, snd request)
  end.
Proof.
  cbn [Connection.add]. unfold bind at 1. unfold Connection.freshRevision.
  destruct (randomUUID (world st)) as [uuid w1]. cbv zeta. cbn [fst snd].
  unfold try_catch, bind, Connection.now. cbn [world trace].
  destruct (dbRequest _ _ _ _) as [[reply | e |] st1]; cbn [fst snd]; try reflexivity.
  destruct (isErrorType e "ResourceNotFoundException"); [reflexivity |].
  destruct (isErrorType e "ResourceInUseException"); [reflexivity |].
  destruct (isErrorType e "ConditionalCheckFailedException"); reflexivity.
Qed.

(** One attempt of [update], by the outcome of its remote call. *)
Lemma update_attempt (fuel : nat) (ctx : Context) (table partition key : string)
    (currentRevision : string) (document : J) (st : St W) :
  Connection.update (S fuel) ctx table partition key currentRevision document st =
  let drawn := randomUUID (world st) in
  let newRevision := Js.removeAll "-" (fst drawn) in
  let request :=
    dbRequest (env ctx) "UpdateItem"
      (UpdateItemBody (Connection.tableName ctx table) partition key
         "ADD seq :one SET revision = :newRevision, updated = :now, document = :document"
         "revision = :oldRevision"
         [(":one", AttrN 1);
          (":oldRevision", AttrS currentRevision);
          (":newRevision", AttrS newRevision);
          (":now", AttrS (toISOString (snd drawn)));
          (":document", AttrS (JSON_stringify document))])
      (mkSt (snd drawn) (trace st)) in
  match fst request with
  | Return _ => (Return newRevision, snd request)
  | Throw e =>
      if isErrorType e "ConditionalCheckFailedException" then
        (Throw conflict, snd request)
      else if isErrorType e "ResourceInUseException" then
        (Connection.logDebug ctx "Table in use; retrying assuming it is being created." ;;;
         Connection.sleep 1000 ;;;
         Connection.update fuel ctx table partition key currentRevision document)
          (snd request)
      else if isErrorType e "ResourceNotFoundException" then
        (Throw conflict, snd request)
      else (Throw e, snd request)
  | OutOfFuel => (OutOfFuel, snd request)
  end.
Proof.
  cbn [Connection.update]. unfold bind at 1. unfold Connection.freshRevision.
  destruct (randomUUID (world st)) as [uuid w1]. cbv zeta. cbn [fst snd].
  unfold try_catch, bind, Connection.now. cbn [world trace].
  destruct (dbRequest _ _ _ _) as [[reply | e |] st1]; cbn [fst snd]; try reflexivity.
  destruct (isErrorType e "ConditionalCheckFailedException"); [reflexivity |].
  destruct (isErrorType e "ResourceInUseException"); [reflexivity |].
  destruct (isErrorType e "ResourceNotFoundException"); reflexivity.
Qed.

(** [createTable], by the outcome of its remote call. *)
Lemma createTable_by_request (ctx : Context) (table : string) (st : St W) :
  let request :=
    dbRequest (env ctx) "CreateTable"
      (CreateTableBody (Connection.tableName ctx table)
         [("partition", "S"); ("key", "S")]
         [("partition", "HASH"); ("key", "RANGE")]
         (Connection.tableOptions ctx)) st in
  Connection.createTable ctx table st =
  (match fst request with
   | Return _ => Return tt
   | Throw e => if isErrorType e "ResourceInUseException" then Return tt else Throw e
   | OutOfFuel => OutOfFuel
   end, snd request).
Proof.
  unfold Connection.createTable. cbv zeta.
  unfold try_catch, bind.
  destruct (dbRequest _ _ _ st) as [[reply | e |] st1]; cbn [fst snd]; try reflexivity.
  destruct (isErrorType e "ResourceInUseException"); reflexivity.
Qed.

End Attempts.

Section Store.
Context {J : Type} `{Json J}.

(** With credentials, a remote call is one request to the store. *)
Lemma store_request (ctx : Context) (target : string) (body : Body)
    (w : Dynamo.World) (tr : list Event) :
  hasCredentials ctx = true ->
  exists call,
    fc_body call = body /\
    dbRequest (env ctx) target body (mkSt w tr) =
      (settle (fst (Dynamo.fetch call w)),
       mkSt (snd (Dynamo.fetch call w)) (tr ++ [EvFetch call])).
Proof.
  intros Hc.
  destruct (dbRequest_with_credentials ctx target body (mkSt w tr) Hc)
    as [call [Hb [_ E]]].
  exists call. split; [exact Hb | exact E].
Qed.

Lemma activeRows_draw (w : Dynamo.World) (name : string) :
  Dynamo.activeRows (snd (Dynamo.draw w)) name = Dynamo.activeRows w name.
Proof. reflexivity. Qed.

(** A conditional insert of a new item into an active table: refused
    when the identity holds an item with a revision, stored otherwise. *)
Lemma putItem_active (w : Dynamo.World) (name p k r now : string) (d : J)
    (rs : gmap (string * string) Item) :
  Dynamo.activeRows w name = Some rs ->
  Dynamo.putItem w name (Connection.newItem p k r now d) "attribute_not_exists(revision)" =
  match rs !! (p, k) with
  | Some old =>
      match old !! "revision" with
      | Some _ => (Dynamo.ConditionalCheckFailed, w)
      | None => (inr emptyResponse,
                 Dynamo.setRows w name (<[(p, k) := Connection.newItem p k r now d]> rs))
      end
  | None => (inr emptyResponse,
             Dynamo.setRows w name (<[(p, k) := Connection.newItem p k r now d]> rs))
  end.
Proof.
  intros Hact. unfold Dynamo.putItem. rewrite Hact.
  rewrite newItem_partition, newItem_key. reflexivity.
Qed.

(** C3. When the table holds a record under the identity, [add] sends
    its conditional insert once, fails with the Conflict error of status
    409, and does nothing else: no pause, no second request, whatever
    number of attempts it is allowed; the tables are as they were. *)
Theorem add_existing_identity_conflicts
    (fuel : nat) (ctx : Context) (table partition key : string) (document : J)
    (w : Dynamo.World) (tr : list Event) (old : Item) (r : AttributeValue) :
  hasCredentials ctx = true ->
  stored w (Connection.tableName ctx table) partition key = Some old ->
  old !! "revision" = Some r ->
  let result := Connection.add (S fuel) ctx table partition key document (mkSt w tr) in
  fst result = Throw (StatusError "Conflict" 409) /\
  Dynamo.tables (world (snd result)) = Dynamo.tables w /\
  exists call item,
    trace (snd result) = (tr ++ [EvFetch call])%list /\
    fc_body call =
      PutItemBody (Connection.tableName ctx table) item "attribute_not_exists(revision)".
Proof.
  intros Hc Hstored Hrev result. subst result.
  unfold stored in Hstored.
  destruct (Dynamo.activeRows w (Connection.tableName ctx table)) as [rs |] eqn:Hact;
    [| discriminate].
  rewrite add_attempt. cbv zeta. cbn [world trace].
  change (randomUUID w) with (Dynamo.draw w).
  set (revision := Js.removeAll "-" (fst (Dynamo.draw w))).
  set (item := Connection.newItem partition key revision _ document).
  destruct (store_request ctx "PutItem"
              (PutItemBody (Connection.tableName ctx table) item
                 "attribute_not_exists(revision)") (snd (Dynamo.draw w)) tr Hc)
    as [call [Hb E]].
  rewrite E. clear E. cbn [fst snd].
  assert (Hfetch : Dynamo.fetch call (snd (Dynamo.draw w)) =
                   (Dynamo.ConditionalCheckFailed, snd (Dynamo.draw w))).
  { unfold Dynamo.fetch. rewrite Hb. subst item.
    rewrite (putItem_active _ _ _ _ _ _ _ rs) by (now rewrite activeRows_draw).
    now rewrite Hstored, Hrev. }
  rewrite Hfetch. cbn [fst snd settle Dynamo.ConditionalCheckFailed Dynamo.failure].
  change (isErrorType _ "ResourceNotFoundException") with false.
  change (isErrorType _ "ResourceInUseException") with false.
  change (isErrorType _ "ConditionalCheckFailedException") with true.
  cbv iota. cbn [fst snd world trace].
  split; [reflexivity |]. split; [reflexivity |].
  exists call, item. split; [reflexivity | exact Hb].
Qed.

Lemma sleep_second (w : Dynamo.World) (tr : list Event) :
  Connection.sleep 1000 (mkSt w tr) = (Return tt, mkSt (Dynamo.tick w) (tr ++ [EvSleep 1000])).
Proof. reflexivity. Qed.

Lemma lookup_tick (w : Dynamo.World) (name : string) :
  Dynamo.tables (Dynamo.tick w) !! name = Dynamo.age <$> Dynamo.tables w !! name.
Proof. unfold Dynamo.tick. cbn [Dynamo.tables]. apply lookup_fmap. Qed.

(** An attempt of [add] on a table that is not active yet: the table is
    created if it is not there, a second passes, and the next attempt
    starts one step closer to an active table. *)
Lemma add_retry (fuel : nat) (ctx : Context) (table partition key : string)
    (document : J) (w : Dynamo.World) (tr : list Event) :
  hasCredentials ctx = true ->
  Dynamo.activeRows w (Connection.tableName ctx table) = None ->
  vacant w (Connection.tableName ctx table) partition key = true ->
  exists w1 tr1,
    Connection.add (S fuel) ctx table partition key document (mkSt w tr) =
    Connection.add fuel ctx table partition key document (mkSt w1 tr1) /\
    S (attempts w1 (Connection.tableName ctx table)) =
      attempts w (Connection.tableName ctx table) /\
    vacant w1 (Connection.tableName ctx table) partition key = true.
Proof.
  intros Hc Hact Hvac. set (name := Connection.tableName ctx table) in *.
  rewrite add_attempt. cbv zeta. cbn [world trace].
  change (randomUUID w) with (Dynamo.draw w).
  set (w0 := snd (Dynamo.draw w)).
  set (item := Connection.newItem partition key _ _ document).
  destruct (store_request ctx "PutItem"
              (PutItemBody name item "attribute_not_exists(revision)") w0 tr Hc)
    as [call [Hb E]].
  fold name. rewrite E. clear E. cbn [fst snd].
  assert (Hfetch : Dynamo.fetch call w0 = (Dynamo.ResourceNotFound, w0)).
  { unfold Dynamo.fetch. rewrite Hb. unfold Dynamo.putItem.
    subst w0. now rewrite activeRows_draw, Hact. }
  rewrite Hfetch. cbn [fst snd settle Dynamo.ResourceNotFound Dynamo.failure].
  change (isErrorType _ "ResourceNotFoundException") with true. cbv iota.
  set (tr0 := (tr ++ [EvFetch call])%list).
  unfold bind at 1. rewrite createTable_by_request. cbv zeta. fold name.
  destruct (store_request ctx "CreateTable"
              (CreateTableBody name [("partition", "S"); ("key", "S")]
                 [("partition", "HASH"); ("key", "RANGE")]
                 (Connection.tableOptions ctx)) w0 tr0 Hc)
    as [call' [Hb' E']].
  rewrite E'. clear E'. cbn [fst snd].
  unfold Dynamo.fetch at 1 2. rewrite Hb'. unfold Dynamo.createTable.
  assert (Htab : Dynamo.tables w0 = Dynamo.tables w) by reflexivity.
  assert (Hprov : Dynamo.provisioning w0 = Dynamo.provisioning w) by reflexivity.
  unfold vacant, attempts in *. unfold Dynamo.activeRows in Hact.
  rewrite Htab.
  destruct (Dynamo.tables w !! name) as [t |] eqn:Ht.
  - cbn [fst snd settle Dynamo.ResourceInUse Dynamo.failure].
    change (isErrorType _ "ResourceInUseException") with true. cbv iota.
    unfold bind. rewrite sleep_second.
    eexists _, _. split; [reflexivity |].
    rewrite lookup_tick, Htab, Ht. cbn [fmap option_fmap option_map].
    unfold Dynamo.age.
    destruct (Dynamo.status t) as [[| n] |]; cbn [Dynamo.status Dynamo.rows];
      [| | discriminate]; (split; [lia | exact Hvac]).
  - cbn [fst snd settle].
    unfold bind. rewrite sleep_second.
    eexists _, _. split; [reflexivity |].
    rewrite lookup_tick. unfold Dynamo.withTables. cbn [Dynamo.tables].
    rewrite lookup_insert_eq. cbn [fmap option_fmap option_map].
    unfold Dynamo.age. cbn [Dynamo.status Dynamo.rows]. rewrite Hprov.
    destruct (Dynamo.provisioning w) as [| n]; cbn [Dynamo.status Dynamo.rows];
      (split; [lia | now rewrite lookup_empty]).
Qed.

Lemma activeRows_setRows (w : Dynamo.World) (name : string)
    (rs : gmap (string * string) Item) :
  Dynamo.activeRows (Dynamo.setRows w name rs) name = Some rs.
Proof.
  unfold Dynamo.activeRows, Dynamo.setRows, Dynamo.withTables. cbn [Dynamo.tables].
  now rewrite lookup_insert_eq.
Qed.

Lemma stored_setRows (w : Dynamo.World) (name p k : string)
    (rs : gmap (string * string) Item) (item : Item) :
  stored (Dynamo.setRows w name (<[(p, k) := item]> rs)) name p k = Some item.
Proof.
  unfold stored. rewrite activeRows_setRows. apply lookup_insert_eq.
Qed.

Lemma vacant_active (w : Dynamo.World) (name p k : string)
    (rs : gmap (string * string) Item) :
  Dynamo.activeRows w name = Some rs -> vacant w name p k = true -> rs !! (p, k) = None.
Proof.
  unfold Dynamo.activeRows, vacant.
  destruct (Dynamo.tables w !! name) as [t |]; [| discriminate].
  destruct (Dynamo.status t); [discriminate |]. intros [= <-].
  now destruct (Dynamo.rows t !! (p, k)).
Qed.

Lemma attempts_positive (w : Dynamo.World) (name : string) : 1 <= attempts w name.
Proof.
  unfold attempts. destruct (Dynamo.tables w !! name) as [t |]; [| lia].
  destruct (Dynamo.status t); lia.
Qed.

(** An attempt of [add] on an active table without the identity stores
    the new item and returns its revision, after one request. *)
Lemma add_stores (fuel : nat) (ctx : Context) (table partition key : string)
    (document : J) (w : Dynamo.World) (tr : list Event)
    (rs : gmap (string * string) Item) :
  hasCredentials ctx = true ->
  Dynamo.activeRows w (Connection.tableName ctx table) = Some rs ->
  rs !! (partition, key) = None ->
  let revision := Js.removeAll "-" (Dynamo.uuids w (Dynamo.drawn w)) in
  let item :=
    Connection.newItem partition key revision (Dynamo.isoTime w (Dynamo.seconds w))
      document in
  exists call,
    Connection.add (S fuel) ctx table partition key document (mkSt w tr) =
    (Return revision,
     mkSt (Dynamo.setRows (snd (Dynamo.draw w)) (Connection.tableName ctx table)
             (<[(partition, key) := item]> rs))
          (tr ++ [EvFetch call])).
Proof.
  intros Hc Hact Hnone revision item. set (name := Connection.tableName ctx table) in *.
  rewrite add_attempt. cbv zeta. cbn [world trace].
  change (randomUUID w) with (Dynamo.draw w).
  set (w0 := snd (Dynamo.draw w)).
  change (Js.removeAll "-" (fst (Dynamo.draw w))) with revision.
  change (toISOString w0) with (Dynamo.isoTime w (Dynamo.seconds w)).
  fold item. fold name.
  destruct (store_request ctx "PutItem"
              (PutItemBody name item "attribute_not_exists(revision)") w0 tr Hc)
    as [call [Hb E]].
  rewrite E. clear E. cbn [fst snd].
  unfold Dynamo.fetch. rewrite Hb. subst item.
  rewrite (putItem_active _ _ _ _ _ _ _ rs) by (subst w0; now rewrite activeRows_draw).
  rewrite Hnone. cbn [fst snd settle]. exists call. reflexivity.
Qed.

(** [get] of an identity that is stored in an active table. *)
Lemma get_stored (ctx : Context) (table partition key : string)
    (w : Dynamo.World) (tr : list Event) (item : Item) :
  hasCredentials ctx = true ->
  stored w (Connection.tableName ctx table) partition key = Some item ->
  fst (Connection.get (J := J) ctx table partition key (mkSt w tr)) =
  match JSON_parse (Js.nullish_or (attrS (item !! "document")) "{}") with
  | Some doc => Return (mkRow partition key (attrS (item !! "revision")) doc)
  | None => Throw SyntaxError
  end.
Proof.
  intros Hc Hst. rewrite get_by_request. cbv zeta. cbn [fst].
  destruct (store_request ctx "GetItem"
              (GetItemBody (Connection.tableName ctx table) partition key) w tr Hc)
    as [call [Hb E]].
  rewrite E. clear E. cbn [fst].
  unfold Dynamo.fetch. rewrite Hb. unfold Dynamo.getItem.
  unfold stored in Hst.
  destruct (Dynamo.activeRows w (Connection.tableName ctx table)) as [rs |];
    [| discriminate].
  cbn [fst settle RItem]. rewrite Hst. reflexivity.
Qed.

(** When [add] returns, the item it built is stored under the identity,
    with the returned revision, and the context has credentials. *)
Lemma add_returns_stored (fuel : nat) (ctx : Context) (table partition key : string)
    (document : J) (w : Dynamo.World) (tr : list Event) (revision : string)
    (st1 : St Dynamo.World) :
  Connection.add fuel ctx table partition key document (mkSt w tr) = (Return revision, st1) ->
  hasCredentials ctx = true /\
  exists now,
    stored (world st1) (Connection.tableName ctx table) partition key =
      Some (Connection.newItem partition key revision now document).
Proof.
  revert w tr. induction fuel as [| fuel IH]; intros w tr; [discriminate |].
  set (name := Connection.tableName ctx table) in *.
  rewrite add_attempt. cbv zeta. cbn [world trace].
  change (randomUUID w) with (Dynamo.draw w).
  set (w0 := snd (Dynamo.draw w)).
  set (rev := Js.removeAll "-" (fst (Dynamo.draw w))).
  set (item := Connection.newItem partition key rev _ document). fold name.
  destruct (hasCredentials ctx) eqn:Hc.
  2:{ destruct (dbRequest_without_credentials ctx "PutItem"
                  (PutItemBody name item "attribute_not_exists(revision)")
                  (mkSt w0 tr) Hc) as [missing E].
      rewrite E. cbn [fst snd isErrorType]. discriminate. }
  destruct (store_request ctx "PutItem"
              (PutItemBody name item "attribute_not_exists(revision)") w0 tr Hc)
    as [call [Hb E]].
  rewrite E. clear E. cbn [fst snd].
  unfold Dynamo.fetch. rewrite Hb.
  destruct (Dynamo.activeRows w name) as [rs |] eqn:Hact.
  - subst item.
    rewrite (putItem_active _ _ _ _ _ _ _ rs) by (subst w0; now rewrite activeRows_draw).
    assert (Hput : forall st2,
      (Return rev,
       mkSt (Dynamo.setRows w0 name
               (<[(partition, key) :=
                    Connection.newItem partition key rev (toISOString w0) document]> rs))
            (tr ++ [EvFetch call])) = (Return revision, st2) ->
      true = true /\
      exists now,
        stored (world st2) name partition key =
          Some (Connection.newItem partition key revision now document)).
    { intros st2 [= <- <-]. split; [reflexivity |].
      eexists. cbn [world]. apply stored_setRows. }
    destruct (rs !! (partition, key)) as [old |]; [| apply Hput].
    destruct (old !! "revision"); [| apply Hput].
    cbn [fst snd settle Dynamo.ConditionalCheckFailed Dynamo.failure].
    change (isErrorType _ "ResourceNotFoundException") with false.
    change (isErrorType _ "ResourceInUseException") with false.
    change (isErrorType _ "ConditionalCheckFailedException") with true.
    discriminate.
  - unfold Dynamo.putItem.
    replace (Dynamo.activeRows w0 name) with (@None (gmap (string * string) Item))
      by (subst w0; now rewrite activeRows_draw).
    cbn [fst snd settle Dynamo.ResourceNotFound Dynamo.failure].
    change (isErrorType _ "ResourceNotFoundException") with true. cbv iota.
    intros Hrun.
    apply bind_returns in Hrun. destruct Hrun as [[] [sa [_ Hrun]]].
    apply bind_returns in Hrun. destruct Hrun as [[] [[wb trb] [_ Hrun]]].
    destruct (IH wb trb Hrun) as [_ Hst]. split; [reflexivity | exact Hst].
Qed.

(** C1. On the remote store, whenever [add] returns a revision, the item
    stored under the identity has [seq] 0, and a [get] that follows returns
    the identity with that revision and, the document being serializable,
    the document that was added. And [add] does return: when the identity
    is not taken, as soon as it is allowed the attempts the table needs to
    become active (one, when it is active already). *)
Theorem add_then_get_round_trip
    (ctx : Context) (table partition key : string) (document : J)
    (w : Dynamo.World) (tr : list Event) :
  serializable document ->
  (forall fuel revision st1,
     Connection.add fuel ctx table partition key document (mkSt w tr) =
       (Return revision, st1) ->
     (exists item,
        stored (world st1) (Connection.tableName ctx table) partition key = Some item /\
        item !! "seq" = Some (AttrN 0)) /\
     fst (Connection.get ctx table partition key st1) =
       Return (mkRow partition key (Some revision) document)) /\
  (hasCredentials ctx = true ->
   vacant w (Connection.tableName ctx table) partition key = true ->
   forall fuel,
     attempts w (Connection.tableName ctx table) <= fuel ->
     exists revision st1,
       Connection.add fuel ctx table partition key document (mkSt w tr) =
         (Return revision, st1)).
Proof.
  intros Hser. split.
  - intros fuel revision st1 Hadd.
    destruct (add_returns_stored _ _ _ _ _ _ _ _ _ _ Hadd) as [Hc [now Hst]].
    split.
    + eexists. split; [exact Hst | apply newItem_seq].
    + destruct st1 as [w1 tr1]. cbn [world] in Hst.
      rewrite (get_stored _ _ _ _ _ _ _ Hc Hst).
      rewrite newItem_document, newItem_revision. cbn [attrS Js.nullish_or].
      unfold serializable in Hser. now rewrite Hser.
  - intros Hc Hvac fuel. revert w tr Hvac.
    induction fuel as [| fuel IH]; intros w tr Hvac Hfuel.
    { pose proof (attempts_positive w (Connection.tableName ctx table)). lia. }
    destruct (Dynamo.activeRows w (Connection.tableName ctx table)) as [rs |] eqn:Hact.
    + pose proof (vacant_active _ _ _ _ _ Hact Hvac) as Hnone.
      destruct (add_stores fuel ctx table partition key document w tr rs Hc Hact Hnone)
        as [call E].
      eexists _, _. exact E.
    + destruct (add_retry fuel ctx table partition key document w tr Hc Hact Hvac)
        as [w1 [tr1 [E [Hless Hvac1]]]].
      rewrite E. apply IH; [exact Hvac1 | lia].
Qed.

Lemma updated_seq (old : Item) (n : Z) (revision now document : string) :
  updated old n revision now document !! "seq" = Some (AttrN (n + 1)).
Proof.
  unfold updated. do 3 (rewrite lookup_insert_ne by discriminate).
  apply lookup_insert_eq.
Qed.

Lemma updated_revision (old : Item) (n : Z) (revision now document : string) :
  updated old n revision now document !! "revision" = Some (AttrS revision).
Proof.
  unfold updated. do 2 (rewrite lookup_insert_ne by discriminate).
  apply lookup_insert_eq.
Qed.

Lemma updated_document (old : Item) (n : Z) (revision now document : string) :
  updated old n revision now document !! "document" = Some (AttrS document).
Proof. unfold updated. apply lookup_insert_eq. Qed.

(** The driver's update on a stored record whose revision is the one presented. *)
Lemma updateItem_current (w : Dynamo.World) (name p k cur new now d : string) (n : Z)
    (rs : gmap (string * string) Item) (old : Item) :
  Dynamo.activeRows w name = Some rs ->
  rs !! (p, k) = Some old ->
  old !! "revision" = Some (AttrS cur) ->
  old !! "seq" = Some (AttrN n) ->
  Dynamo.updateItem w name p k
    "ADD seq :one SET revision = :newRevision, updated = :now, document = :document"
    "revision = :oldRevision"
    [(":one", AttrN 1); (":oldRevision", AttrS cur); (":newRevision", AttrS new);
     (":now", AttrS now); (":document", AttrS d)] =
  (inr emptyResponse, Dynamo.setRows w name (<[(p, k) := updated old n new now d]> rs)).
Proof.
  intros Hact Hold Hrev Hseq. unfold Dynamo.updateItem. rewrite Hact, Hold.
  unfold Dynamo.revisionIs. rewrite Hrev, Hseq.
  cbn [Dynamo.assoc String.eqb Ascii.eqb Bool.eqb andb].
  rewrite String.eqb_refl. reflexivity.
Qed.

(** C2. On a stored record, [update] presented with the record's
    current revision succeeds at its first attempt and returns the token
    it has just drawn from the random source; the record then stored has
    [seq] one above the previous [seq], the new document and that token
    as revision, and a [get] that follows reports that token (and, for a
    serializable document, the new document). *)
Theorem update_with_current_revision
    (fuel : nat) (ctx : Context) (table partition key currentRevision : string)
    (document : J) (w : Dynamo.World) (tr : list Event) (old : Item) (n : Z) :
  hasCredentials ctx = true ->
  stored w (Connection.tableName ctx table) partition key = Some old ->
  old !! "revision" = Some (AttrS currentRevision) ->
  old !! "seq" = Some (AttrN n) ->
  serializable document ->
  let newRevision := Js.removeAll "-" (fst (randomUUID w)) in
  exists st1 item,
    Connection.update (S fuel) ctx table partition key currentRevision document
      (mkSt w tr) = (Return newRevision, st1) /\
    stored (world st1) (Connection.tableName ctx table) partition key = Some item /\
    item !! "seq" = Some (AttrN (n + 1)) /\
    item !! "document" = Some (AttrS (JSON_stringify document)) /\
    item !! "revision" = Some (AttrS newRevision) /\
    fst (Connection.get ctx table partition key st1) =
      Return (mkRow partition key (Some newRevision) document).
Proof.
  intros Hc Hst Hrev Hseq Hser newRevision.
  set (name := Connection.tableName ctx table) in *.
  unfold stored in Hst.
  destruct (Dynamo.activeRows w name) as [rs |] eqn:Hact; [| discriminate].
  rewrite update_attempt. cbv zeta. cbn [world trace]. fold newRevision. fold name.
  change (randomUUID w) with (Dynamo.draw w).
  set (w0 := snd (Dynamo.draw w)).
  set (now := toISOString w0).
  match goal with
  | |- context [dbRequest (env ctx) "UpdateItem" ?body _] =>
      destruct (store_request ctx "UpdateItem" body w0 tr Hc) as [call [Hb E]]
  end.
  rewrite E. clear E. cbn [fst snd].
  unfold Dynamo.fetch. rewrite Hb.
  rewrite (updateItem_current _ _ _ _ _ _ _ _ n rs old)
    by (subst w0; try rewrite activeRows_draw; assumption).
  cbn [fst snd settle].
  eexists _, _. split; [reflexivity |]. cbn [world].
  split; [apply stored_setRows |].
  split; [apply updated_seq |]. split; [apply updated_document |].
  split; [apply updated_revision |].
  erewrite get_stored by (try exact Hc; apply stored_setRows).
  rewrite updated_document, updated_revision. cbn [attrS Js.nullish_or].
  unfold serializable in Hser. now rewrite Hser.
Qed.

End Store.

(** *** The three properties on the sample store *)

Lemma add_then_get_round_trip_witness :
  let name := Connection.tableName Sample.context "docs" in
  let start := mkSt Sample.emptyStore [] in
  let revision := "cf1e2d3c4b5a49788695a4b3c2d1e0f9" in
  serializable LTrue /\
  Connection.add 3 Sample.context "docs" "p" "k" LTrue start =
    (Return revision, Sample.afterAdd) /\
  (exists item,
     stored (world Sample.afterAdd) name "p" "k" = Some item /\
     item !! "seq" = Some (AttrN 0)) /\
  fst (Connection.get Sample.context "docs" "p" "k" Sample.afterAdd) =
    Return (mkRow "p" "k" (Some revision) LTrue).
Proof.
  intros name start revision.
  assert (Hs : serializable LTrue) by reflexivity.
  assert (Hadd : Connection.add 3 Sample.context "docs" "p" "k" LTrue start =
                 (Return revision, Sample.afterAdd)) by (vm_compute; reflexivity).
  split; [exact Hs |]. split; [exact Hadd |].
  exact (proj1 (add_then_get_round_trip Sample.context "docs" "p" "k" LTrue
                  Sample.emptyStore [] Hs) 3 revision Sample.afterAdd Hadd).
Defined.

Lemma update_with_current_revision_witness :
  let name := Connection.tableName Sample.context "docs" in
  let w := world Sample.afterAdd in
  let current := "cf1e2d3c4b5a49788695a4b3c2d1e0f9" in
  let old := Connection.newItem "p" "k" current "2024-05-01T10:00:02.000Z" LTrue in
  hasCredentials Sample.context = true /\
  stored w name "p" "k" = Some old /\
  old !! "revision" = Some (AttrS current) /\
  old !! "seq" = Some (AttrN 0) /\
  serializable LFalse /\
  exists st1 item,
    Connection.update 1 Sample.context "docs" "p" "k" current LFalse
      (mkSt w (trace Sample.afterAdd)) =
      (Return (Js.removeAll "-" (fst (randomUUID w))), st1) /\
    stored (world st1) name "p" "k" = Some item /\
    item !! "seq" = Some (AttrN (0 + 1)) /\
    item !! "document" = Some (AttrS (JSON_stringify LFalse)) /\
    item !! "revision" = Some (AttrS (Js.removeAll "-" (fst (randomUUID w)))) /\
    fst (Connection.get Sample.context "docs" "p" "k" st1) =
      Return (mkRow "p" "k" (Some (Js.removeAll "-" (fst (randomUUID w)))) LFalse).
Proof.
  intros name w current old.
  assert (Hc : hasCredentials Sample.context = true) by reflexivity.
  assert (Hst : stored w name "p" "k" = Some old) by (vm_compute; reflexivity).
  assert (Hrev : old !! "revision" = Some (AttrS current)) by reflexivity.
  assert (Hseq : old !! "seq" = Some (AttrN 0)) by reflexivity.
  assert (Hs : serializable LFalse) by reflexivity.
  split; [exact Hc |]. split; [exact Hst |]. split; [exact Hrev |].
  split; [exact Hseq |]. split; [exact Hs |].
  exact (update_with_current_revision 0 Sample.context "docs" "p" "k" current LFalse
           w (trace Sample.afterAdd) old 0 Hc Hst Hrev Hseq Hs).
Defined.

Lemma add_existing_identity_conflicts_witness :
  let name := Connection.tableName Sample.context "docs" in
  let w := world Sample.afterAdd in
  let old :=
    Connection.newItem "p" "k" "cf1e2d3c4b5a49788695a4b3c2d1e0f9"
      "2024-05-01T10:00:02.000Z" LTrue in
  let result :=
    Connection.add 5 Sample.context "docs" "p" "k" LFalse (mkSt w []) in
  hasCredentials Sample.context = true /\
  stored w name "p" "k" = Some old /\
  old !! "revision" = Some (AttrS "cf1e2d3c4b5a49788695a4b3c2d1e0f9") /\
  fst result = Throw (StatusError "Conflict" 409) /\
  Dynamo.tables (world (snd result)) = Dynamo.tables w /\
  exists call item,
    trace (snd result) = [EvFetch call] /\
    fc_body call = PutItemBody name item "attribute_not_exists(revision)".
Proof.
  intros name w old result.
  assert (Hc : hasCredentials Sample.context = true) by reflexivity.
  assert (Hst : stored w name "p" "k" = Some old) by (vm_compute; reflexivity).
  assert (Hrev : old !! "revision" = Some (AttrS "cf1e2d3c4b5a49788695a4b3c2d1e0f9"))
    by reflexivity.
  split; [exact Hc |]. split; [exact Hst |]. split; [exact Hrev |].
  exact (add_existing_identity_conflicts 4 Sample.context "docs" "p" "k" LFalse
           w [] old _ Hc Hst Hrev).
Defined.

(** * Further properties of the code *)

(** ** Credential resolver: cache, precedence and fallback *)

(** X1. Once the credential lines are cached, [localAwsEnv] never goes
    back to the file system: it reads no path, keeps the cache as it is,
    and gives the same result whatever the files and the home directory
    have become. *)
Theorem localAwsEnv_cached_ignores_files
    (P : Process) (lines : list string) (region profile : option string)
    (home : string) (files : string -> option string) :
  let run := Credentials.localAwsEnv P (Some lines) region profile in
  cr_reads run = [] /\
  cr_cache run = Some lines /\
  Credentials.localAwsEnv {| penv := penv P; homedir := home; readFile := files |}
    (Some lines) region profile = run.
Proof.
  unfold Credentials.localAwsEnv. cbn [penv].
  destruct (Js.nullish region _) as [r |];
    destruct (penv P !! "AWS_ACCESS_KEY_ID") as [k |];
    destruct (penv P !! "AWS_SECRET_ACCESS_KEY") as [s |];
    try destruct (Js.truthy (Some r) && Js.truthy (Some k) && Js.truthy (Some s));
    try (repeat split; reflexivity);
    cbv zeta;
    destruct (Js.nullish (Js.indexOf lines _) (Js.indexOf lines "[default]")) as [b |];
    try (repeat split; reflexivity);
    repeat match goal with
           | |- context [match ?x with _ => _ end] =>
               match type of x with
               | option string => destruct x
               | bool => destruct x
               end
           end;
    repeat split; reflexivity.
Qed.

(** X2. Whatever [localAwsEnv] returns as credentials has a non-empty
    region, access key id and secret key. *)
Theorem localAwsEnv_result_complete
    (P : Process) (cache : option (list string)) (region profile : option string)
    (c : LocalEnv) :
  cr_result (Credentials.localAwsEnv P cache region profile) = inr c ->
  AWS_REGION c <> "" /\ AWS_ACCESS_KEY_ID c <> "" /\ AWS_SECRET_ACCESS_KEY c <> "".
Proof.
  assert (Hall : forall r k s,
    Js.truthy (Some r) && Js.truthy (Some k) && Js.truthy (Some s) = true ->
    r <> "" /\ k <> "" /\ s <> "").
  { intros r k s E. apply andb_true_iff in E. destruct E as [E Es].
    apply andb_true_iff in E. destruct E as [Er Ek].
    repeat split; now apply truthy_nonempty. }
  unfold Credentials.localAwsEnv.
  destruct (Js.nullish region _) as [r |];
    destruct (penv P !! "AWS_ACCESS_KEY_ID") as [k |];
    destruct (penv P !! "AWS_SECRET_ACCESS_KEY") as [s |];
    try (destruct (Js.truthy (Some r) && Js.truthy (Some k) && Js.truthy (Some s)) eqn:E;
         [cbn [cr_result]; intros [= <-]; now apply Hall |]);
    cbv zeta;
    (destruct cache as [ls |]; [| destruct (readFile P _)]; cbn [cr_result];
     try discriminate;
     (match goal with
      | |- context [Js.nullish (Js.indexOf ?l ?a) (Js.indexOf ?l ?b)] =>
          destruct (Js.nullish (Js.indexOf l a) (Js.indexOf l b)) as [b0 |]
      end; cbn [cr_result]; try discriminate);
     repeat match goal with
            | |- context [match ?x with _ => _ end] =>
                match type of x with
                | option string => destruct x
                end
            end; cbn [cr_result]; try discriminate;
     match goal with
     | |- context [if ?x then _ else _] => destruct x eqn:E'
     end; cbn [cr_result]; try discriminate;
     intros [= <-]; now apply Hall).
Qed.

Lemma localAwsEnv_result_complete_witness :
  let c := {| AWS_REGION := "eu-west-1"; AWS_ACCESS_KEY_ID := "AKIDEXAMPLE";
              AWS_SECRET_ACCESS_KEY := "wJalrXUtnFEMI"; AWS_SESSION_TOKEN := None |} in
  cr_result (Credentials.localAwsEnv Sample.process None None None) = inr c /\
  (AWS_REGION c <> "" /\ AWS_ACCESS_KEY_ID c <> "" /\ AWS_SECRET_ACCESS_KEY c <> "").
Proof.
  intros c.
  assert (Hr : cr_result (Credentials.localAwsEnv Sample.process None None None) = inr c)
    by reflexivity.
  split; [exact Hr |].
  exact (localAwsEnv_result_complete Sample.process None None None c Hr).
Defined.

(** X3. The region of returned credentials is the first that is given
    of: the [region] argument, [AWS_REGION], [AWS_DEFAULT_REGION]. A region
    in the credentials file is used only when none of the three is given. *)
Theorem localAwsEnv_region_precedence
    (P : Process) (cache : option (list string)) (region profile : option string)
    (c : LocalEnv) (r : string) :
  cr_result (Credentials.localAwsEnv P cache region profile) = inr c ->
  Js.nullish region (Js.nullish (penv P !! "AWS_REGION") (penv P !! "AWS_DEFAULT_REGION"))
    = Some r ->
  AWS_REGION c = r.
Proof.
  intros Hres Hr. revert Hres. unfold Credentials.localAwsEnv. rewrite Hr.
  destruct (penv P !! "AWS_ACCESS_KEY_ID") as [k |];
    destruct (penv P !! "AWS_SECRET_ACCESS_KEY") as [s |];
    try (destruct (Js.truthy (Some r) && Js.truthy (Some k) && Js.truthy (Some s));
         [cbn [cr_result]; now intros [= <-] |]);
    cbv zeta;
    (destruct cache as [ls |]; [| destruct (readFile P _)]; cbn [cr_result];
     try discriminate;
     (match goal with
      | |- context [Js.nullish (Js.indexOf ?l ?a) (Js.indexOf ?l ?b)] =>
          destruct (Js.nullish (Js.indexOf l a) (Js.indexOf l b)) as [b0 |]
      end; cbn [cr_result Js.nullish]; try discriminate);
     repeat match goal with
            | |- context [match ?x with _ => _ end] =>
                match type of x with
                | option string => destruct x
                end
            end; cbn [cr_result]; try discriminate;
     match goal with
     | |- context [if ?x then _ else _] => destruct x
     end; cbn [cr_result]; try discriminate;
     now intros [= <-]).
Qed.

Lemma localAwsEnv_region_precedence_witness :
  let c := {| AWS_REGION := "us-east-2"; AWS_ACCESS_KEY_ID := "AKIDEXAMPLE";
              AWS_SECRET_ACCESS_KEY := "wJalrXUtnFEMI"; AWS_SESSION_TOKEN := None |} in
  cr_result (Credentials.localAwsEnv Sample.process None (Some "us-east-2") None) = inr c /\
  AWS_REGION c = "us-east-2".
Proof.
  intros c.
  assert (Hr : cr_result (Credentials.localAwsEnv Sample.process None (Some "us-east-2") None)
               = inr c) by reflexivity.
  split; [exact Hr |].
  exact (localAwsEnv_region_precedence Sample.process None (Some "us-east-2") None c
           "us-east-2" Hr eq_refl).
Defined.

(** X4. A profile that has no section of its own in the credential lines
    is not an error: the call gives exactly what it gives for the default
    profile. *)
Theorem localAwsEnv_unknown_profile_uses_default
    (P : Process) (cache : option (list string)) (region : option string)
    (profile : string) :
  (forall lines, configLinesOf P cache = Some lines ->
                 Js.indexOf lines ("[" +:+ profile +:+ "]") = None) ->
  Credentials.localAwsEnv P cache region (Some profile) =
  Credentials.localAwsEnv P cache region None.
Proof.
  intros Hno. unfold Credentials.localAwsEnv.
  set (fast := match Js.nullish region _ with Some _ => _ | None => _ end).
  destruct fast as [run |]; [reflexivity |].
  unfold configLinesOf, credentialsPath in Hno.
  destruct cache as [ls |].
  - cbv zeta. cbn [Js.nullish_or]. rewrite (Hno ls eq_refl).
    change ("[" +:+ "default" +:+ "]") with "[default]". cbn [Js.nullish].
    destruct (Js.indexOf ls "[default]"); reflexivity.
  - cbv zeta. destruct (readFile P _) as [content |]; [| reflexivity].
    cbn [Js.nullish_or]. rewrite (Hno _ eq_refl).
    change ("[" +:+ "default" +:+ "]") with "[default]". cbn [Js.nullish].
    destruct (Js.indexOf (Credentials.parseLines content) "[default]"); reflexivity.
Qed.

Lemma localAwsEnv_unknown_profile_uses_default_witness :
  (forall lines, configLinesOf Files.process None = Some lines ->
                 Js.indexOf lines ("[" +:+ "staging" +:+ "]") = None) /\
  Credentials.localAwsEnv Files.process None None (Some "staging") =
  Credentials.localAwsEnv Files.process None None None /\
  cr_result (Credentials.localAwsEnv Files.process None None (Some "staging")) =
    inr {| AWS_REGION := "eu-west-1"; AWS_ACCESS_KEY_ID := "AKIDDEFAULT";
           AWS_SECRET_ACCESS_KEY := "defaultSecret"; AWS_SESSION_TOKEN := None |}.
Proof.
  assert (Hno : forall lines, configLinesOf Files.process None = Some lines ->
                              Js.indexOf lines ("[" +:+ "staging" +:+ "]") = None).
  { intros lines E. vm_compute in E. injection E as <-. reflexivity. }
  split; [exact Hno |]. split; [| reflexivity].
  exact (localAwsEnv_unknown_profile_uses_default Files.process None None "staging" Hno).
Defined.


(** X6. An access key id in the environment is ignored when the secret
    key is not there too: the call gives what it gives without it, key id
    from the credentials file included. *)
Theorem localAwsEnv_lone_key_id_ignored
    (P : Process) (cache : option (list string)) (region profile : option string)
    (keyId : string) :
  penv P !! "AWS_SECRET_ACCESS_KEY" = None ->
  Credentials.localAwsEnv
    {| penv := <["AWS_ACCESS_KEY_ID" := keyId]> (penv P);
       homedir := homedir P; readFile := readFile P |} cache region profile =
  Credentials.localAwsEnv P cache region profile.
Proof.
  intros Hs. unfold Credentials.localAwsEnv, Credentials.defaultPath. cbn [penv homedir readFile].
  rewrite ?(lookup_insert_ne (penv P) "AWS_ACCESS_KEY_ID" "AWS_REGION") by discriminate.
  rewrite ?(lookup_insert_ne (penv P) "AWS_ACCESS_KEY_ID" "AWS_DEFAULT_REGION")
    by discriminate.
  rewrite ?(lookup_insert_ne (penv P) "AWS_ACCESS_KEY_ID" "AWS_SECRET_ACCESS_KEY")
    by discriminate.
  rewrite ?(lookup_insert_ne (penv P) "AWS_ACCESS_KEY_ID" "AWS_SESSION_TOKEN")
    by discriminate.
  rewrite ?(lookup_insert_ne (penv P) "AWS_ACCESS_KEY_ID" "AWS_SHARED_CREDENTIALS_FILE")
    by discriminate.
  rewrite Hs, lookup_insert_eq.
  destruct (Js.nullish region _) as [r |];
    destruct (penv P !! "AWS_ACCESS_KEY_ID") as [k |]; reflexivity.
Qed.

Lemma localAwsEnv_lone_key_id_ignored_witness :
  penv Files.process !! "AWS_SECRET_ACCESS_KEY" = None /\
  Credentials.localAwsEnv
    {| penv := <["AWS_ACCESS_KEY_ID" := "AKIDFROMENV"]> (penv Files.process);
       homedir := homedir Files.process; readFile := readFile Files.process |}
    None None (Some "work") =
  Credentials.localAwsEnv Files.process None None (Some "work") /\
  cr_result (Credentials.localAwsEnv Files.process None None (Some "work")) =
    inr {| AWS_REGION := "eu-west-1"; AWS_ACCESS_KEY_ID := "AKIDWORK";
           AWS_SECRET_ACCESS_KEY := "workSecret"; AWS_SESSION_TOKEN := Some "workToken" |}.
Proof.
  assert (Hs : penv Files.process !! "AWS_SECRET_ACCESS_KEY" = None) by reflexivity.
  split; [exact Hs |]. split; [| reflexivity].
  exact (localAwsEnv_lone_key_id_ignored Files.process None None (Some "work")
           "AKIDFROMENV" Hs).
Defined.

(** ** The hash primitive *)

Section Hashing.
Context `{Crypto}.



End Hashing.

(** ** The driver on any remote: errors that are not its own *)

Section Propagation.
Context {W : Type} `{Runtime W} {J : Type} `{Json J}.

(** X9. Without one of the three credential variables, no operation
    sends anything: each fails with the missing-variable error at its first
    remote call and leaves the trace as it was. [add] and [update] do not
    retry, and [getPartition] throws instead of ending as an empty scan. *)
Theorem operations_without_credentials
    (fuel : nat) (ctx : Context) (table partition key revision : string)
    (currentRevision : option string) (document : J)
    (range : option KeyRange) (cond : KeyCondition) (st : St W) :
  hasCredentials ctx = false ->
  queryFromRange partition range = inr cond ->
  exists name,
    (let run := Connection.add (S fuel) ctx table partition key document st in
     fst run = Throw (MissingVariable name) /\ trace (snd run) = trace st) /\
    Connection.get (J := J) ctx table partition key st = (Throw (MissingVariable name), st) /\
    Connection.getPartition (J := J) (S fuel) ctx table partition range st =
      (([], Throw (MissingVariable name)), st) /\
    (let run := Connection.update (S fuel) ctx table partition key revision document st in
     fst run = Throw (MissingVariable name) /\ trace (snd run) = trace st) /\
    Connection.delete ctx table partition key currentRevision st =
      (Throw (MissingVariable name), st).
Proof.
  intros Hc Hq.
  assert (Hname : exists name, forall target body (s : St W),
            dbRequest (env ctx) target body s = (Throw (MissingVariable name), s)).
  { unfold hasCredentials in Hc. unfold dbRequest.
    destruct (envVar (env ctx) "AWS_REGION"); [| eexists; reflexivity].
    destruct (envVar (env ctx) "AWS_ACCESS_KEY_ID"); [| eexists; reflexivity].
    destruct (envVar (env ctx) "AWS_SECRET_ACCESS_KEY"); [discriminate |].
    eexists; reflexivity. }
  destruct Hname as [name Hname]. exists name.
  split; [| split; [| split; [| split]]].
  - rewrite add_attempt. cbv zeta. rewrite Hname. cbn. split; reflexivity.
  - rewrite get_by_request. cbv zeta. rewrite Hname. reflexivity.
  - unfold Connection.getPartition. cbn [Connection.scan]. rewrite Hq, Hname. reflexivity.
  - rewrite update_attempt. cbv zeta. rewrite Hname. cbn. split; reflexivity.
  - rewrite delete_by_request. cbv zeta. rewrite Hname. reflexivity.
Qed.

(** X10. An error of the remote call that is none of the three types
    the driver knows (a network failure, a validation or authorisation
    error) comes out of [add], [update] and [delete] as it is, after that
    one request: nothing is retried, created or paused for. *)
Theorem writes_rethrow_unknown_errors
    (fuel : nat) (ctx : Context) (table partition key revision : string)
    (currentRevision : option string) (document : J) (st st1 : St W) (e : JsError) :
  isErrorType e "ResourceNotFoundException" = false ->
  isErrorType e "ResourceInUseException" = false ->
  isErrorType e "ConditionalCheckFailedException" = false ->
  (let drawn := randomUUID (world st) in
   dbRequest (env ctx) "PutItem"
     (PutItemBody (Connection.tableName ctx table)
        (Connection.newItem partition key (Js.removeAll "-" (fst drawn))
           (toISOString (snd drawn)) document)
        "attribute_not_exists(revision)")
     (mkSt (snd drawn) (trace st)) = (Throw e, st1) ->
   Connection.add (S fuel) ctx table partition key document st = (Throw e, st1)) /\
  (let drawn := randomUUID (world st) in
   dbRequest (env ctx) "UpdateItem"
     (UpdateItemBody (Connection.tableName ctx table) partition key
        "ADD seq :one SET revision = :newRevision, updated = :now, document = :document"
        "revision = :oldRevision"
        [(":one", AttrN 1);
         (":oldRevision", AttrS revision);
         (":newRevision", AttrS (Js.removeAll "-" (fst drawn)));
         (":now", AttrS (toISOString (snd drawn)));
         (":document", AttrS (JSON_stringify document))])
     (mkSt (snd drawn) (trace st)) = (Throw e, st1) ->
   Connection.update (S fuel) ctx table partition key revision document st = (Throw e, st1)) /\
  (dbRequest (env ctx) "DeleteItem"
     (DeleteItemBody (Connection.tableName ctx table) partition key
        (match currentRevision with
         | Some r => Some ("revision = :oldRevision", [(":oldRevision", AttrS r)])
         | None => None
         end)) st = (Throw e, st1) ->
   Connection.delete ctx table partition key currentRevision st = (Throw e, st1)).
Proof.
  intros H1 H2 H3. split; [| split].
  - cbv zeta. intros Hr. rewrite add_attempt. cbv zeta. rewrite Hr. cbn [fst snd].
    now rewrite H1, H2, H3.
  - cbv zeta. intros Hr. rewrite update_attempt. cbv zeta. rewrite Hr. cbn [fst snd].
    now rewrite H1, H2, H3.
  - intros Hr. rewrite delete_by_request. cbv zeta. rewrite Hr. cbn [fst snd].
    now rewrite H1, H2, H3.
Qed.

(** X11. When the remote answers a delete with ResourceInUseException,
    [delete] reports success, with or without a revision to check: a
    conditional delete then succeeds although no revision was compared. *)
Theorem delete_table_in_use_succeeds
    (ctx : Context) (table partition key : string) (currentRevision : option string)
    (st st1 : St W) (e : JsError) :
  dbRequest (env ctx) "DeleteItem"
    (DeleteItemBody (Connection.tableName ctx table) partition key
       (match currentRevision with
        | Some r => Some ("revision = :oldRevision", [(":oldRevision", AttrS r)])
        | None => None
        end)) st = (Throw e, st1) ->
  isErrorType e "ConditionalCheckFailedException" = false ->
  isErrorType e "ResourceInUseException" = true ->
  Connection.delete ctx table partition key currentRevision st = (Return tt, st1).
Proof.
  intros Hr H1 H2. rewrite delete_by_request. cbv zeta. rewrite Hr. cbn [fst snd].
  now rewrite H1, H2.
Qed.

(** X12. A range [{after, before}] in which no bound is a non-empty
    string (absent, undefined or empty bounds only) never yields a row,
    whatever the remote returns. When the object has neither property at
    all, [getPartition] throws 'Unsupported range.' before any request is
    sent. *)
Theorem getPartition_without_bound_yields_nothing
    (fuel : nat) (ctx : Context) (table partition : string) (after before : Field)
    (st : St W) :
  Js.truthy (value after) = false ->
  Js.truthy (value before) = false ->
  fst (fst (Connection.getPartition (J := J) fuel ctx table partition
              (Some (Interval after before)) st)) = [] /\
  (present before || present after = false ->
   Connection.getPartition (J := J) (S fuel) ctx table partition
     (Some (Interval after before)) st =
   (([], Throw (PlainError "Unsupported range.")), st)).
Proof.
  intros Ha Hb. split.
  - rewrite getPartition_rows.
    pose proof (scan_checked (J := J) fuel ctx table partition
                  (Some (Interval after before)) None st) as Hall.
    destruct (fst (fst (Connection.scan fuel ctx table partition _ None st)))
      as [| row rows]; [reflexivity |].
    apply Forall_inv in Hall. destruct Hall as [_ Hm].
    unfold matchRange in Hm. rewrite Ha, Hb in Hm.
    destruct (present before || present after); discriminate.
  - intros Hp. unfold Connection.getPartition. cbn [Connection.scan queryFromRange].
    rewrite Hp. reflexivity.
Qed.

End Propagation.

Lemma getPartition_without_bound_yields_nothing_witness :
  let st := mkSt ([inr Sample.page] : Scripted.World) [] in
  Js.truthy (value Undefined) = false /\
  Js.truthy (value (Str "")) = false /\
  fst (fst (Connection.getPartition (J := Literal) 1 Sample.context "docs" "p"
              (Some (Interval Undefined (Str ""))) st)) = [] /\
  length (fetches (trace (snd (Connection.getPartition (J := Literal) 1 Sample.context
                                 "docs" "p" (Some (Interval Undefined (Str ""))) st)))) = 1.
Proof.
  intros st.
  split; [reflexivity |]. split; [reflexivity |]. split; [| reflexivity].
  exact (proj1 (getPartition_without_bound_yields_nothing (J := Literal) 1 Sample.context
                  "docs" "p" Undefined (Str "") st eq_refl eq_refl)).
Defined.

Lemma writes_rethrow_unknown_errors_witness :
  let st := mkSt ([inl (NetworkError "socket hang up")] : Scripted.World) [] in
  let e := Transport (NetworkError "socket hang up") in
  isErrorType e "ResourceNotFoundException" = false /\
  isErrorType e "ResourceInUseException" = false /\
  isErrorType e "ConditionalCheckFailedException" = false /\
  fst (Connection.delete Sample.context "docs" "p" "k" (Some "r1") st) = Throw e.
Proof.
  intros st e.
  split; [reflexivity |]. split; [reflexivity |]. split; [reflexivity |].
  pose proof (writes_rethrow_unknown_errors (J := Literal) 0 Sample.context "docs" "p" "k"
                "r1" (Some "r1") LTrue st
                (snd (Connection.delete Sample.context "docs" "p" "k" (Some "r1") st))
                e eq_refl eq_refl eq_refl) as [_ [_ Hdel]].
  rewrite Hdel; [reflexivity |]. vm_compute. reflexivity.
Defined.

Lemma operations_without_credentials_witness :
  let ctx := {| env := Some (<["AWS_REGION" := "eu-west-1"]> ∅);
                log := false; signal := None |} in
  let st := mkSt Sample.emptyStore [] in
  hasCredentials ctx = false /\
  exists name,
    Connection.get (J := Literal) ctx "docs" "p" "k" st = (Throw (MissingVariable name), st).
Proof.
  intros ctx st.
  assert (Hc : hasCredentials ctx = false) by reflexivity.
  split; [exact Hc |].
  destruct (operations_without_credentials (J := Literal) 0 ctx "docs" "p" "k" "r1" None
              LTrue None
              {| KeyConditionExpression := "#p = :p";
                 ExpressionAttributeNames := [("#p", "partition")];
                 QExpressionAttributeValues := [(":p", EvAttr (AttrS "p"))] |}
              st Hc eq_refl) as [name [_ [Hget _]]].
  exists name. exact Hget.
Defined.

Lemma delete_table_in_use_succeeds_witness :
  let st := mkSt (0%nat : Busy.World) [] in
  let run := Connection.delete Sample.context "docs" "p" "k" (Some "r1") st in
  isErrorType (Transport Busy.tableInUse) "ConditionalCheckFailedException" = false /\
  isErrorType (Transport Busy.tableInUse) "ResourceInUseException" = true /\
  fst run = Return tt.
Proof.
  intros st run.
  split; [reflexivity |]. split; [reflexivity |].
  subst run.
  rewrite (delete_table_in_use_succeeds Sample.context "docs" "p" "k" (Some "r1") st
             (snd (Connection.delete Sample.context "docs" "p" "k" (Some "r1") st))
             (Transport Busy.tableInUse));
    [reflexivity | vm_compute; reflexivity | reflexivity | reflexivity].
Defined.

(** ** Retries and pages *)

Lemma fetches_app (a b : list Event) : fetches (a ++ b) = (fetches a ++ fetches b)%list.
Proof. unfold fetches. apply omap_app. Qed.

Section Retries.
Context {W : Type} `{Runtime W} {J : Type} `{Json J}.

(** The pause before a retry sends nothing. *)
Lemma pause_then (A : Type) (ctx : Context) (message : string) (k : M W A) (st : St W) :
  exists st1,
    (Connection.logDebug ctx message ;;; Connection.sleep 1000 ;;; k) st = k st1 /\
    fetches (trace st1) = fetches (trace st).
Proof.
  unfold bind, Connection.logDebug, Connection.sleep, emit, ret.
  destruct (log ctx); cbn [world trace]; eexists; (split; [reflexivity |]);
    cbn [trace]; rewrite !fetches_app; cbn; now rewrite ?app_nil_r.
Qed.

(** X13. The retries of [add] and [update] have no bound of their own.
    Against a remote that answers every request with
    ResourceInUseException, neither ever returns or throws: however many
    attempts are allowed, all of them are used, one request each. *)
Theorem retries_have_no_bound
    (ctx : Context) (table partition key revision : string) (document : J)
    (busy : TransportError) :
  hasCredentials ctx = true ->
  (forall call w, fst (fetchJson call w) = inl busy) ->
  isErrorType (Transport busy) "ResourceNotFoundException" = false ->
  isErrorType (Transport busy) "ConditionalCheckFailedException" = false ->
  isErrorType (Transport busy) "ResourceInUseException" = true ->
  forall fuel (st : St W),
    (let run := Connection.add fuel ctx table partition key document st in
     fst run = OutOfFuel /\
     length (fetches (trace (snd run))) = length (fetches (trace st)) + fuel) /\
    (let run := Connection.update fuel ctx table partition key revision document st in
     fst run = OutOfFuel /\
     length (fetches (trace (snd run))) = length (fetches (trace st)) + fuel).
Proof.
  intros Hc Hbusy H1 H2 H3 fuel.
  induction fuel as [| fuel IH]; intros st.
  { cbn. split; split; auto. }
  split; cbv zeta.
  - rewrite add_attempt. cbv zeta.
    match goal with
    | |- context [dbRequest (env ctx) "PutItem" ?body ?s] =>
        destruct (dbRequest_with_credentials ctx "PutItem" body s Hc) as [call [_ [_ E]]]
    end.
    rewrite E. clear E. cbn [fst snd world trace]. rewrite Hbusy.
    cbn [settle]. rewrite H1, H3.
    match goal with
    | |- context [(Connection.logDebug ctx ?m ;;; Connection.sleep 1000 ;;; ?k) ?s] =>
        destruct (pause_then _ ctx m k s) as [st1 [E Hf]]
    end.
    rewrite E. destruct (IH st1) as [[Hout Hlen] _].
    split; [exact Hout |]. rewrite Hlen, Hf. cbn [trace]. rewrite fetches_app, length_app.
    cbn. lia.
  - rewrite update_attempt. cbv zeta.
    match goal with
    | |- context [dbRequest (env ctx) "UpdateItem" ?body ?s] =>
        destruct (dbRequest_with_credentials ctx "UpdateItem" body s Hc) as [call [_ [_ E]]]
    end.
    rewrite E. clear E. cbn [fst snd world trace]. rewrite Hbusy.
    cbn [settle]. rewrite H2, H3.
    match goal with
    | |- context [(Connection.logDebug ctx ?m ;;; Connection.sleep 1000 ;;; ?k) ?s] =>
        destruct (pause_then _ ctx m k s) as [st1 [E Hf]]
    end.
    rewrite E. destruct (IH st1) as [_ [Hout Hlen]].
    split; [exact Hout |]. rewrite Hlen, Hf. cbn [trace]. rewrite fetches_app, length_app.
    cbn. lia.
Qed.

End Retries.

Lemma retries_have_no_bound_witness :
  let st := mkSt (0%nat : Busy.World) [] in
  let run := Connection.add 7 Sample.context "docs" "p" "k" LTrue st in
  hasCredentials Sample.context = true /\
  (forall call (w : Busy.World), fst (fetchJson call w) = inl Busy.tableInUse) /\
  isErrorType (Transport Busy.tableInUse) "ResourceNotFoundException" = false /\
  isErrorType (Transport Busy.tableInUse) "ConditionalCheckFailedException" = false /\
  isErrorType (Transport Busy.tableInUse) "ResourceInUseException" = true /\
  fst run = OutOfFuel /\
  length (fetches (trace (snd run))) = 0 + 7.
Proof.
  intros st run.
  assert (Hb : forall call (w : Busy.World), fst (fetchJson call w) = inl Busy.tableInUse)
    by (intros call w; reflexivity).
  split; [reflexivity |]. split; [exact Hb |]. split; [reflexivity |].
  split; [reflexivity |]. split; [reflexivity |].
  exact (proj1 (retries_have_no_bound (J := Literal) Sample.context "docs" "p" "k" "r1"
                  LTrue Busy.tableInUse eq_refl Hb eq_refl eq_refl eq_refl 7 st)).
Defined.

Section Pages.
Context {W : Type} `{Runtime W} {J : Type} `{Json J}.

(** X14. A scan follows the cursors to the end: when the remote answers
    [n] queries with a cursor, each query after the first carrying the
    cursor of the answer before, and then one without a cursor,
    [getPartition] yields the rows of all [n + 1] pages, in the order of the
    pages, and ends normally, provided it is allowed more than [n] pages. *)
Theorem getPartition_reads_all_pages
    (ctx : Context) (table partition : string) (range : option KeyRange)
    (cond : KeyCondition) (st : St W) (n : nat) (rows last : list (Row J))
    (cursor : option Item) (s s1 : St W) (result : Response) (fuel : nat) :
  queryFromRange partition range = inr cond ->
  pages ctx table partition range None st n rows cursor s ->
  dbRequest (env ctx) "Query"
    (QueryBody (Connection.tableName ctx table) cursor cond) s = (Return result, s1) ->
  Connection.yieldItems range (Js.nullish_or (RItems result) []) = (last, None) ->
  RLastEvaluatedKey result = None ->
  n < fuel ->
  Connection.getPartition fuel ctx table partition range st =
    ((rows ++ last, Return tt)%list, s1).
Proof.
  intros Hq Hp Hr Hy Hk Hfuel.
  replace fuel with (n + S (fuel - S n)) by lia.
  unfold Connection.getPartition.
  rewrite (scan_after_pages _ _ _ _ _ _ _ _ _ _ Hp).
  cbn [Connection.scan]. rewrite Hq, Hr, Hy, Hk. reflexivity.
Qed.

(** X15. The item loop of [getPartition] lets through exactly the items
    whose key is a non-empty string that passes the re-check of the range:
    when their documents parse, it yields one row for each of them, in the
    order of the page, and nothing else. *)
Theorem yieldItems_exact (range : option KeyRange) (items : list Item) :
  forallb (parseable (J := J)) (List.filter (accepted range) items) = true ->
  Connection.yieldItems range items =
    (omap (rowOf (J := J)) (List.filter (accepted range) items), None).
Proof.
  induction items as [| item rest IH]; [reflexivity |].
  cbn [Connection.yieldItems List.filter].
  assert (Htest :
    negb (Js.truthy (attrS (item !! "key")))
    || (match range with
        | Some _ => negb (matchRange range (str (attrS (item !! "key"))))
        | None => false
        end) = negb (accepted range item)).
  { unfold accepted. destruct (Js.truthy (attrS (item !! "key"))); [| reflexivity].
    now destruct range. }
  rewrite Htest.
  destruct (accepted range item); cbn [negb]; [| exact IH].
  cbn [forallb]. intros Hall. apply andb_true_iff in Hall. destruct Hall as [Hp Hrest].
  rewrite (IH Hrest).
  change (omap (rowOf (J := J)) (item :: List.filter (accepted range) rest))
    with (match rowOf (J := J) item with
          | Some row => row :: omap (rowOf (J := J)) (List.filter (accepted range) rest)
          | None => omap (rowOf (J := J)) (List.filter (accepted range) rest)
          end).
  unfold parseable in Hp.
  destruct (JSON_parse (Js.nullish_or (attrS (item !! "document")) "{}")) as [doc |] eqn:Hdoc.
  - assert (Hrow : rowOf (J := J) item =
               Some (mkRow (Js.nullish_or (attrS (item !! "partition")) "")
                           (str (attrS (item !! "key"))) (attrS (item !! "revision")) doc))
      by (unfold rowOf; now rewrite Hdoc).
    rewrite Hrow. reflexivity.
  - unfold rowOf in Hp. rewrite Hdoc in Hp. discriminate.
Qed.

End Pages.

Lemma getPartition_reads_all_pages_witness :
  let st := mkSt Paged.remote [] in
  Connection.getPartition (J := Literal) 2 Sample.context "docs" "p" None st =
    (([mkRow "p" "a" (Some "r1") LTrue; mkRow "p" "b" (Some "r1") LTrue;
       mkRow "p" "c" (Some "r1") LTrue], Return tt),
     snd (Connection.getPartition (J := Literal) 2 Sample.context "docs" "p" None st)) /\
  map (fun call => match fc_body call with
                   | QueryBody _ start _ => start
                   | _ => None
                   end)
      (fetches (trace (snd (Connection.getPartition (J := Literal) 2 Sample.context
                              "docs" "p" None st)))) =
    [None; Some (Sample.item "b")].
Proof.
  intros st. split; [| vm_compute; reflexivity].
  set (cond := {| KeyConditionExpression := "#p = :p";
                  ExpressionAttributeNames := [("#p", "partition")];
                  QExpressionAttributeValues := [(":p", EvAttr (AttrS "p"))] |}).
  set (q1 := dbRequest (env Sample.context) "Query"
               (QueryBody (Connection.tableName Sample.context "docs") None cond) st).
  set (q2 := dbRequest (env Sample.context) "Query"
               (QueryBody (Connection.tableName Sample.context "docs")
                  (Some (Sample.item "b")) cond) (snd q1)).
  assert (H1 : q1 = (Return Paged.first, snd q1)) by (vm_compute; reflexivity).
  assert (H2 : q2 = (Return Paged.second, snd q2)) by (vm_compute; reflexivity).
  assert (Hp : pages (J := Literal) Sample.context "docs" "p" None None st 1
                 ([mkRow "p" "a" (Some "r1") LTrue; mkRow "p" "b" (Some "r1") LTrue] ++ [])
                 (Some (Sample.item "b")) (snd q1)).
  { eapply pages_more with (cond := cond) (result := Paged.first);
      [reflexivity | exact H1 | reflexivity | reflexivity | apply pages_done]. }
  rewrite (getPartition_reads_all_pages (J := Literal) Sample.context "docs" "p" None cond
             st 1 _ [mkRow "p" "c" (Some "r1") LTrue] _ (snd q1) (snd q2) Paged.second 2
             eq_refl Hp H2 eq_refl eq_refl (le_n 2)).
  vm_compute. reflexivity.
Defined.

Lemma yieldItems_exact_witness :
  let range := Some (Interval (Str "b") Absent) in
  let items := [Sample.item "a"; Sample.item "b"; Sample.item ""; Sample.item "c"] in
  forallb (parseable (J := Literal)) (List.filter (accepted range) items) = true /\
  Connection.yieldItems (J := Literal) range items =
    ([mkRow "p" "b" (Some "r1") LTrue; mkRow "p" "c" (Some "r1") LTrue], None).
Proof.
  intros range items.
  assert (Hp : forallb (parseable (J := Literal)) (List.filter (accepted range) items) = true)
    by reflexivity.
  split; [exact Hp |].
  rewrite (yieldItems_exact (J := Literal) range items Hp). reflexivity.
Defined.

(** ** The driver against the model of the remote store: writes that must fail *)

Section Stale.
Context {J : Type} `{Json J}.

(** An update whose condition does not hold is refused and changes nothing. *)
Lemma updateItem_refused (w : Dynamo.World) (name p k cur new now d : string) :
  (forall old, stored w name p k = Some old -> old !! "revision" <> Some (AttrS cur)) ->
  let reply :=
    Dynamo.updateItem w name p k
      "ADD seq :one SET revision = :newRevision, updated = :now, document = :document"
      "revision = :oldRevision"
      [(":one", AttrN 1); (":oldRevision", AttrS cur); (":newRevision", AttrS new);
       (":now", AttrS now); (":document", AttrS d)] in
  snd reply = w /\
  (fst reply = Dynamo.ResourceNotFound \/ fst reply = Dynamo.ConditionalCheckFailed).
Proof.
  intros Hstale. cbv zeta. unfold Dynamo.updateItem, stored in *.
  destruct (Dynamo.activeRows w name) as [rs |]; [| split; [reflexivity | now left]].
  cbn [Dynamo.assoc String.eqb Ascii.eqb Bool.eqb andb].
  destruct (rs !! (p, k)) as [old |]; [| split; [reflexivity | now right]].
  unfold Dynamo.revisionIs. cbn [Dynamo.assoc String.eqb Ascii.eqb Bool.eqb].
  specialize (Hstale old eq_refl).
  destruct (old !! "revision") as [[r | n | t] |];
    try (split; [reflexivity | now right]).
  destruct (String.eqb_spec r cur) as [-> | Hne]; [congruence |].
  split; [reflexivity | now right].
Qed.

(** X16. The optimistic lock of [update]: unless the store holds a
    record under the identity whose revision is the one presented, [update]
    fails with Conflict after one request, without a retry, and every table
    is as it was. This covers a stale revision, a record that is not there,
    and a table that does not exist, which [update] does not create. *)
Theorem update_stale_revision_conflicts
    (fuel : nat) (ctx : Context) (table partition key currentRevision : string)
    (document : J) (w : Dynamo.World) (tr : list Event) :
  hasCredentials ctx = true ->
  (forall old, stored w (Connection.tableName ctx table) partition key = Some old ->
               old !! "revision" <> Some (AttrS currentRevision)) ->
  let run := Connection.update (S fuel) ctx table partition key currentRevision document
               (mkSt w tr) in
  fst run = Throw (StatusError "Conflict" 409) /\
  Dynamo.tables (world (snd run)) = Dynamo.tables w /\
  exists call, trace (snd run) = (tr ++ [EvFetch call])%list.
Proof.
  intros Hc Hstale. cbv zeta.
  set (name := Connection.tableName ctx table) in *.
  rewrite update_attempt. cbv zeta. cbn [world trace]. fold name.
  change (randomUUID w) with (Dynamo.draw w).
  set (w0 := snd (Dynamo.draw w)).
  match goal with
  | |- context [dbRequest (env ctx) "UpdateItem" ?body _] =>
      destruct (store_request ctx "UpdateItem" body w0 tr Hc) as [call [Hb E]]
  end.
  rewrite E. clear E. cbn [fst snd].
  unfold Dynamo.fetch. rewrite Hb.
  match goal with
  | |- context [Dynamo.updateItem w0 name partition key ?u ?c
                  [_; _; (_, AttrS ?new); (_, AttrS ?now); (_, AttrS ?d)]] =>
      destruct (updateItem_refused w0 name partition key currentRevision new now d)
        as [Hw Hreply]; [exact Hstale |]
  end.
  cbv zeta in Hw, Hreply.
  destruct (Dynamo.updateItem w0 name partition key _ _ _) as [reply w1].
  cbn [fst snd] in *. subst w1.
  destruct Hreply as [-> | ->];
    cbn [settle Dynamo.ResourceNotFound Dynamo.ConditionalCheckFailed Dynamo.failure];
    [ change (isErrorType _ "ConditionalCheckFailedException") with false;
      change (isErrorType _ "ResourceInUseException") with false;
      change (isErrorType _ "ResourceNotFoundException") with true
    | change (isErrorType _ "ConditionalCheckFailedException") with true ];
    cbv iota; cbn [fst snd world trace];
    (split; [reflexivity |]; split; [reflexivity |]; exists call; reflexivity).
Qed.

End Stale.

Lemma update_stale_revision_conflicts_witness :
  let w := world Sample.afterAdd in
  let run := Connection.update 3 Sample.context "docs" "p" "k" "0123456789abcdef" LFalse
               (mkSt w []) in
  hasCredentials Sample.context = true /\
  (forall old, stored w (Connection.tableName Sample.context "docs") "p" "k" = Some old ->
               old !! "revision" <> Some (AttrS "0123456789abcdef")) /\
  fst run = Throw (StatusError "Conflict" 409) /\
  Dynamo.tables (world (snd run)) = Dynamo.tables w /\
  exists call, trace (snd run) = [EvFetch call].
Proof.
  intros w run.
  assert (Hst : forall old,
            stored w (Connection.tableName Sample.context "docs") "p" "k" = Some old ->
            old !! "revision" <> Some (AttrS "0123456789abcdef")).
  { assert (Hitem : stored w (Connection.tableName Sample.context "docs") "p" "k" =
                    Some (Connection.newItem "p" "k" "cf1e2d3c4b5a49788695a4b3c2d1e0f9"
                            "2024-05-01T10:00:02.000Z" LTrue))
      by (vm_compute; reflexivity).
    intros old E. rewrite Hitem in E. injection E as <-.
    rewrite newItem_revision. discriminate. }
  split; [reflexivity |]. split; [exact Hst |].
  exact (update_stale_revision_conflicts 2 Sample.context "docs" "p" "k"
           "0123456789abcdef" LFalse w [] eq_refl Hst).
Defined.

(** ** The driver against the model of the remote store: sequences of writes *)

Section Sequences.
Context {J : Type} `{Json J}.

(** An update with the current revision, as a step on the store. *)
Lemma update_current_stores (fuel : nat) (ctx : Context)
    (table partition key currentRevision : string) (document : J)
    (w : Dynamo.World) (tr : list Event) (old : Item) (n : Z) :
  hasCredentials ctx = true ->
  stored w (Connection.tableName ctx table) partition key = Some old ->
  old !! "revision" = Some (AttrS currentRevision) ->
  old !! "seq" = Some (AttrN n) ->
  exists st1 now,
    Connection.update (S fuel) ctx table partition key currentRevision document
      (mkSt w tr) = (Return (Js.removeAll "-" (fst (Dynamo.draw w))), st1) /\
    stored (world st1) (Connection.tableName ctx table) partition key =
      Some (updated old n (Js.removeAll "-" (fst (Dynamo.draw w))) now
              (JSON_stringify document)).
Proof.
  intros Hc Hst Hrev Hseq.
  set (name := Connection.tableName ctx table) in *.
  unfold stored in Hst.
  destruct (Dynamo.activeRows w name) as [rs |] eqn:Hact; [| discriminate].
  rewrite update_attempt. cbv zeta. cbn [world trace]. fold name.
  change (randomUUID w) with (Dynamo.draw w).
  set (w0 := snd (Dynamo.draw w)).
  match goal with
  | |- context [dbRequest (env ctx) "UpdateItem" ?body _] =>
      destruct (store_request ctx "UpdateItem" body w0 tr Hc) as [call [Hb E]]
  end.
  rewrite E. clear E. cbn [fst snd].
  unfold Dynamo.fetch. rewrite Hb.
  rewrite (updateItem_current _ _ _ _ _ _ _ _ n rs old)
    by (subst w0; try rewrite activeRows_draw; assumption).
  cbn [fst snd settle].
  eexists _, _. split; [reflexivity |]. cbn [world]. apply stored_setRows.
Qed.

(** X17. [seq] counts the updates. Starting from a stored record, a
    caller that updates it once for each document of a list, presenting
    each time the revision the update before returned, succeeds every time;
    the record then stored has [seq] raised by the number of documents and
    carries the revision returned last. *)
Theorem seq_counts_updates
    (ctx : Context) (table partition key : string) (documents : list J) :
  hasCredentials ctx = true ->
  forall (revision : string) (w : Dynamo.World) (tr : list Event) (old : Item) (n : Z),
    stored w (Connection.tableName ctx table) partition key = Some old ->
    old !! "revision" = Some (AttrS revision) ->
    old !! "seq" = Some (AttrN n) ->
    exists last st1 item,
      updateAll ctx table partition key revision documents (mkSt w tr) = (Return last, st1) /\
      stored (world st1) (Connection.tableName ctx table) partition key = Some item /\
      item !! "seq" = Some (AttrN (n + Z.of_nat (length documents))) /\
      item !! "revision" = Some (AttrS last).
Proof.
  intros Hc. induction documents as [| document rest IH]; intros revision w tr old n Hst Hrev Hseq.
  - exists revision, (mkSt w tr), old. cbn [updateAll length world].
    rewrite Z.add_0_r. auto.
  - destruct (update_current_stores 0 ctx table partition key revision document w tr old n
                Hc Hst Hrev Hseq) as [[w1 tr1] [now [E Hst1]]].
    cbn [updateAll]. rewrite E. cbn [world] in Hst1.
    destruct (IH _ w1 tr1 _ (n + 1)%Z Hst1 (updated_revision _ _ _ _ _)
                (updated_seq _ _ _ _ _)) as [last [st2 [item [E2 [Hst2 [Hs2 Hr2]]]]]].
    exists last, st2, item. split; [exact E2 |]. split; [exact Hst2 |].
    split; [| exact Hr2]. rewrite Hs2. f_equal. f_equal. cbn [length]. lia.
Qed.

End Sequences.

Lemma seq_counts_updates_witness :
  let name := Connection.tableName Sample.context "docs" in
  let w := world Sample.afterAdd in
  let current := "cf1e2d3c4b5a49788695a4b3c2d1e0f9" in
  let old := Connection.newItem "p" "k" current "2024-05-01T10:00:02.000Z" LTrue in
  hasCredentials Sample.context = true /\
  stored w name "p" "k" = Some old /\
  old !! "revision" = Some (AttrS current) /\
  old !! "seq" = Some (AttrN 0) /\
  exists last st1 item,
    updateAll Sample.context "docs" "p" "k" current [LFalse; LNull; LTrue] (mkSt w []) =
      (Return last, st1) /\
    stored (world st1) name "p" "k" = Some item /\
    item !! "seq" = Some (AttrN (0 + Z.of_nat 3)) /\
    item !! "revision" = Some (AttrS last).
Proof.
  intros name w current old.
  assert (Hst : stored w name "p" "k" = Some old) by (vm_compute; reflexivity).
  split; [reflexivity |]. split; [exact Hst |]. split; [reflexivity |].
  split; [reflexivity |].
  exact (seq_counts_updates Sample.context "docs" "p" "k" [LFalse; LNull; LTrue] eq_refl
           current w [] old 0 Hst eq_refl eq_refl).
Defined.

(** ** The driver against the model of the remote store: delete *)

Section Deleting.
Context {J : Type} `{Json J}.

Lemma stored_other_setRows (w : Dynamo.World) (name p k p' k' : string)
    (rs rs' : gmap (string * string) Item) :
  Dynamo.activeRows w name = Some rs ->
  rs' !! (p', k') = rs !! (p', k') ->
  stored (Dynamo.setRows w name rs') name p' k' = stored w name p' k'.
Proof.
  intros Hact Hsame. unfold stored. now rewrite activeRows_setRows, Hact.
Qed.

(** [get] of an identity the store does not hold. *)
Lemma get_absent (ctx : Context) (table partition key : string)
    (w : Dynamo.World) (tr : list Event) :
  hasCredentials ctx = true ->
  stored w (Connection.tableName ctx table) partition key = None ->
  fst (Connection.get (J := J) ctx table partition key (mkSt w tr)) = Throw notFound.
Proof.
  intros Hc Hst. rewrite get_by_request. cbv zeta. cbn [fst].
  destruct (store_request ctx "GetItem"
              (GetItemBody (Connection.tableName ctx table) partition key) w tr Hc)
    as [call [Hb E]].
  rewrite E. clear E. cbn [fst].
  unfold Dynamo.fetch. rewrite Hb. unfold Dynamo.getItem. unfold stored in Hst.
  destruct (Dynamo.activeRows w (Connection.tableName ctx table)) as [rs |].
  - cbn [fst settle RItem]. now rewrite Hst.
  - reflexivity.
Qed.

(** X18. A delete without a revision, or with the revision of the
    stored record, succeeds, also when the record or its table does not
    exist in the first case; afterwards the store holds nothing under the
    identity, every other record of the table is as it was, and a [get] of
    the identity fails with NotFound. *)
Theorem delete_removes_record
    (ctx : Context) (table partition key : string) (currentRevision : option string)
    (w : Dynamo.World) (tr : list Event) :
  hasCredentials ctx = true ->
  (forall r, currentRevision = Some r ->
     exists old, stored w (Connection.tableName ctx table) partition key = Some old /\
                 old !! "revision" = Some (AttrS r)) ->
  let run := Connection.delete ctx table partition key currentRevision (mkSt w tr) in
  fst run = Return tt /\
  stored (world (snd run)) (Connection.tableName ctx table) partition key = None /\
  (forall p' k', (p', k') <> (partition, key) ->
     stored (world (snd run)) (Connection.tableName ctx table) p' k' =
     stored w (Connection.tableName ctx table) p' k') /\
  fst (Connection.get (J := J) ctx table partition key (snd run)) = Throw notFound.
Proof.
  intros Hc Hrev. cbv zeta.
  set (name := Connection.tableName ctx table) in *.
  assert (Hgoal : forall out st1,
    Connection.delete ctx table partition key currentRevision (mkSt w tr) = (out, st1) ->
    out = Return tt /\
    stored (world st1) name partition key = None /\
    (forall p' k', (p', k') <> (partition, key) ->
       stored (world st1) name p' k' = stored w name p' k')).
  { intros out st1. rewrite delete_by_request. cbv zeta. fold name.
    match goal with
    | |- context [dbRequest (env ctx) "DeleteItem" ?body _] =>
        destruct (store_request ctx "DeleteItem" body w tr Hc) as [call [Hb E]]
    end.
    rewrite E. clear E. cbn [fst snd].
    unfold Dynamo.fetch. rewrite Hb. unfold Dynamo.deleteItem.
    unfold stored in *.
    destruct (Dynamo.activeRows w name) as [rs |] eqn:Hact.
    - assert (Hdone : forall out' st',
          (Return tt, mkSt (Dynamo.setRows w name (base.delete (partition, key) rs))
                           (tr ++ [EvFetch call])) = (out', st') ->
          out' = Return tt /\
          match Dynamo.activeRows (world st') name with
          | Some rs0 => rs0 !! (partition, key)
          | None => None
          end = None /\
          (forall p' k', (p', k') <> (partition, key) ->
             match Dynamo.activeRows (world st') name with
             | Some rs0 => rs0 !! (p', k')
             | None => None
             end = rs !! (p', k'))).
      { intros out' st' [= <- <-]. cbn [world]. rewrite activeRows_setRows.
        split; [reflexivity |]. split; [apply lookup_delete_eq |].
        intros p' k' Hne. apply lookup_delete_ne. congruence. }
      destruct currentRevision as [r |]; [| apply Hdone].
      destruct (Hrev r eq_refl) as [old [Hold Hr]].
      cbn [String.eqb Ascii.eqb Bool.eqb].
      unfold Dynamo.revisionIs. rewrite Hold. cbn [Dynamo.assoc String.eqb Ascii.eqb Bool.eqb].
      rewrite Hr, String.eqb_refl. apply Hdone.
    - destruct currentRevision as [r |].
      { destruct (Hrev r eq_refl) as [old [Hold _]]. discriminate. }
      cbn [fst snd settle Dynamo.ResourceNotFound Dynamo.failure Js.truthy].
      change (isErrorType _ "ConditionalCheckFailedException") with false.
      change (isErrorType _ "ResourceInUseException") with false.
      change (isErrorType _ "ResourceNotFoundException") with true.
      cbv iota. intros [= <- <-]. cbn [world]. rewrite Hact. auto. }
  destruct (Connection.delete ctx table partition key currentRevision (mkSt w tr))
    as [out [w1 tr1]].
  destruct (Hgoal _ _ eq_refl) as [-> [Hnone Hothers]]. cbn [fst snd world] in *.
  split; [reflexivity |]. split; [exact Hnone |]. split; [exact Hothers |].
  now apply get_absent.
Qed.

(** X19. A delete that presents a non-empty revision fails with
    Conflict, and changes nothing, unless the store holds a record under
    the identity with exactly that revision: the revision is stale, the
    record is gone, or the table does not exist. *)
Theorem delete_stale_revision_conflicts
    (ctx : Context) (table partition key revision : string)
    (w : Dynamo.World) (tr : list Event) :
  hasCredentials ctx = true ->
  revision <> "" ->
  (forall old, stored w (Connection.tableName ctx table) partition key = Some old ->
               old !! "revision" <> Some (AttrS revision)) ->
  let run := Connection.delete ctx table partition key (Some revision) (mkSt w tr) in
  fst run = Throw (StatusError "Conflict" 409) /\
  world (snd run) = w /\
  exists call, trace (snd run) = (tr ++ [EvFetch call])%list.
Proof.
  intros Hc Hne Hstale. cbv zeta.
  set (name := Connection.tableName ctx table) in *.
  rewrite delete_by_request. cbv zeta. fold name.
  match goal with
  | |- context [dbRequest (env ctx) "DeleteItem" ?body _] =>
      destruct (store_request ctx "DeleteItem" body w tr Hc) as [call [Hb E]]
  end.
  rewrite E. clear E. cbn [fst snd].
  unfold Dynamo.fetch. rewrite Hb. unfold Dynamo.deleteItem. unfold stored in Hstale.
  apply truthy_nonempty in Hne.
  destruct (Dynamo.activeRows w name) as [rs |].
  - cbn [String.eqb Ascii.eqb Bool.eqb].
    assert (Hno : Dynamo.revisionIs (rs !! (partition, key))
                    [(":oldRevision", AttrS revision)] = false).
    { unfold Dynamo.revisionIs. cbn [Dynamo.assoc String.eqb Ascii.eqb Bool.eqb].
      destruct (rs !! (partition, key)) as [old |]; [| reflexivity].
      specialize (Hstale old eq_refl).
      destruct (old !! "revision") as [[r | n | t] |]; try reflexivity.
      destruct (String.eqb_spec r revision) as [-> | ?]; [congruence | reflexivity]. }
    rewrite Hno.
    cbn [fst snd settle Dynamo.ConditionalCheckFailed Dynamo.failure].
    change (isErrorType _ "ConditionalCheckFailedException") with true. cbv iota.
    cbn [fst snd world trace]. eauto.
  - cbn [fst snd settle Dynamo.ResourceNotFound Dynamo.failure].
    change (isErrorType _ "ConditionalCheckFailedException") with false.
    change (isErrorType _ "ResourceInUseException") with false.
    change (isErrorType _ "ResourceNotFoundException") with true.
    cbv iota. rewrite Hne. cbn [fst snd world trace]. eauto.
Qed.

End Deleting.

Lemma delete_removes_record_witness :
  let name := Connection.tableName Sample.context "docs" in
  let w := world Sample.afterAdd in
  let current := "cf1e2d3c4b5a49788695a4b3c2d1e0f9" in
  let run := Connection.delete Sample.context "docs" "p" "k" (Some current) (mkSt w []) in
  hasCredentials Sample.context = true /\
  (forall r, Some current = Some r ->
     exists old, stored w name "p" "k" = Some old /\ old !! "revision" = Some (AttrS r)) /\
  fst run = Return tt /\
  stored (world (snd run)) name "p" "k" = None /\
  fst (Connection.get (J := Literal) Sample.context "docs" "p" "k" (snd run)) =
    Throw notFound.
Proof.
  intros name w current run.
  assert (Hrev : forall r, Some current = Some r ->
            exists old, stored w name "p" "k" = Some old /\
                        old !! "revision" = Some (AttrS r)).
  { intros r [= <-].
    exists (Connection.newItem "p" "k" current "2024-05-01T10:00:02.000Z" LTrue).
    split; [vm_compute; reflexivity | reflexivity]. }
  split; [reflexivity |]. split; [exact Hrev |].
  destruct (delete_removes_record (J := Literal) Sample.context "docs" "p" "k"
              (Some current) w [] eq_refl Hrev) as [H1 [H2 [_ H4]]].
  split; [exact H1 |]. split; [exact H2 | exact H4].
Defined.

Lemma delete_stale_revision_conflicts_witness :
  let name := Connection.tableName Sample.context "docs" in
  let w := world Sample.afterAdd in
  let run := Connection.delete Sample.context "docs" "p" "k" (Some "0123456789abcdef")
               (mkSt w []) in
  hasCredentials Sample.context = true /\
  "0123456789abcdef" <> "" /\
  (forall old, stored w name "p" "k" = Some old ->
               old !! "revision" <> Some (AttrS "0123456789abcdef")) /\
  fst run = Throw (StatusError "Conflict" 409) /\
  world (snd run) = w.
Proof.
  intros name w run.
  assert (Hne : "0123456789abcdef" <> "") by discriminate.
  assert (Hst : forall old, stored w name "p" "k" = Some old ->
                            old !! "revision" <> Some (AttrS "0123456789abcdef")).
  { assert (Hitem : stored w name "p" "k" =
                    Some (Connection.newItem "p" "k" "cf1e2d3c4b5a49788695a4b3c2d1e0f9"
                            "2024-05-01T10:00:02.000Z" LTrue))
      by (vm_compute; reflexivity).
    intros old E. rewrite Hitem in E. injection E as <-.
    rewrite newItem_revision. discriminate. }
  split; [reflexivity |]. split; [exact Hne |]. split; [exact Hst |].
  destruct (delete_stale_revision_conflicts Sample.context "docs" "p" "k"
              "0123456789abcdef" w [] eq_refl Hne Hst) as [H1 [H2 _]].
  split; [exact H1 | exact H2].
Defined.

(** ** The driver against the model of the remote store: other records *)

Section Frame.
Context {J : Type} `{Json J}.

(** An update request on an active table changes nothing or rewrites the
    one item; it is refused only as a failed condition or as invalid. *)
Lemma updateItem_touches_one (w : Dynamo.World) (name p k upd cond : string)
    (vals : list (string * AttributeValue)) (rs : gmap (string * string) Item) :
  Dynamo.activeRows w name = Some rs ->
  let reply := Dynamo.updateItem w name p k upd cond vals in
  (snd reply = w /\
   (fst reply = Dynamo.ConditionalCheckFailed \/ fst reply = Dynamo.Validation)) \/
  (fst reply = inr emptyResponse /\
   exists item, snd reply = Dynamo.setRows w name (<[(p, k) := item]> rs)).
Proof.
  intros Hact. cbv zeta. unfold Dynamo.updateItem. rewrite Hact.
  destruct (String.eqb upd _ && String.eqb cond _); [| left; auto].
  destruct (rs !! (p, k)) as [old |].
  - destruct (Dynamo.assoc ":one" vals) as [[s | one | t] |]; try (left; now auto).
    destruct (Dynamo.assoc ":newRevision" vals); [| left; now auto].
    destruct (Dynamo.assoc ":now" vals); [| left; now auto].
    destruct (Dynamo.assoc ":document" vals); [| left; now auto].
    destruct (Dynamo.revisionIs (Some old) vals); [| left; now auto].
    destruct (old !! "seq") as [[s | n | t] |]; try (left; now auto);
      right; (split; [reflexivity | eexists; reflexivity]).
  - destruct (Dynamo.assoc ":one" vals) as [[s | one | t] |]; try (left; now auto).
    destruct (Dynamo.assoc ":newRevision" vals); [| left; now auto].
    destruct (Dynamo.assoc ":now" vals); [| left; now auto].
    destruct (Dynamo.assoc ":document" vals); left; now auto.
Qed.

(** X20. Writes touch one record. On an active table, whatever [add]
    and [update] are called with and however they end, every record of the
    table under another identity is stored afterwards as it was before. *)
Theorem writes_leave_other_records
    (fuel : nat) (ctx : Context) (table partition key revision : string) (document : J)
    (w : Dynamo.World) (tr : list Event) (rs : gmap (string * string) Item)
    (p' k' : string) :
  hasCredentials ctx = true ->
  Dynamo.activeRows w (Connection.tableName ctx table) = Some rs ->
  (p', k') <> (partition, key) ->
  stored (world (snd (Connection.add (S fuel) ctx table partition key document (mkSt w tr))))
    (Connection.tableName ctx table) p' k' = rs !! (p', k') /\
  stored (world (snd (Connection.update (S fuel) ctx table partition key revision document
                        (mkSt w tr))))
    (Connection.tableName ctx table) p' k' = rs !! (p', k').
Proof.
  intros Hc Hact Hne.
  set (name := Connection.tableName ctx table) in *.
  assert (Hsame : stored (snd (Dynamo.draw w)) name p' k' = rs !! (p', k')).
  { unfold stored. now rewrite activeRows_draw, Hact. }
  assert (Hset : forall item,
            stored (Dynamo.setRows (snd (Dynamo.draw w)) name
                      (<[(partition, key) := item]> rs)) name p' k' = rs !! (p', k')).
  { intros item. unfold stored. rewrite activeRows_setRows.
    apply lookup_insert_ne. congruence. }
  split.
  - rewrite add_attempt. cbv zeta. cbn [world trace]. fold name.
    change (randomUUID w) with (Dynamo.draw w).
    set (w0 := snd (Dynamo.draw w)) in *.
    match goal with
    | |- context [dbRequest (env ctx) "PutItem" ?body _] =>
        destruct (store_request ctx "PutItem" body w0 tr Hc) as [call [Hb E]]
    end.
    rewrite E. clear E. cbn [fst snd].
    unfold Dynamo.fetch. rewrite Hb.
    rewrite (putItem_active _ _ _ _ _ _ _ rs) by (subst w0; now rewrite activeRows_draw).
    destruct (rs !! (partition, key)) as [old |];
      [destruct (old !! "revision") |];
      cbn [fst snd settle world Dynamo.ConditionalCheckFailed Dynamo.failure];
      try apply Hset.
    change (isErrorType _ "ResourceNotFoundException") with false.
    change (isErrorType _ "ResourceInUseException") with false.
    change (isErrorType _ "ConditionalCheckFailedException") with true.
    cbv iota. cbn [snd world]. exact Hsame.
  - rewrite update_attempt. cbv zeta. cbn [world trace]. fold name.
    change (randomUUID w) with (Dynamo.draw w).
    set (w0 := snd (Dynamo.draw w)) in *.
    match goal with
    | |- context [dbRequest (env ctx) "UpdateItem" ?body _] =>
        destruct (store_request ctx "UpdateItem" body w0 tr Hc) as [call [Hb E]]
    end.
    rewrite E. clear E. cbn [fst snd].
    unfold Dynamo.fetch. rewrite Hb.
    match goal with
    | |- context [Dynamo.updateItem w0 name partition key ?u ?c ?v] =>
        destruct (updateItem_touches_one w0 name partition key u c v rs) as [[Hw Hr] | [Hr [item Hw]]];
          [subst w0; now rewrite activeRows_draw | |];
          cbv zeta in Hw, Hr;
          destruct (Dynamo.updateItem w0 name partition key u c v) as [reply w1]
    end; cbn [fst snd] in *; subst w1.
    + destruct Hr as [-> | ->];
        cbn [settle Dynamo.ConditionalCheckFailed Dynamo.Validation Dynamo.failure];
        [ change (isErrorType _ "ConditionalCheckFailedException") with true
        | change (isErrorType _ "ConditionalCheckFailedException") with false;
          change (isErrorType _ "ResourceInUseException") with false;
          change (isErrorType _ "ResourceNotFoundException") with false ];
        cbv iota; cbn [snd world]; exact Hsame.
    + subst reply. cbn [settle snd world]. apply Hset.
Qed.

End Frame.

Lemma writes_leave_other_records_witness :
  let name := Connection.tableName Sample.context "docs" in
  let w := world Sample.afterAdd in
  let rs : gmap (string * string) Item :=
    {[ ("p", "k") := Connection.newItem "p" "k" "cf1e2d3c4b5a49788695a4b3c2d1e0f9"
                       "2024-05-01T10:00:02.000Z" LTrue ]} in
  hasCredentials Sample.context = true /\
  Dynamo.activeRows w name = Some rs /\
  ("p", "k") <> ("p", "k2") /\
  stored (world (snd (Connection.add 1 Sample.context "docs" "p" "k2" LFalse (mkSt w []))))
    name "p" "k" = rs !! ("p", "k").
Proof.
  intros name w rs.
  assert (Hact : Dynamo.activeRows w name = Some rs) by (vm_compute; reflexivity).
  assert (Hne : ("p", "k") <> ("p", "k2")) by discriminate.
  split; [reflexivity |]. split; [exact Hact |]. split; [exact Hne |].
  exact (proj1 (writes_leave_other_records 0 Sample.context "docs" "p" "k2" "r" LFalse
                  w [] rs "p" "k" eq_refl Hact Hne)).
Defined.

(** ** The re-check and the query *)

Lemma ltb_leb (a b : string) : String.ltb a b = true -> String.leb a b = true.
Proof. unfold String.ltb, String.leb. now destruct (String.compare a b). Qed.

Lemma leb_ltb (a b : string) : String.leb a b = true -> a <> b -> String.ltb a b = true.
Proof.
  unfold String.ltb, String.leb. destruct (String.compare a b) eqn:E; try easy.
  apply String.compare_eq_iff in E. congruence.
Qed.

(** On ASCII text the code units are the bytes, and the two orders agree. *)
Lemma compareUnits_ascii (a b : string) :
  Js.isAscii a = true -> Js.isAscii b = true ->
  Js.compareUnits (Js.codeUnits a) (Js.codeUnits b) = String.compare a b.
Proof.
  revert b. induction a as [| x a IH]; intros [| y b]; unfold Js.isAscii;
    cbn [list_ascii_of_string forallb]; intros Ha Hb.
  - reflexivity.
  - apply andb_true_iff in Hb. destruct Hb as [Hy Hb].
    cbn [Js.codeUnits]. now rewrite Hy.
  - apply andb_true_iff in Ha. destruct Ha as [Hx Ha].
    cbn [Js.codeUnits]. now rewrite Hx.
  - apply andb_true_iff in Ha. destruct Ha as [Hx Ha].
    apply andb_true_iff in Hb. destruct Hb as [Hy Hb].
    cbn [Js.codeUnits]. rewrite Hx, Hy. cbn [Js.compareUnits String.compare].
    unfold Ascii.compare. now rewrite (IH b Ha Hb).
Qed.

Lemma le_ascii (a b : string) :
  Js.isAscii a = true -> Js.isAscii b = true -> Js.le a b = String.leb a b.
Proof.
  intros Ha Hb. unfold Js.le, String.leb. now rewrite compareUnits_ascii.
Qed.

Lemma lt_ascii (a b : string) :
  Js.isAscii a = true -> Js.isAscii b = true -> Js.lt a b = String.ltb a b.
Proof.
  intros Ha Hb. unfold Js.lt, String.ltb. now rewrite compareUnits_ascii.
Qed.

(** X21. On ASCII keys and bounds the re-check of [matchRange] is at
    least as strict as the key condition [queryFromRange] sends for the
    same range, read as the store reads it: a key the re-check accepts
    satisfies the condition. The other way round, for a prefix or an
    interval with a non-empty bound, a key that satisfies the condition
    passes the re-check unless it equals the upper bound, which the
    condition's [between] includes and the re-check excludes. Beyond ASCII
    neither holds, as the re-check orders keys by code units and the store
    by bytes: above the lower bound U+1F600 the re-check accepts the key
    U+FF5E, which the condition refuses, and above the lower bound U+FF5E
    the condition accepts the key U+1F600, which the re-check refuses. *)
Theorem recheck_refines_key_condition :
  (forall (partition k : string) (range : KeyRange) (cond : KeyCondition),
     asciiBounds (Some range) = true ->
     Js.isAscii k = true ->
     queryFromRange partition (Some range) = inr cond ->
     (matchRange (Some range) k = true ->
      Dynamo.keyCondition cond partition k = Some true) /\
     (match range with
      | WithPrefix _ => True
      | Interval after before => Js.truthy (value after) || Js.truthy (value before) = true
      end ->
      Dynamo.keyCondition cond partition k = Some true ->
      upperBound range <> Some k ->
      matchRange (Some range) k = true)) /\
  (exists cond,
     queryFromRange "p" (Some (Interval (Str Sample.grinningFace) Absent)) = inr cond /\
     matchRange (Some (Interval (Str Sample.grinningFace) Absent)) Sample.fullwidthTilde
       = true /\
     Dynamo.keyCondition cond "p" Sample.fullwidthTilde = Some false) /\
  (exists cond,
     queryFromRange "p" (Some (Interval (Str Sample.fullwidthTilde) Absent)) = inr cond /\
     Dynamo.keyCondition cond "p" Sample.grinningFace = Some true /\
     matchRange (Some (Interval (Str Sample.fullwidthTilde) Absent)) Sample.grinningFace
       = false).
Proof.
  split; [| split].
  - intros partition k range cond Hab Hk.
    destruct range as [s | after before]; cbn [queryFromRange].
    + intros [= <-]. unfold Dynamo.keyCondition, matchRange, Js.startsWith.
      cbn [QExpressionAttributeValues KeyConditionExpression Dynamo.exprS Dynamo.assoc
           String.eqb Ascii.eqb Bool.eqb option_map].
      rewrite String.eqb_refl. cbn [andb].
      split; [now intros -> | now intros _ [= ->] _].
    + cbn [asciiBounds] in Hab. apply andb_true_iff in Hab. destruct Hab as [Haa Hbb].
      destruct (present before || present after) eqn:Hp; [| discriminate].
      intros [= <-]. unfold Dynamo.keyCondition, matchRange. rewrite Hp.
      cbn [QExpressionAttributeValues KeyConditionExpression Dynamo.exprS Dynamo.assoc
           String.eqb Ascii.eqb Bool.eqb upperBound].
      rewrite String.eqb_refl.
      destruct (value after) as [a |], (value before) as [b |];
        cbn [andAttr str Js.nullish_or] in *;
        try (destruct (Js.truthy (Some a)) eqn:Ha);
        try (destruct (Js.truthy (Some b)) eqn:Hb);
        change (Js.truthy None) with false;
        cbn [app join String.append String.eqb Ascii.eqb Bool.eqb option_map orb andb
             Dynamo.exprS Dynamo.assoc];
        rewrite ?le_ascii, ?lt_ascii by assumption;
        (split;
         [ try discriminate; try reflexivity
         | try (intros Hf; discriminate Hf) ]).
      * intros E. apply andb_true_iff in E. destruct E as [E1 E2].
        now rewrite E1, (ltb_leb _ _ E2).
      * intros _ [= E] Hne. apply andb_true_iff in E. destruct E as [E1 E2].
        rewrite E1. cbn [andb]. apply leb_ltb; [exact E2 | congruence].
      * now intros ->.
      * now intros _ [= ->] _.
      * now intros ->.
      * now intros _ [= ->] _.
      * now intros ->.
      * now intros _ [= ->] _.
      * now intros ->.
      * now intros _ [= ->] _.
  - eexists. split; [reflexivity |]. split; vm_compute; reflexivity.
  - eexists. split; [reflexivity |]. split; vm_compute; reflexivity.
Qed.

Lemma recheck_refines_key_condition_witness :
  let range := Interval (Str "a") (Str "c") in
  let cond :=
    {| KeyConditionExpression := "#p = :p and #k between :after and :before";
       ExpressionAttributeNames := [("#p", "partition"); ("#k", "key")];
       QExpressionAttributeValues :=
         [(":p", EvAttr (AttrS "p")); (":before", EvAttr (AttrS "c"));
          (":after", EvAttr (AttrS "a"))] |} in
  asciiBounds (Some range) = true /\
  Js.isAscii "b" = true /\
  queryFromRange "p" (Some range) = inr cond /\
  matchRange (Some range) "b" = true /\
  Dynamo.keyCondition cond "p" "b" = Some true /\
  Dynamo.keyCondition cond "p" "c" = Some true /\
  matchRange (Some range) "c" = false /\
  Js.isAscii Sample.grinningFace = false /\
  matchRange (Some (Interval (Str Sample.grinningFace) Absent)) Sample.fullwidthTilde = true /\
  matchRange (Some (Interval (Str Sample.fullwidthTilde) Absent)) Sample.grinningFace = false.
Proof.
  intros range cond.
  assert (Hq : queryFromRange "p" (Some range) = inr cond) by reflexivity.
  assert (Hm : matchRange (Some range) "b" = true) by reflexivity.
  split; [reflexivity |]. split; [reflexivity |].
  split; [exact Hq |]. split; [exact Hm |].
  split; [| repeat split; reflexivity].
  exact (proj1 (proj1 recheck_refines_key_condition "p" "b" range cond
                  eq_refl eq_refl Hq) Hm).
Defined.

(** ** Scans of the model of the remote store *)

Section StoreScan.
Context {J : Type} `{Json J}.





End StoreScan.


(** ** Lazy creation of the table *)

Section Creation.
Context {J : Type} `{Json J}.

(** An attempt of [add] on a table that is not active, with the store it
    leaves for the next attempt. *)
Lemma add_failed_attempt (fuel : nat) (ctx : Context) (table partition key : string)
    (document : J) (w : Dynamo.World) (tr : list Event) :
  hasCredentials ctx = true ->
  Dynamo.activeRows w (Connection.tableName ctx table) = None ->
  exists tr1,
    Connection.add (S fuel) ctx table partition key document (mkSt w tr) =
    Connection.add fuel ctx table partition key document
      (mkSt (afterFailedAttempt w (Connection.tableName ctx table)) tr1).
Proof.
  intros Hc Hact. set (name := Connection.tableName ctx table) in *.
  rewrite add_attempt. cbv zeta. cbn [world trace].
  change (randomUUID w) with (Dynamo.draw w).
  unfold afterFailedAttempt.
  set (w0 := snd (Dynamo.draw w)).
  set (item := Connection.newItem partition key _ _ document).
  destruct (store_request ctx "PutItem"
              (PutItemBody name item "attribute_not_exists(revision)") w0 tr Hc)
    as [call [Hb E]].
  fold name. rewrite E. clear E. cbn [fst snd].
  assert (Hfetch : Dynamo.fetch call w0 = (Dynamo.ResourceNotFound, w0)).
  { unfold Dynamo.fetch. rewrite Hb. unfold Dynamo.putItem.
    subst w0. now rewrite activeRows_draw, Hact. }
  rewrite Hfetch. cbn [fst snd settle Dynamo.ResourceNotFound Dynamo.failure].
  change (isErrorType _ "ResourceNotFoundException") with true. cbv iota.
  set (tr0 := (tr ++ [EvFetch call])%list).
  unfold bind at 1. rewrite createTable_by_request. cbv zeta. fold name.
  destruct (store_request ctx "CreateTable"
              (CreateTableBody name [("partition", "S"); ("key", "S")]
                 [("partition", "HASH"); ("key", "RANGE")]
                 (Connection.tableOptions ctx)) w0 tr0 Hc)
    as [call' [Hb' E']].
  rewrite E'. clear E'. cbn [fst snd].
  unfold Dynamo.fetch at 1 2. rewrite Hb'. unfold Dynamo.createTable.
  destruct (Dynamo.tables w0 !! name) as [t |].
  - cbn [fst snd settle Dynamo.ResourceInUse Dynamo.failure].
    change (isErrorType _ "ResourceInUseException") with true. cbv iota.
    unfold bind. rewrite sleep_second. eexists. reflexivity.
  - cbn [fst snd settle]. unfold bind. rewrite sleep_second. eexists. reflexivity.
Qed.

Lemma rows_age (t : Dynamo.Table) : Dynamo.rows (Dynamo.age t) = Dynamo.rows t.
Proof. unfold Dynamo.age. now destruct (Dynamo.status t) as [[| n] |]. Qed.

(** What a failed attempt does to the tables: the table of the name is
    there afterwards, one step closer to active, with the rows it had (none
    if it was created); the rows of every other table are as they were. *)
Lemma afterFailedAttempt_tables (w : Dynamo.World) (name : string) :
  Dynamo.activeRows w name = None ->
  S (attempts (afterFailedAttempt w name) name) = attempts w name /\
  rowsOf (afterFailedAttempt w name) name =
    Some (default ∅ (rowsOf w name)) /\
  Dynamo.provisioning (afterFailedAttempt w name) = Dynamo.provisioning w /\
  forall other, other <> name ->
    rowsOf (afterFailedAttempt w name) other = rowsOf w other.
Proof.
  intros Hact. unfold afterFailedAttempt, attempts, rowsOf, Dynamo.activeRows in *.
  change (Dynamo.tables (snd (Dynamo.draw w))) with (Dynamo.tables w).
  change (Dynamo.provisioning (snd (Dynamo.draw w))) with (Dynamo.provisioning w).
  destruct (Dynamo.tables w !! name) as [t |] eqn:Ht.
  - rewrite !lookup_tick.
    change (Dynamo.tables (snd (Dynamo.draw w))) with (Dynamo.tables w).
    rewrite Ht. cbn [fmap option_fmap option_map default].
    split; [| split; [now rewrite rows_age | split; [reflexivity |]]].
    + unfold Dynamo.age. destruct (Dynamo.status t) as [[| n] |];
        cbn [Dynamo.status]; [lia | lia | discriminate].
    + intros other _. rewrite lookup_tick.
      change (Dynamo.tables (snd (Dynamo.draw w))) with (Dynamo.tables w).
      destruct (Dynamo.tables w !! other) as [t' |]; cbn; [now rewrite rows_age | reflexivity].
  - rewrite !lookup_tick. unfold Dynamo.withTables. cbn [Dynamo.tables].
    rewrite lookup_insert_eq. cbn [fmap option_fmap option_map default].
    split; [| split; [now rewrite rows_age | split; [reflexivity |]]].
    + unfold Dynamo.age. cbn [Dynamo.status].
      change (Dynamo.provisioning (snd (Dynamo.draw w))) with (Dynamo.provisioning w).
      destruct (Dynamo.provisioning w); cbn [Dynamo.status]; lia.
    + intros other Hne. rewrite lookup_tick. cbn [Dynamo.tables].
      rewrite lookup_insert_ne by congruence.
      destruct (Dynamo.tables w !! other) as [t' |]; cbn; [now rewrite rows_age | reflexivity].
Qed.

(** [add] on a table that is missing, or there without rows. *)
Lemma add_on_empty_table (ctx : Context) (table partition key : string) (document : J) :
  hasCredentials ctx = true ->
  forall fuel (w : Dynamo.World) (tr : list Event),
    default ∅ (rowsOf w (Connection.tableName ctx table)) = ∅ ->
    attempts w (Connection.tableName ctx table) <= fuel ->
    exists revision st1 item,
      Connection.add fuel ctx table partition key document (mkSt w tr) =
        (Return revision, st1) /\
      Dynamo.activeRows (world st1) (Connection.tableName ctx table) =
        Some {[ (partition, key) := item ]} /\
      item !! "revision" = Some (AttrS revision) /\
      forall other, other <> Connection.tableName ctx table ->
        rowsOf (world st1) other = rowsOf w other.
Proof.
  intros Hc. set (name := Connection.tableName ctx table).
  induction fuel as [| fuel IH]; intros w tr Hempty Hfuel.
  { pose proof (attempts_positive w name). lia. }
  destruct (Dynamo.activeRows w name) as [rs |] eqn:Hact.
  - assert (Hrs : rs = ∅).
    { unfold Dynamo.activeRows, rowsOf in *.
      destruct (Dynamo.tables w !! name) as [t |]; [| discriminate].
      destruct (Dynamo.status t); [discriminate |]. injection Hact as <-. exact Hempty. }
    subst rs.
    destruct (add_stores fuel ctx table partition key document w tr ∅ Hc Hact
                (lookup_empty _)) as [call E].
    eexists _, _, _. split; [exact E |]. cbn [world]. fold name.
    split; [rewrite activeRows_setRows; now rewrite insert_empty |].
    split; [apply newItem_revision |].
    intros other Hne. unfold rowsOf, Dynamo.setRows, Dynamo.withTables.
    cbn [Dynamo.tables]. now rewrite lookup_insert_ne by congruence.
  - destruct (add_failed_attempt fuel ctx table partition key document w tr Hc Hact)
      as [tr1 E].
    destruct (afterFailedAttempt_tables w name Hact) as [Hless [Hrows [_ Hothers]]].
    rewrite E. fold name.
    destruct (IH (afterFailedAttempt w name) tr1) as [rev [st1 [item [E1 [Ha [Hr Ho]]]]]].
    { rewrite Hrows. exact Hempty. }
    { lia. }
    exists rev, st1, item. split; [exact E1 |]. split; [exact Ha |]. split; [exact Hr |].
    intros other Hne. rewrite (Ho other Hne). now apply Hothers.
Qed.

(** X23. Lazy creation. On a store that has no table of the name, [add]
    returns a revision as soon as it is allowed one attempt more than the
    seconds a new table needs to become active, plus one; the table is then
    there and active, and holds the added record, with the revision
    returned, and nothing else. The rows of every other table are as they
    were. *)
Theorem add_creates_missing_table
    (fuel : nat) (ctx : Context) (table partition key : string) (document : J)
    (w : Dynamo.World) (tr : list Event) :
  hasCredentials ctx = true ->
  Dynamo.tables w !! Connection.tableName ctx table = None ->
  Dynamo.provisioning w + 2 <= fuel ->
  exists revision st1 item,
    Connection.add fuel ctx table partition key document (mkSt w tr) =
      (Return revision, st1) /\
    Dynamo.activeRows (world st1) (Connection.tableName ctx table) =
      Some {[ (partition, key) := item ]} /\
    item !! "revision" = Some (AttrS revision) /\
    forall other, other <> Connection.tableName ctx table ->
      rowsOf (world st1) other = rowsOf w other.
Proof.
  intros Hc Hnone Hfuel.
  apply add_on_empty_table; [exact Hc | |].
  - unfold rowsOf. now rewrite Hnone.
  - unfold attempts. now rewrite Hnone.
Qed.

End Creation.

Lemma add_creates_missing_table_witness :
  let name := Connection.tableName Sample.context "docs" in
  hasCredentials Sample.context = true /\
  Dynamo.tables Sample.emptyStore !! name = None /\
  Dynamo.provisioning Sample.emptyStore + 2 <= 3 /\
  exists revision st1 item,
    Connection.add 3 Sample.context "docs" "p" "k" LTrue (mkSt Sample.emptyStore []) =
      (Return revision, st1) /\
    Dynamo.activeRows (world st1) name = Some {[ ("p", "k") := item ]} /\
    item !! "revision" = Some (AttrS revision) /\
    forall other, other <> name -> rowsOf (world st1) other = rowsOf Sample.emptyStore other.
Proof.
  intros name.
  assert (Hf : Dynamo.provisioning Sample.emptyStore + 2 <= 3) by (vm_compute; lia).
  split; [reflexivity |]. split; [reflexivity |]. split; [exact Hf |].
  exact (add_creates_missing_table 3 Sample.context "docs" "p" "k" LTrue
           Sample.emptyStore [] eq_refl eq_refl Hf).
Defined.
